(** * request-baskets, Deta Base backend

    A shallow embedding of [baskets_deta.go] (the [detaBasket] and
    [detaDatabase] types, which implement the [Basket] and
    [BasketsDatabase] interfaces on top of a Deta Base collection) and of
    the HTTP handlers of [handlers.go] that create and configure baskets.

    Conventions.
    - A Go [int] is a [Z] in the range of a signed 64-bit word; the
      arithmetic the code performs on it wraps around ([GoInt.wrap]).
    - A Go [string] is a [string] (a sequence of bytes).
    - A Go slice is a [list]; a slice expression out of range panics.
      [make] with a capacity panics where the runtime does not allocate
      it, as it does not for a negative capacity or one beyond what it
      can address; which other capacities it allocates is left to the
      runtime ([GoRuntime]).
    - The Deta service hands out a listing of the collection in pages
      of its choice ([DetaService]).
    - A Go map keyed by strings is a [gmap string _].
    - A method of [*detaBasket] mutates the receiver and talks to the Deta
      Base collection: it becomes a function from the receiver to a
      computation in the monad [M], which threads the collection and
      stops at a panic; the result carries the receiver as mutated.  The
      mutex of a basket is not modelled: calls are sequential. *)

From Stdlib Require Import ZArith Lia Ascii String List Bool.
From stdpp Require Import base option list strings gmap fin_maps.

Local Open Scope Z_scope.

(** ** Go integers *)

Module GoInt.

Definition min_int : Z := - 2 ^ 63.
Definition max_int : Z := 2 ^ 63 - 1.

(** The value a 64-bit two's complement word holds for the integer [z]. *)
Definition wrap (z : Z) : Z := (z + 2 ^ 63) mod 2 ^ 64 - 2 ^ 63.

Definition add (a b : Z) : Z := wrap (a + b).
Definition sub (a b : Z) : Z := wrap (a - b).

(** [len(s)] of a slice. *)
Definition len {A} (s : list A) : Z := Z.of_nat (length s).

(** The slice expression [s[lo:hi]]; it panics ([None]) unless
    [0 <= lo <= hi <= len(s)].  (Go allows [hi] up to [cap(s)]; every
    slice expression of the embedded code has [hi <= len(s)] when it does
    not panic.) *)
Definition slice {A} (s : list A) (lo hi : Z) : option (list A) :=
  if (0 <=? lo) && (lo <=? hi) && (hi <=? len s)
  then Some (take (Z.to_nat (hi - lo)) (drop (Z.to_nat lo) s))
  else None.

(** The bytes a 64-bit runtime can address for one allocation at most
    ([maxAlloc], 48 address bits), and the sizes of a pointer and of a
    string header. *)
Definition maxAlloc : Z := 2 ^ 48.
Definition ptr_size : Z := 8.
Definition string_size : Z := 16.

End GoInt.

(** [make([]T, 0, cap)] for an element of [size] bytes: [makeslice]
    tells whether the allocation returns.  [runtime.makeslice] panics
    for a negative capacity and for one whose bytes exceed [maxAlloc]
    ("cap out of range"); within these bounds the allocation returns
    where the runtime finds the memory, which the code does not
    decide. *)
Class GoRuntime := {
  makeslice : Z -> Z -> bool;
  makeslice_range : forall size cap,
    makeslice size cap = true -> 0 <= cap /\ size * cap <= GoInt.maxAlloc
}.

(** ** Go strings *)

Module strings.

(** [strings.Contains(s, substr)]: [substr] occurs in [s]. *)
Fixpoint Contains (s substr : string) : bool :=
  String.prefix substr s ||
  match s with
  | EmptyString => false
  | String _ s' => Contains s' substr
  end.

(** [strings.HasPrefix(s, prefix)] *)
Definition HasPrefix (s prefix : string) : bool := String.prefix prefix s.

(** [s[n:]] for [n <= len(s)] *)
Fixpoint from (n : nat) (s : string) : string :=
  match n, s with
  | S n, String _ s => from n s
  | _, _ => s
  end.

(** [strings.TrimPrefix(s, prefix)] *)
Definition TrimPrefix (s prefix : string) : string :=
  if HasPrefix s prefix then from (String.length prefix) s else s.

(** [strings.ReplaceAll(s, old, new)] for an [old] of one byte *)
Fixpoint ReplaceAll_byte (s : string) (old : ascii) (new : string) : string :=
  match s with
  | EmptyString => EmptyString
  | String c s =>
      if Ascii.eqb c old then String.append new (ReplaceAll_byte s old new)
      else String c (ReplaceAll_byte s old new)
  end.

(** [strings.Split(s, sep)] for a separator of one byte: the pieces of
    [s] between the separators, at least one. *)
Fixpoint Split_byte (s : string) (sep : ascii) : list string :=
  match s with
  | EmptyString => [EmptyString]
  | String c s =>
      if Ascii.eqb c sep then EmptyString :: Split_byte s sep
      else match Split_byte s sep with
           | piece :: pieces => String c piece :: pieces
           | [] => [String c EmptyString]
           end
  end.

End strings.

(** ** Data model *)

(** Modelled from the spec: the [BasketConfig] struct is declared outside
    the embedded files; section 3 of the specification lists its fields
    (forward URL, capacity, proxy-response flag, insecure-TLS flag,
    expand-path flag).  The code reads [ForwardURL], [Capacity],
    [ProxyResponse] and [InsecureTLS]. *)
Record BasketConfig := mkBasketConfig {
  ForwardURL : string;
  ProxyResponse : bool;
  InsecureTLS : bool;
  ExpandPath : bool;
  Capacity : Z
}.

(** Modelled from the spec: the [ResponseConfig] struct is declared
    outside the embedded files (status, header multimap, body, template
    flag).  The code reads [Status], [Headers], [Body], [IsTemplate]. *)
Record ResponseConfig := mkResponseConfig {
  Status : Z;
  Headers : list (string * list string);
  Body : string;
  IsTemplate : bool
}.

(** Modelled from the spec: the [RequestData] struct (the request
    snapshot) and its method [Matches] are declared outside the embedded
    files.  The snapshot keeps the arrival date, the header block, the
    body with its length, the method, the path and the raw query. *)
Module RequestData.

Record t := mk {
  Date : Z;
  Header : string;
  ContentLength : Z;
  Body : string;
  Method : string;
  Path : string;
  Query : string
}.

(** Modelled from the spec: [Matches] is declared outside the embedded
    files.  Section 4.1: a snapshot matches when [query] is a
    case-sensitive substring of the raw body ([in = "body"]), of the
    serialized header block ([in = "headers"]), of the raw query string
    ([in = "query"]), or of any of the three ([in = "any"] or an
    unrecognized value). *)
Definition Matches (req : t) (query : string) (in_ : string) : bool :=
  if String.eqb in_ "body" then strings.Contains (Body req) query
  else if String.eqb in_ "query" then strings.Contains (Query req) query
  else if String.eqb in_ "headers" then strings.Contains (Header req) query
  else strings.Contains (Body req) query
       || strings.Contains (Query req) query
       || strings.Contains (Header req) query.

End RequestData.

(** [detaBasket]: the fields the JSON tags name (the item stored in the
    collection has the same fields, see [basketData]); [sync.RWMutex] is
    left out and the [base] pointer is the collection threaded by [M]. *)
Record detaBasket := mkBasket {
  Key : string;
  Token : string;
  BConfig : BasketConfig;
  Requests : list RequestData.t;
  TotalCount : Z;
  Responses : gmap string ResponseConfig
}.

Definition with_BConfig (c : BasketConfig) (b : detaBasket) : detaBasket :=
  mkBasket (Key b) (Token b) c (Requests b) (TotalCount b) (Responses b).
Definition with_Requests (rs : list RequestData.t) (b : detaBasket) : detaBasket :=
  mkBasket (Key b) (Token b) (BConfig b) rs (TotalCount b) (Responses b).
Definition with_TotalCount (n : Z) (b : detaBasket) : detaBasket :=
  mkBasket (Key b) (Token b) (BConfig b) (Requests b) n (Responses b).
Definition with_Responses (m : gmap string ResponseConfig) (b : detaBasket) : detaBasket :=
  mkBasket (Key b) (Token b) (BConfig b) (Requests b) (TotalCount b) m.

(** ** The Deta Base collection

    The collection "baskets" is a finite map from keys to items.  The
    client library is not part of the repository; its operations are
    embedded as the code uses them: [Insert] refuses a key that is taken,
    [Get] fails on a key that is absent, [Update] applies a set of field
    updates to an existing item, where a field is set to a value,
    prepended to ([Util.Prepend]) or incremented ([Util.Increment]). *)

Abbreviation Base := (gmap string detaBasket).

(** A computation over the collection that may panic. *)
Definition M (A : Type) : Type := Base -> option (A * Base).

Definition ret {A} (a : A) : M A := fun σ => Some (a, σ).
Definition bind {A B} (c : M A) (k : A -> M B) : M B :=
  fun σ => match c σ with
           | Some (a, σ') => k a σ'
           | None => None
           end.
Definition panic {A} : M A := fun _ => None.
(** A pure computation that may panic, run inside [M]. *)
Definition lift {A} (o : option A) : M A :=
  fun σ => match o with Some a => Some (a, σ) | None => None end.

Notation "x <- c ;; k" := (bind c (fun x => k))
  (at level 100, c at next level, right associativity).
Notation "c ;;; k" := (bind c (fun _ => k))
  (at level 100, right associativity).

Module base.

(** One entry of a [base.Updates] map, as the code builds them. *)
Inductive update :=
| SetRequests (rs : list RequestData.t)   (* "requests": basket.Requests *)
| PrependRequest (data : RequestData.t)   (* "requests": Util.Prepend(data) *)
| IncrementTotalCount (n : Z)             (* "totalCount": Util.Increment(n) *)
| SetConfig (config : BasketConfig)       (* "config": config *)
| SetResponseOf (method : string) (response : ResponseConfig).
                                          (* "responses.<method>": response *)

Definition apply (item : detaBasket) (u : update) : detaBasket :=
  match u with
  | SetRequests rs => with_Requests rs item
  | PrependRequest data => with_Requests (data :: Requests item) item
  | IncrementTotalCount n => with_TotalCount (GoInt.add (TotalCount item) n) item
  | SetConfig config => with_BConfig config item
  | SetResponseOf method response =>
      with_Responses (<[method := response]> (Responses item)) item
  end.

(** [base.Update(key, updates)]; the code drops the error it returns for
    an absent key. *)
Definition updated (key : string) (updates : list update) (σ : Base) : Base :=
  match σ !! key with
  | Some item => <[key := foldl apply item updates]> σ
  | None => σ
  end.
Definition Update (key : string) (updates : list update) : M unit :=
  fun σ => Some (tt, updated key updates σ).

(** [base.Insert(item)]: [false] stands for the error of a taken key. *)
Definition Insert (item : detaBasket) : M bool :=
  fun σ => match σ !! Key item with
           | Some _ => Some (false, σ)
           | None => Some (true, <[Key item := item]> σ)
           end.

(** [base.Get(key, dest)]. *)
Definition Get (key : string) : M (option detaBasket) :=
  fun σ => Some (σ !! key, σ).

(** [base.Delete(key)]. *)
Definition Delete (key : string) : M unit :=
  fun σ => Some (tt, delete key σ).

End base.

(** [base.Fetch]: the service hands out the items of the collection in
    pages; [Fetch_pages] are the pages of one listing, from the first
    call to the call that returns an empty last key.  Where the pages
    are cut is the service's choice. *)
Class DetaService := {
  Fetch_pages : Base -> list (list detaBasket);
  Fetch_pages_items : forall σ, concat (Fetch_pages σ) ≡ₚ (map_to_list σ).*2
}.

(** ** [detaBasket]: the [Basket] interface *)

Module RequestsPage.
Record t := mk {
  Requests : list RequestData.t;
  Count : Z;
  TotalCount : Z;
  HasMore : bool
}.
End RequestsPage.

Module RequestsQueryPage.
Record t := mk {
  Requests : list RequestData.t;
  HasMore : bool
}.
End RequestsQueryPage.

Module Basket.

(** Keep requests up to the specified capacity.  The slice expression
    [basket.Requests[:Capacity]] panics on a negative capacity. *)
Definition applyLimit (basket : detaBasket) : M detaBasket :=
  if Capacity (BConfig basket) <? GoInt.len (Requests basket) then
    rs <- lift (GoInt.slice (Requests basket) 0 (Capacity (BConfig basket))) ;;
    let basket := with_Requests rs basket in
    base.Update (Key basket) [base.SetRequests (Requests basket)] ;;;
    ret basket
  else ret basket.

Definition Config (basket : detaBasket) : BasketConfig := BConfig basket.

Definition Update (config : BasketConfig) (basket : detaBasket) : M detaBasket :=
  let basket := with_BConfig config basket in
  basket <- applyLimit basket ;;
  base.Update (Key basket) [base.SetConfig config] ;;;
  ret basket.

Definition Authorize (token : string) (basket : detaBasket) : bool :=
  String.eqb token (Token basket).

Definition GetResponse (method : string) (basket : detaBasket) : option ResponseConfig :=
  Responses basket !! method.

Definition SetResponse (method : string) (response : ResponseConfig)
    (basket : detaBasket) : M detaBasket :=
  let basket := with_Responses (<[method := response]> (Responses basket)) basket in
  base.Update (Key basket) [base.SetResponseOf method response] ;;;
  ret basket.

(** [Add(req)], where [data] is the snapshot [ToRequestData(req)] (a
    function declared outside the embedded files).  Returns the snapshot
    and the receiver. *)
Definition Add (data : RequestData.t) (basket : detaBasket)
    : M (RequestData.t * detaBasket) :=
  (* insert in front of collection *)
  let basket := with_Requests (data :: Requests basket) basket in
  (* keep total number of all collected requests *)
  let basket := with_TotalCount (GoInt.add (TotalCount basket) 1) basket in
  (* apply limits according to basket capacity *)
  basket <- applyLimit basket ;;
  base.Update (Key basket)
    [base.PrependRequest data; base.IncrementTotalCount 1] ;;;
  ret (data, basket).

(** [Clear()]; [make([]*RequestData, 0, Capacity)] panics where the
    runtime does not allocate that capacity. *)
Definition Clear {runtime : GoRuntime} (basket : detaBasket) : M detaBasket :=
  (* reset collected requests; the reset of the total counter is
     commented out in the source *)
  if negb (makeslice GoInt.ptr_size (Capacity (BConfig basket))) then panic
  else
    let basket := with_Requests [] basket in
    base.Update (Key basket) [base.SetRequests (Requests basket)] ;;;
    ret basket.

Definition Size (basket : detaBasket) : Z := GoInt.len (Requests basket).

(** [GetRequests] only reads the receiver; [None] is a panic of the slice
    expression [basket.Requests[skip:last]]. *)
Definition GetRequests (max skip : Z) (basket : detaBasket)
    : option RequestsPage.t :=
  let size := Size basket in
  let last := GoInt.add skip max in
  let HasMore := last <? size in
  if skip <? size then
    let last := if size <? last then size else last in
    rs ← GoInt.slice (Requests basket) skip last;
    Some (RequestsPage.mk rs size (TotalCount basket) HasMore)
  else
    Some (RequestsPage.mk [] size (TotalCount basket) HasMore).

(** The loop of [FindRequests] from position [index] on: [rest] are the
    requests not visited yet, [n] is [len(basket.Requests)]. *)
Fixpoint FindRequests_loop (query in_ : string) (max skip : Z) (n : Z)
    (index : Z) (result : list RequestData.t) (skipped : Z)
    (rest : list RequestData.t) : RequestsQueryPage.t :=
  match rest with
  | [] =>
      (* whole basket is scanned through *)
      RequestsQueryPage.mk result false
  | request :: rest =>
      (* filter *)
      let '(result, skipped) :=
        if RequestData.Matches request query in_ then
          if skipped <? skip then (result, GoInt.add skipped 1)
          else (result ++ [request], skipped)
        else (result, skipped) in
      (* early exit *)
      if GoInt.len result =? max then
        RequestsQueryPage.mk result (index <? GoInt.sub n 1)
      else
        FindRequests_loop query in_ max skip n (GoInt.add index 1) result skipped rest
  end.

(** [FindRequests] only reads the receiver; [make([]*RequestData, 0, max)]
    panics where the runtime does not allocate that capacity. *)
Definition FindRequests {runtime : GoRuntime} (query in_ : string) (max skip : Z)
    (basket : detaBasket) : option RequestsQueryPage.t :=
  if negb (makeslice GoInt.ptr_size max) then None
  else Some (FindRequests_loop query in_ max skip
               (GoInt.len (Requests basket)) 0 [] 0 (Requests basket)).

End Basket.

(** ** Errors

    The values the code builds with [fmt.Errorf], or receives from the
    libraries it calls, one constructor per place. *)
Inductive error :=
| ErrGenerateToken                       (* "failed to generate token: ..." *)
| ErrBasketExists (name : string)        (* "Basket with name '...' already exists" *)
| ErrCapacityNotPositive (capacity : Z)  (* "capacity should be a positive number, but was ..." *)
| ErrCapacityTooLarge (max : Z)          (* "capacity may not be greater than ..." *)
| ErrForwardURL                          (* the error of url.ParseRequestURI *)
| ErrStatus (status : Z)                 (* "invalid HTTP status of response: ..." *)
| ErrTemplate                            (* "error in body ..." *)
| ErrUnknownMethod (method : string)     (* "unknown HTTP method: ..." *)
| ErrJSON                                (* the error of json.Unmarshal *)
| ErrRead.                               (* the error of ioutil.ReadAll *)

Inductive result (A : Type) :=
| Ok (a : A)
| Err (e : error).
Arguments Ok {A} a.
Arguments Err {A} e.

(** ** [detaDatabase]: the [BasketsDatabase] interface *)

(** Modelled from the spec: the [BasketAuth] struct is declared outside
    the embedded files; it carries the token returned at creation. *)
Module BasketAuth.
Record t := mk { Token : string }.
End BasketAuth.

Module BasketNamesPage.
Record t := mk {
  Names : list string;
  Count : Z;
  HasMore : bool
}.
End BasketNamesPage.

Module BasketNamesQueryPage.
Record t := mk {
  Names : list string;
  HasMore : bool
}.
End BasketNamesQueryPage.

(** [detaDatabase]: the [base] pointer is the collection threaded by [M];
    [keys] caches the names of the last listing (a nil slice is []). *)
Record detaDatabase := mkDatabase { keys : list string }.

Module BasketsDatabase.

(** The item [Create] inserts. *)
Definition basketData (name token : string) (config : BasketConfig) : detaBasket :=
  {| Key := name;
     Token := token;
     Requests := [];
     BConfig := config;
     Responses := ∅;
     TotalCount := 0 |}.

(** [Create(name, config)].  [generated] is what [GenerateToken()] (a
    function declared outside the embedded files, drawing random bytes)
    returns in this call: a token, or [None] for an error. *)
Definition Create {runtime : GoRuntime} (generated : option string) (name : string)
    (config : BasketConfig) : M (result BasketAuth.t) :=
  match generated with
  | None => ret (Err ErrGenerateToken)
  | Some token =>
      (* make([]*RequestData, 0, config.Capacity) *)
      if negb (makeslice GoInt.ptr_size (Capacity config)) then panic
      else
        inserted <- base.Insert (basketData name token config) ;;
        if inserted : bool then ret (Ok (BasketAuth.mk token))
        else ret (Err (ErrBasketExists name))
  end.

(** [Get(name)]: a fresh [detaBasket] decoded from the stored item, or
    nil. *)
Definition Get (name : string) : M (option detaBasket) := base.Get name.

Definition Delete (name : string) : M unit := base.Delete name.

(** [json.Unmarshal] of the items of a page into the slice [baskets]
    of [Dest: &baskets], element by element.  The baskets the code
    holds pointers to are the cells of [heap], a pointer is the
    position of its cell; [backing] are the pointers the slice holds
    from the pages before.  Where the slice holds a pointer, the item is
    decoded into the basket it points to; beyond, the slice grows by a
    pointer to a new basket.  The result is the heap and the pointers
    of the page. *)
Fixpoint decode_page (heap : list detaBasket) (backing : list nat)
    (page : list detaBasket) : list detaBasket * list nat :=
  match page with
  | [] => (heap, [])
  | item :: page =>
      match backing with
      | p :: backing =>
          let '(heap, baskets) := decode_page (<[p := item]> heap) backing page in
          (heap, p :: baskets)
      | [] =>
          let p := length heap in
          let '(heap, baskets) := decode_page (heap ++ [item]) [] page in
          (heap, p :: baskets)
      end
  end.

(** One [Fetch]: the heap, the pointers the slice holds afterwards
    (those of the page, and behind them what is left of the earlier
    ones), and the slice [baskets], which are the pointers of the page.
    For a page without items the decoder sets a new, empty slice. *)
Definition Fetch_into (heap : list detaBasket) (backing : list nat)
    (page : list detaBasket) : list detaBasket * list nat * list nat :=
  match page with
  | [] => (heap, [], [])
  | _ =>
      let '(heap, baskets) := decode_page heap backing page in
      (heap, baskets ++ drop (length page) backing, baskets)
  end.

(** The first [Fetch] and the loop [for lastKey != ""] of [GetAllNames]
    over the pages of the listing; [results] are the pointers appended
    so far. *)
Fixpoint fetch_all (pages : list (list detaBasket)) (heap : list detaBasket)
    (backing results : list nat) : list detaBasket * list nat :=
  match pages with
  | [] => (heap, results)
  | page :: pages =>
      let '(heap, backing, baskets) := Fetch_into heap backing page in
      (* append page items to all results *)
      fetch_all pages heap backing (results ++ baskets)
  end.

(** [GetAllNames()]: the key of the basket every pointer of [results]
    points to once all pages are fetched. *)
Definition GetAllNames {deta : DetaService} : M (list string) :=
  fun σ =>
    let '(heap, results) := fetch_all (Fetch_pages σ) [] [] [] in
    Some (omap (λ v, Key <$> heap !! v) results, σ).

Definition Size {deta : DetaService} : M Z :=
  names <- GetAllNames ;; ret (GoInt.len names).

Definition GetNames {deta : DetaService} (max skip : Z) (db : detaDatabase)
    : M (BasketNamesPage.t * detaDatabase) :=
  db <- (if (skip =? 0) || bool_decide (keys db = [])
         then names <- GetAllNames ;; ret (mkDatabase names)
         else ret db) ;;
  let size := GoInt.len (keys db) in
  let last := GoInt.add skip max in
  let HasMore := last <? size in
  if skip <? size then
    let last := if size <? last then size else last in
    names <- lift (GoInt.slice (keys db) skip last) ;;
    ret (BasketNamesPage.mk names size HasMore, db)
  else
    ret (BasketNamesPage.mk [] size HasMore, db).

(** [FindNames(query, max, skip)]: the scan over the names is commented
    out in the source; what is left allocates the result with capacity
    [max] (a panic where the runtime does not allocate it) and returns
    it. *)
Definition FindNames {runtime : GoRuntime} (query : string) (max skip : Z)
    (db : detaDatabase) : M BasketNamesQueryPage.t :=
  if negb (makeslice GoInt.string_size max) then panic
  else
    let result : list string := [] in
    (* whole database is scanned through *)
    ret (BasketNamesQueryPage.mk result false).

End BasketsDatabase.

(** ** The HTTP handlers ([handlers.go]) *)

(** Server configuration: the fields of [ServerConfig] the handlers
    read. *)
Record ServerConfig := mkServerConfig {
  InitCapacity : Z;
  MaxCapacity : Z;
  PageSize : Z;
  MasterToken : string;
  Mode : string
}.

Definition ModePublic : string := "public".
Definition ModeRestricted : string := "restricted".

Definition serviceOldAPIPath : string := "baskets".
Definition serviceAPIPath : string := "api".
Definition serviceUIPath : string := "web".

(** [basketNamePattern], the regular expression [^[\w\d\-_\.]{1,250}$]:
    between 1 and 250 characters, each of the class [[\w\d\-_\.]], where
    [\w] is [[0-9A-Za-z_]] and [\d] is [[0-9]].  (Go's [$] without the
    multi-line flag matches at the end of the text only, and the class
    holds ASCII characters only, so the count of characters is the count
    of bytes.) *)
Module basketNamePattern.

Definition digit (c : ascii) : bool :=
  let n := N_of_ascii c in ((48 <=? n) && (n <=? 57))%N.
Definition word (c : ascii) : bool :=
  let n := N_of_ascii c in
  (digit c || ((65 <=? n) && (n <=? 90)) || ((97 <=? n) && (n <=? 122))
   || (n =? 95))%N.
Definition class (c : ascii) : bool :=
  word c || digit c
  || Ascii.eqb c "-" || Ascii.eqb c "_" || Ascii.eqb c ".".

Definition MatchString (s : string) : bool :=
  let n := String.length s in
  ((1 <=? n) && (n <=? 250))%nat && forallb class (list_ascii_of_string s).

End basketNamePattern.

Abbreviation validBasketName := basketNamePattern.MatchString.

(** The functions of Go's standard library the handlers call and the
    repository does not define. *)
Class GoLib := {
  (** [strings.ToUpper] *)
  ToUpper : string -> string;
  (** [strconv.Atoi]: the integer, or [None] for an error *)
  Atoi : string -> option Z;
  (** [url.ParseRequestURI(rawurl)]: [true] when it returns no error *)
  ParseRequestURI : string -> bool;
  (** [template.New("body").Parse(text)]: [true] when it returns no error *)
  template_Parse : string -> bool;
  (** [json.Unmarshal(body, &config)] into a [BasketConfig] holding
      [config]: the value after decoding, or [None] for an error *)
  Unmarshal_BasketConfig : string -> BasketConfig -> option BasketConfig;
  (** [json.Unmarshal(body, &response)] into a [ResponseConfig] *)
  Unmarshal_ResponseConfig : string -> ResponseConfig -> option ResponseConfig
}.

(** What a handler is given: the route parameters, the header and query
    values it reads, and what reading the request body yields. *)
Module Request.
Record t := mk {
  basket : string;            (* ps.ByName("basket") *)
  method : string;            (* ps.ByName("method") *)
  Authorization : string;     (* r.Header.Get("Authorization") *)
  q : string;                 (* r.URL.Query().Get("q") *)
  in_ : string;               (* r.URL.Query().Get("in") *)
  max : string;               (* r.URL.Query().Get("max") *)
  skip : string;              (* r.URL.Query().Get("skip") *)
  Body : option string        (* the bytes of r.Body, or a read error *)
}.
End Request.

(** What a handler writes to the [http.ResponseWriter]. *)
Module Response.

Inductive content :=
| Nothing
| ReservedName (name : string)   (* "This basket name conflicts with reserved system path: ..." *)
| InvalidName                    (* "invalid basket name; the name does not match pattern: ..." *)
| Message (err : error)          (* err.Error() *)
| Auth (auth : BasketAuth.t)
| Config (config : BasketConfig)
| ResponseOf (response : ResponseConfig)
| RequestsOf (page : RequestsPage.t)
| FoundRequests (page : RequestsQueryPage.t)
| NamesOf (page : BasketNamesPage.t)
| FoundNames (page : BasketNamesQueryPage.t).

Record t := mk {
  StatusCode : Z;
  Body : content
}.

End Response.

Definition StatusOK : Z := 200.
Definition StatusCreated : Z := 201.
Definition StatusNoContent : Z := 204.
Definition StatusNotModified : Z := 304.
Definition StatusBadRequest : Z := 400.
Definition StatusUnauthorized : Z := 401.
Definition StatusForbidden : Z := 403.
Definition StatusNotFound : Z := 404.
Definition StatusConflict : Z := 409.
Definition StatusUnprocessableEntity : Z := 422.
Definition StatusInternalServerError : Z := 500.

(** [http.Error(w, text, code)] *)
Definition http_Error (text : Response.content) (code : Z) : Response.t :=
  Response.mk code text.
(** [w.WriteHeader(code)] and nothing else *)
Definition WriteHeader (code : Z) : Response.t := Response.mk code Response.Nothing.
(** [writeJSON(w, status, json, err)] for a value that [json.Marshal]
    encodes without error, as it does every struct passed here. *)
Definition writeJSON (status : Z) (json : Response.content) : Response.t :=
  Response.mk status json.

(** [ioutil.ReadAll(io.LimitReader(r.Body, n))] *)
Definition ReadAll_LimitReader (body : option string) (n : Z) : option string :=
  String.substring 0 (Z.to_nat n) <$> body.
Arguments ReadAll_LimitReader : simpl never.

Definition len_string (s : string) : Z := Z.of_nat (String.length s).

Definition defaultResponse : ResponseConfig :=
  {| Status := StatusOK; Headers := []; Body := ""; IsTemplate := false |}.

Section Handlers.

Context {lib : GoLib} {runtime : GoRuntime} {deta : DetaService}.
(** The global [serverConfig]. *)
Variable serverConfig : ServerConfig.

(** [parseInt] parses an integer parameter of the request query. *)
Definition parseInt (value : string) (min max defaultValue : Z) : Z :=
  if 0 <? len_string value then
    match Atoi value with
    | Some i =>
        if i <? min then min
        else if max <? i then max
        else i
    | None => defaultValue
    end
  else defaultValue.

(** [getPage] retrieves the page settings [(max, skip)] of a request. *)
Definition getPage (r : Request.t) : Z * Z :=
  let max := parseInt (Request.max r) 1
               (GoInt.wrap (PageSize serverConfig * 10)) (PageSize serverConfig) in
  let skip := parseInt (Request.skip r) 0 (MaxCapacity serverConfig) 0 in
  (max, skip).

(** [getAuthorizedBasket]: the basket named by the request, or the
    response written instead.  The check of the token is commented out
    in the source. *)
Definition getAuthorizedBasket (r : Request.t)
    : M (Response.t + string * detaBasket) :=
  let name := Request.basket r in
  if negb (validBasketName name) then
    ret (inl (http_Error Response.InvalidName StatusBadRequest))
  else
    basket <- BasketsDatabase.Get name ;;
    match basket with
    | Some basket => ret (inr (name, basket))
    | None => ret (inl (WriteHeader StatusNotFound))
    end.

(** [authorizeRequest]: the body of the function is the single statement
    [return true]; the checks of the mode and of the master token that
    follow it are commented out. *)
Definition authorizeRequest (r : Request.t) (publicAPI : bool)
    (config : ServerConfig) : bool :=
  true.

(** [validateBasketConfig]: [None] is the nil error. *)
Definition validateBasketConfig (config : BasketConfig) : option error :=
  (* validate Capacity *)
  if Capacity config <? 1 then
    Some (ErrCapacityNotPositive (Capacity config))
  else if MaxCapacity serverConfig <? Capacity config then
    Some (ErrCapacityTooLarge (MaxCapacity serverConfig))
  (* validate URL *)
  else if (0 <? len_string (ForwardURL config))
          && negb (ParseRequestURI (ForwardURL config)) then
    Some ErrForwardURL
  else None.

(** [validateResponseConfig]: [None] is the nil error. *)
Definition validateResponseConfig (config : ResponseConfig) : option error :=
  (* validate status *)
  if (Status config <? 100) || (600 <=? Status config) then
    Some (ErrStatus (Status config))
  (* validate template *)
  else if IsTemplate config && (0 <? len_string (Body config))
          && negb (template_Parse (Body config)) then
    Some ErrTemplate
  else None.

Definition validMethods : list string :=
  ["GET"; "HEAD"; "POST"; "PUT"; "PATCH"; "DELETE"; "CONNECT"; "OPTIONS"; "TRACE"]%string.

(** [getValidMethod]: the method name of the request path, upper-cased,
    and the error when it is none of the valid HTTP methods. *)
Definition getValidMethod (r : Request.t) : string * option error :=
  let method := ToUpper (Request.method r) in
  if bool_decide (method ∈ validMethods) then (method, None)
  else (method, Some (ErrUnknownMethod method)).

(** A handler that returns without writing leaves the reply to
    [net/http]: status 200, no body. *)
Definition unwritten : Response.t := WriteHeader StatusOK.

Definition GetBasket (r : Request.t) : M Response.t :=
  found <- getAuthorizedBasket r ;;
  match found with
  | inl w => ret w
  | inr (_, basket) =>
      ret (writeJSON StatusOK (Response.Config (Basket.Config basket)))
  end.

(** [CreateBasket]; [generated] is the outcome of [GenerateToken()]
    should [basketsDb.Create] be reached. *)
Definition CreateBasket (generated : option string) (r : Request.t) : M Response.t :=
  if negb (authorizeRequest r true serverConfig) then ret unwritten
  else
    let name := Request.basket r in
    if String.eqb name serviceOldAPIPath || String.eqb name serviceAPIPath
       || String.eqb name serviceUIPath then
      ret (http_Error (Response.ReservedName name) StatusForbidden)
    else if negb (validBasketName name) then
      ret (http_Error Response.InvalidName StatusBadRequest)
    else
      (* read config (max 2 kB) *)
      match ReadAll_LimitReader (Request.Body r) 2048 with
      | None => ret (http_Error (Response.Message ErrRead) StatusInternalServerError)
      | Some body =>
          (* default config *)
          let config := {| ForwardURL := ""; ProxyResponse := false;
                           InsecureTLS := false; ExpandPath := false;
                           Capacity := InitCapacity serverConfig |} in
          let checked :=
            if 0 <? len_string body then
              match Unmarshal_BasketConfig body config with
              | None => inl (http_Error (Response.Message ErrJSON) StatusBadRequest)
              | Some config =>
                  match validateBasketConfig config with
                  | Some err =>
                      inl (http_Error (Response.Message err) StatusUnprocessableEntity)
                  | None => inr config
                  end
              end
            else inr config in
          match checked with
          | inl w => ret w
          | inr config =>
              created <- BasketsDatabase.Create generated name config ;;
              match created with
              | Err err => ret (http_Error (Response.Message err) StatusConflict)
              | Ok auth => ret (writeJSON StatusCreated (Response.Auth auth))
              end
          end
      end.

Definition UpdateBasket (r : Request.t) : M Response.t :=
  found <- getAuthorizedBasket r ;;
  match found with
  | inl w => ret w
  | inr (_, basket) =>
      (* read config (max 2 kB) *)
      match ReadAll_LimitReader (Request.Body r) 2048 with
      | None => ret (http_Error (Response.Message ErrRead) StatusInternalServerError)
      | Some body =>
          if 0 <? len_string body then
            (* get current config *)
            let config := Basket.Config basket in
            match Unmarshal_BasketConfig body config with
            | None => ret (http_Error (Response.Message ErrJSON) StatusBadRequest)
            | Some config =>
                match validateBasketConfig config with
                | Some err =>
                    ret (http_Error (Response.Message err) StatusUnprocessableEntity)
                | None =>
                    Basket.Update config basket ;;;
                    ret (WriteHeader StatusNoContent)
                end
            end
          else ret (WriteHeader StatusNotModified)
      end
  end.

Definition DeleteBasket (r : Request.t) : M Response.t :=
  found <- getAuthorizedBasket r ;;
  match found with
  | inl w => ret w
  | inr (name, _) =>
      BasketsDatabase.Delete name ;;;
      ret (WriteHeader StatusNoContent)
  end.

Definition GetBasketResponse (r : Request.t) : M Response.t :=
  found <- getAuthorizedBasket r ;;
  match found with
  | inl w => ret w
  | inr (_, basket) =>
      match getValidMethod r with
      | (_, Some errm) => ret (http_Error (Response.Message errm) StatusBadRequest)
      | (method, None) =>
          let response :=
            match Basket.GetResponse method basket with
            | Some response => response
            | None => defaultResponse
            end in
          ret (writeJSON StatusOK (Response.ResponseOf response))
      end
  end.

Definition UpdateBasketResponse (r : Request.t) : M Response.t :=
  found <- getAuthorizedBasket r ;;
  match found with
  | inl w => ret w
  | inr (_, basket) =>
      match getValidMethod r with
      | (_, Some errm) => ret (http_Error (Response.Message errm) StatusBadRequest)
      | (method, None) =>
          (* read response (max 64 kB) *)
          match ReadAll_LimitReader (Request.Body r) (64 * 1024) with
          | None => ret (http_Error (Response.Message ErrRead) StatusInternalServerError)
          | Some body =>
              if 0 <? len_string body then
                let response := {| Status := Status defaultResponse; Headers := [];
                                   Body := ""; IsTemplate := false |} in
                match Unmarshal_ResponseConfig body response with
                | None => ret (http_Error (Response.Message ErrJSON) StatusBadRequest)
                | Some response =>
                    match validateResponseConfig response with
                    | Some err =>
                        ret (http_Error (Response.Message err) StatusUnprocessableEntity)
                    | None =>
                        Basket.SetResponse method response basket ;;;
                        ret (WriteHeader StatusNoContent)
                    end
                end
              else ret (WriteHeader StatusNotModified)
          end
      end
  end.

Definition GetBasketRequests (r : Request.t) : M Response.t :=
  found <- getAuthorizedBasket r ;;
  match found with
  | inl w => ret w
  | inr (_, basket) =>
      let query := Request.q r in
      if 0 <? len_string query then
        (* find requests *)
        let '(max, skip) := getPage r in
        page <- lift (Basket.FindRequests query (Request.in_ r) max skip basket) ;;
        ret (writeJSON StatusOK (Response.FoundRequests page))
      else
        (* get requests page *)
        let '(max, skip) := getPage r in
        page <- lift (Basket.GetRequests max skip basket) ;;
        ret (writeJSON StatusOK (Response.RequestsOf page))
  end.

Definition ClearBasket (r : Request.t) : M Response.t :=
  found <- getAuthorizedBasket r ;;
  match found with
  | inl w => ret w
  | inr (_, basket) =>
      Basket.Clear basket ;;;
      ret (WriteHeader StatusNoContent)
  end.

(** [GetBaskets]; [db] is the global [basketsDb]. *)
Definition GetBaskets (r : Request.t) (db : detaDatabase)
    : M (Response.t * detaDatabase) :=
  if authorizeRequest r false serverConfig then
    let query := Request.q r in
    if 0 <? len_string query then
      (* find names *)
      let '(max, skip) := getPage r in
      page <- BasketsDatabase.FindNames query max skip db ;;
      ret (writeJSON StatusOK (Response.FoundNames page), db)
    else
      (* get basket names page *)
      let '(max, skip) := getPage r in
      listed <- BasketsDatabase.GetNames max skip db ;;
      let '(page, db) := listed in
      ret (writeJSON StatusOK (Response.NamesOf page), db)
  else ret (unwritten, db).

End Handlers.

(** [sanitizeForLog] *)
Definition sanitizeForLog (raw : string) : string :=
  let sanitized := strings.ReplaceAll_byte raw "010" "^n" in
  strings.ReplaceAll_byte sanitized "013" "^r".

(** The errors of [getBasketNameOfAcceptedRequest]. *)
Inductive accept_error :=
| ErrOutsidePrefix (prefix : string)
      (* "incoming request is outside of configured path prefix: ..." *)
| ErrInvalidBasketName.
      (* "invalid basket name; the name does not match pattern: ..." *)

(** [getBasketNameOfAcceptedRequest(r, prefix)], where [path] is
    [r.URL.Path]: the name of the basket, or the error; [None] is the
    panic of the index expression [strings.Split(path, "/")[1]]. *)
Definition getBasketNameOfAcceptedRequest (path prefix : string)
    : option (string + accept_error) :=
  let trimmed :=
    if 0 <? len_string prefix then
      if strings.HasPrefix path prefix
      then inl (strings.TrimPrefix path prefix)
      else inr (ErrOutsidePrefix prefix)
    else inl path in
  match trimmed with
  | inr err => Some (inr err)
  | inl path =>
      piece ← strings.Split_byte path "/" !! 1%nat;
      let name := sanitizeForLog piece in
      if negb (validBasketName name) then Some (inr ErrInvalidBasketName)
      else Some (inl name)
  end.

(** [normalizePrefix] (the command line's path prefix). *)
Definition normalizePrefix (prefix : string) : string :=
  match prefix with
  | String c _ =>
      if negb (Ascii.eqb c "/") then String.append "/" prefix else prefix
  | EmptyString => prefix
  end.

(** What [AcceptBasketRequests] does to the collection: [basketsDb.Get]
    and, for a basket that exists, [basket.Add(r)].  (Forwarding and the
    reply it writes do not touch the collection; the functions they rest
    on are declared outside the embedded files.) *)
Definition AcceptBasketRequests_store (name : string) (data : RequestData.t)
    : M unit :=
  basket <- BasketsDatabase.Get name ;;
  match basket with
  | Some basket => Basket.Add data basket ;;; ret tt
  | None => ret tt
  end.

(** The calls of the API that write to the collection, and a server
    answering them one after the other. *)
Section API.

Context {lib : GoLib} {runtime : GoRuntime} {deta : DetaService}.
Variable serverConfig : ServerConfig.

Inductive api_call :=
| CallCreateBasket (generated : option string) (r : Request.t)
| CallUpdateBasket (r : Request.t)
| CallDeleteBasket (r : Request.t)
| CallUpdateBasketResponse (r : Request.t)
| CallClearBasket (r : Request.t)
| CallAcceptBasketRequests (name : string) (data : RequestData.t).

Definition serve (c : api_call) : M unit :=
  match c with
  | CallCreateBasket generated r => CreateBasket serverConfig generated r ;;; ret tt
  | CallUpdateBasket r => UpdateBasket serverConfig r ;;; ret tt
  | CallDeleteBasket r => DeleteBasket r ;;; ret tt
  | CallUpdateBasketResponse r => UpdateBasketResponse r ;;; ret tt
  | CallClearBasket r => ClearBasket r ;;; ret tt
  | CallAcceptBasketRequests name data => AcceptBasketRequests_store name data
  end.

Fixpoint serve_all (cs : list api_call) : M unit :=
  match cs with
  | [] => ret tt
  | c :: cs => serve c ;;; serve_all cs
  end.

End API.

(** * Vocabulary of the properties *)

(** The calls [basket.Add(r)] for the snapshots [ds] in turn, on one
    basket object, as the tests of the repository make them. *)
Fixpoint AddAll (ds : list RequestData.t) (basket : detaBasket) : M detaBasket :=
  match ds with
  | [] => ret basket
  | data :: ds => added <- Basket.Add data basket ;; AddAll ds added.2
  end.

(** What [applyLimit] leaves of the basket, and of the collection. *)
Definition limited (basket : detaBasket) : detaBasket :=
  with_Requests (take (Z.to_nat (Capacity (BConfig basket))) (Requests basket)) basket.

Definition limited_store (basket : detaBasket) (σ : Base) : Base :=
  if Capacity (BConfig basket) <? GoInt.len (Requests basket)
  then base.updated (Key basket) [base.SetRequests (Requests (limited basket))] σ
  else σ.

(** The collection holds, under the key of the basket object, an item
    equal to the object: the state right after [Get]. *)
Definition stored (basket : detaBasket) (σ : Base) : Prop :=
  σ !! Key basket = Some basket.

(** [FindRequests]: the matches among the first [j] requests of [all],
    what is collected of them (all but the first [skip] ones), and the
    count of those skipped. *)
Definition matched (query in_ : string) (all : list RequestData.t) (j : nat) : list RequestData.t :=
  List.filter (fun r => RequestData.Matches r query in_) (take j all).
Definition collected (query in_ : string) (skip : Z) (all : list RequestData.t)
    (j : nat) : list RequestData.t :=
  drop (Z.to_nat skip) (matched query in_ all j).
Definition skipped_at (query in_ : string) (skip : Z) (all : list RequestData.t)
    (j : nat) : Z :=
  Z.of_nat (Nat.min (Z.to_nat skip) (length (matched query in_ all j))).

(** [sub] occurs in [s], byte for byte. *)
Definition substring_of (sub s : string) : Prop :=
  exists pre post, s = (pre +:+ sub +:+ post)%string.

(** The fields of a snapshot that a search [in_] looks into. *)
Definition searched (in_ : string) (r : RequestData.t) : list string :=
  if String.eqb in_ "body" then [RequestData.Body r]
  else if String.eqb in_ "query" then [RequestData.Query r]
  else if String.eqb in_ "headers" then [RequestData.Header r]
  else [RequestData.Body r; RequestData.Query r; RequestData.Header r].

(** What the specification requires of a basket configuration and of a
    response configuration. *)
Definition basket_config_ok {lib : GoLib} (serverConfig : ServerConfig)
    (config : BasketConfig) : Prop :=
  1 <= Capacity config <= MaxCapacity serverConfig /\
  (ForwardURL config = ""%string \/ ParseRequestURI (ForwardURL config) = true).

Definition response_config_ok {lib : GoLib} (response : ResponseConfig) : Prop :=
  100 <= Status response <= 599 /\
  (IsTemplate response = false \/ Body response = ""%string
   \/ template_Parse (Body response) = true).

(** The configuration [CreateBasket] starts from. *)
Definition defaultConfig (serverConfig : ServerConfig) : BasketConfig :=
  {| ForwardURL := ""; ProxyResponse := false; InsecureTLS := false;
     ExpandPath := false; Capacity := InitCapacity serverConfig |}.

(** The name passes the checks of [CreateBasket]. *)
Definition name_free_to_create (name : string) : Prop :=
  name <> serviceOldAPIPath /\ name <> serviceAPIPath /\ name <> serviceUIPath /\
  validBasketName name = true.

(** The characters of the class [[\w\-_.]]: digits, letters, [_], [-]
    and [.], by their ASCII codes. *)
Definition name_char (c : ascii) : Prop :=
  let n := N_of_ascii c in
  ((48 <= n <= 57) \/ (65 <= n <= 90) \/ (97 <= n <= 122)
   \/ n = 95 \/ n = 45 \/ n = 46)%N.

(** Every response stored in the collection is stored under one of the
    nine method names. *)
Definition methods_valid (σ : Base) : Prop :=
  forall name basket method,
    σ !! name = Some basket ->
    is_Some (Responses basket !! method) ->
    method ∈ validMethods.

(** A computation that keeps [methods_valid]. *)
Definition preserves {A} (c : M A) : Prop :=
  forall σ a σ', c σ = Some (a, σ') -> methods_valid σ -> methods_valid σ'.

Definition update_ok (u : base.update) : Prop :=
  match u with
  | base.SetResponseOf method _ => method ∈ validMethods
  | _ => True
  end.

(** The reply to a request that does not reach the response map. *)
Definition refused {lib : GoLib} (r : Request.t) (σ : Base) : Response.t :=
  if validBasketName (Request.basket r) then
    match σ !! Request.basket r with
    | Some _ =>
        http_Error
          (Response.Message (ErrUnknownMethod (ToUpper (Request.method r))))
          StatusBadRequest
    | None => WriteHeader StatusNotFound
    end
  else http_Error Response.InvalidName StatusBadRequest.

(** A computation that leaves every item but the one under [key] as it
    is, and neither adds nor removes an item. *)
Definition touches_only {A} (key : string) (c : M A) : Prop :=
  forall σ a σ',
    c σ = Some (a, σ') ->
    dom σ' = dom σ /\ forall other, other <> key -> σ' !! other = σ !! other.

(** The requests captured for the basket [name], one after the other,
    each by [basketsDb.Get] and [basket.Add] as [AcceptBasketRequests]
    does. *)
Fixpoint capture_all (name : string) (ds : list RequestData.t) : M unit :=
  match ds with
  | [] => ret tt
  | data :: ds => AcceptBasketRequests_store name data ;;; capture_all name ds
  end.

(** The requests the stored item holds after [Add]: below the capacity
    the new snapshot in front of the old ones; from the capacity on, the
    new snapshot in front of the truncated list, which starts with it. *)
Definition stored_after_Add (capacity : Z) (data : RequestData.t)
    (rs : list RequestData.t) : list RequestData.t :=
  if GoInt.len rs <? capacity then data :: rs
  else data :: take (Z.to_nat capacity) (data :: rs).

(** Every item of the collection is stored under its own key. *)
Definition keyed (σ : Base) : Prop :=
  forall name item, σ !! name = Some item -> Key item = name.

(** Every item of the collection is stored under its own key and has a
    capacity for which the runtime allocates a slice of requests. *)
Definition well_kept {runtime : GoRuntime} (σ : Base) : Prop :=
  forall name item,
    σ !! name = Some item ->
    Key item = name /\
    makeslice GoInt.ptr_size (Capacity (BConfig item)) = true.

(** A computation that, on such a collection, returns and leaves such a
    collection. *)
Definition safe {runtime : GoRuntime} {A} (c : M A) : Prop :=
  forall σ, well_kept σ -> exists a σ', c σ = Some (a, σ') /\ well_kept σ'.

Definition capacity_ok {runtime : GoRuntime} (u : base.update) : Prop :=
  match u with
  | base.SetConfig config => makeslice GoInt.ptr_size (Capacity config) = true
  | _ => True
  end.

(** [piece] is the part of [s] between its first slash and the next
    one, or the end of [s]. *)
Definition second_segment (s piece : string) : Prop :=
  exists first rest,
    s = (first +:+ String "/" (piece +:+ rest))%string /\
    ("/"%char ∉ list_ascii_of_string first) /\
    ("/"%char ∉ list_ascii_of_string piece) /\
    (rest = ""%string \/ exists rest', rest = String "/" rest').

(** ** Examples *)

(** A stand-in for the library functions, enough to run the handlers on
    examples: [ToUpper] on ASCII letters, [Atoi] on an optional minus
    sign and decimal digits, URLs that parse when they start with a
    letter, templates that parse unless they end with an opening brace,
    and bodies that are read as the decimal capacity, or status. *)
Module Example.

Definition upper (c : ascii) : ascii :=
  let n := N_of_ascii c in
  if ((97 <=? n) && (n <=? 122))%N then ascii_of_N (n - 32) else c.

Fixpoint ToUpper (s : string) : string :=
  match s with
  | EmptyString => EmptyString
  | String c s => String (upper c) (ToUpper s)
  end.

Fixpoint digits (acc : Z) (s : string) : option Z :=
  match s with
  | EmptyString => Some acc
  | String c s =>
      let n := N_of_ascii c in
      if ((48 <=? n) && (n <=? 57))%N
      then digits (10 * acc + Z.of_N (n - 48)) s
      else None
  end.

Definition Atoi (s : string) : option Z :=
  match s with
  | EmptyString => None
  | String "-" (String c s) => Z.opp <$> digits 0 (String c s)
  | _ => digits 0 s
  end.

Definition ParseRequestURI (s : string) : bool :=
  match s with
  | String c _ => basketNamePattern.word c && negb (basketNamePattern.digit c)
  | EmptyString => false
  end.

Fixpoint template_Parse (s : string) : bool :=
  match s with
  | EmptyString => true
  | String "{" EmptyString => false
  | String _ s => template_Parse s
  end.

Definition Unmarshal_BasketConfig (body : string) (config : BasketConfig)
    : option BasketConfig :=
  capacity ← Atoi body;
  Some (mkBasketConfig (ForwardURL config) (ProxyResponse config)
          (InsecureTLS config) (ExpandPath config) capacity).

Definition Unmarshal_ResponseConfig (body : string) (response : ResponseConfig)
    : option ResponseConfig :=
  status ← Atoi body;
  Some (mkResponseConfig status (Headers response) (Body response)
          (IsTemplate response)).

Definition lib : GoLib :=
  Build_GoLib ToUpper Atoi ParseRequestURI template_Parse
    Unmarshal_BasketConfig Unmarshal_ResponseConfig.

(** A runtime that allocates up to 2^30 bytes at once. *)
Definition makeslice (size cap : Z) : bool :=
  (0 <=? cap) && (size * cap <=? 2 ^ 30).

Definition runtime : GoRuntime.
Proof.
  refine (Build_GoRuntime makeslice _).
  intros size cap Hok. unfold makeslice in Hok.
  apply andb_true_iff in Hok as [Hcap Hmem].
  apply Z.leb_le in Hcap, Hmem. unfold GoInt.maxAlloc.
  split; [exact Hcap|]. etransitivity; [exact Hmem|]. by apply Z.pow_le_mono_r.
Defined.

(** A service that hands out a listing in one page, and one that hands
    it out item by item. *)
Definition deta : DetaService.
Proof.
  refine (Build_DetaService (λ σ, [(map_to_list σ).*2]) _).
  intros σ. simpl. by rewrite app_nil_r.
Defined.

Definition deta_by_one : DetaService.
Proof.
  refine (Build_DetaService (λ σ, (λ item, [item]) <$> (map_to_list σ).*2) _).
  intros σ. induction ((map_to_list σ).*2) as [|item items IH]; [done|].
  simpl. by rewrite IH.
Defined.

(** The defaults of the command line. *)
Definition serverConfig (mode : string) : ServerConfig :=
  {| InitCapacity := 200; MaxCapacity := 2000; PageSize := 20;
     MasterToken := "master-token"; Mode := mode |}.

Definition request (basket method body : string) : Request.t :=
  {| Request.basket := basket; Request.method := method;
     Request.Authorization := ""; Request.q := ""; Request.in_ := "";
     Request.max := ""; Request.skip := ""; Request.Body := Some body |}.

End Example.

Definition snapshot (body : string) : RequestData.t :=
  RequestData.mk 0 "" (len_string body) body "POST" "/" "".

Definition plainConfig (capacity : Z) : BasketConfig :=
  {| ForwardURL := ""; ProxyResponse := false; InsecureTLS := false;
     ExpandPath := false; Capacity := capacity |}.

Definition basket3 : detaBasket :=
  mkBasket "test105" "token" (plainConfig 5)
    [snapshot "req3"; snapshot "req2"; snapshot "req1"] 3 ∅.

Definition emptyBasket : detaBasket :=
  BasketsDatabase.basketData "test105" "token" (plainConfig 5).

Definition store1 : Base :=
  {[ "basket1"%string := BasketsDatabase.basketData "basket1" "token" (plainConfig 200) ]}.

Definition store2 : Base :=
  <["basket2"%string := BasketsDatabase.basketData "basket2" "token" (plainConfig 5)]>
    store1.

(** * Properties *)

(** ** Integers and slices *)

Lemma wrap_id z : GoInt.min_int <= z <= GoInt.max_int -> GoInt.wrap z = z.
Proof.
  unfold GoInt.wrap, GoInt.min_int, GoInt.max_int. intros Hz.
  rewrite Z.mod_small; lia.
Qed.

Lemma len_nonneg {A} (s : list A) : 0 <= GoInt.len s.
Proof. unfold GoInt.len. lia. Qed.

Lemma len_cons {A} (x : A) s : GoInt.len (x :: s) = GoInt.len s + 1.
Proof. unfold GoInt.len. simpl. lia. Qed.

Lemma len_app {A} (s t : list A) : GoInt.len (s ++ t) = GoInt.len s + GoInt.len t.
Proof. unfold GoInt.len. rewrite length_app. lia. Qed.

Lemma slice_Some {A} (s : list A) lo hi :
  0 <= lo -> lo <= hi -> hi <= GoInt.len s ->
  GoInt.slice s lo hi = Some (take (Z.to_nat (hi - lo)) (drop (Z.to_nat lo) s)).
Proof.
  intros Hlo Hhi Hlen. unfold GoInt.slice.
  destruct (0 <=? lo) eqn:E1; [|lia].
  destruct (lo <=? hi) eqn:E2; [|lia].
  destruct (hi <=? GoInt.len s) eqn:E3; [|lia].
  reflexivity.
Qed.

Lemma slice_None_negative {A} (s : list A) hi :
  hi < 0 -> GoInt.slice s 0 hi = None.
Proof.
  intros Hhi. unfold GoInt.slice.
  destruct (0 <=? hi) eqn:E; [lia|]. reflexivity.
Qed.

Lemma len_take {A} (s : list A) n :
  0 <= n -> GoInt.len (take (Z.to_nat n) s) = Z.min n (GoInt.len s).
Proof. intros Hn. unfold GoInt.len. rewrite length_take. lia. Qed.

(** ** The receiver after [applyLimit], [Add], [Update] and [Clear] *)

Lemma with_Requests_id basket : with_Requests (Requests basket) basket = basket.
Proof. destruct basket; reflexivity. Qed.

(** [applyLimit] keeps the first [Capacity] requests and nothing else
    of the receiver changes; when it drops requests it stores the list
    that is left. *)
Lemma applyLimit_spec basket σ :
  0 <= Capacity (BConfig basket) ->
  Basket.applyLimit basket σ = Some (limited basket, limited_store basket σ).
Proof.
  intros Hcap. unfold Basket.applyLimit, limited_store, limited.
  destruct (Capacity (BConfig basket) <? GoInt.len (Requests basket)) eqn:E.
  - unfold bind, lift.
    rewrite slice_Some by lia. rewrite Z.sub_0_r. reflexivity.
  - unfold ret. rewrite take_ge.
    + by rewrite with_Requests_id.
    + unfold GoInt.len in E. lia.
Qed.

(** A negative capacity makes [applyLimit] panic. *)
Lemma applyLimit_panics basket σ :
  Capacity (BConfig basket) < 0 -> Basket.applyLimit basket σ = None.
Proof.
  intros Hcap. unfold Basket.applyLimit.
  pose proof (len_nonneg (Requests basket)).
  destruct (Capacity (BConfig basket) <? GoInt.len (Requests basket)) eqn:E; [|lia].
  unfold bind, lift. by rewrite slice_None_negative.
Qed.

Lemma Add_spec data basket σ :
  0 <= Capacity (BConfig basket) ->
  exists σ',
    Basket.Add data basket σ =
      Some ((data,
             with_Requests
               (take (Z.to_nat (Capacity (BConfig basket))) (data :: Requests basket))
               (with_TotalCount (GoInt.add (TotalCount basket) 1) basket)), σ').
Proof.
  intros Hcap. unfold Basket.Add, bind. cbv zeta.
  rewrite applyLimit_spec by exact Hcap.
  unfold base.Update, ret. simpl. eauto.
Qed.

Lemma take_app_take {A} n (l m : list A) :
  take n (l ++ take n m) = take n (l ++ m).
Proof.
  rewrite !take_app. f_equal. rewrite take_take. f_equal. lia.
Qed.

(** The receiver after the calls [AddAll ds]. *)
Lemma AddAll_spec ds : forall basket σ,
  0 <= Capacity (BConfig basket) ->
  GoInt.len (Requests basket) <= Capacity (BConfig basket) ->
  0 <= TotalCount basket ->
  TotalCount basket + GoInt.len ds <= GoInt.max_int ->
  exists basket' σ',
    AddAll ds basket σ = Some (basket', σ') /\
    Requests basket' =
      take (Z.to_nat (Capacity (BConfig basket))) (reverse ds ++ Requests basket) /\
    TotalCount basket' = TotalCount basket + GoInt.len ds /\
    Key basket' = Key basket /\ Token basket' = Token basket /\
    BConfig basket' = BConfig basket /\ Responses basket' = Responses basket.
Proof.
  induction ds as [|data ds IH]; intros basket σ Hcap Hlen Htot Hmax.
  - exists basket, σ. simpl. unfold GoInt.len in *. simpl.
    rewrite take_ge by lia. repeat split; lia.
  - rewrite len_cons in Hmax. pose proof (len_nonneg ds) as Hds.
    destruct (Add_spec data basket σ Hcap) as [σ1 Hadd].
    simpl. unfold bind. rewrite Hadd. simpl.
    match goal with |- context [AddAll ds ?b σ1] => set (b1 := b) end.
    assert (Hwrap : GoInt.add (TotalCount basket) 1 = TotalCount basket + 1).
    { apply wrap_id. unfold GoInt.min_int, GoInt.max_int in *. lia. }
    destruct (IH b1 σ1) as (basket' & σ' & Hrun & Hreq & Htc & Hk & Ht & Hc & Hr).
    + exact Hcap.
    + subst b1. simpl. rewrite len_take by lia. lia.
    + subst b1. simpl. lia.
    + subst b1. simpl. lia.
    + exists basket', σ'. split; [exact Hrun|].
      subst b1. simpl in *. rewrite Hreq, Htc, Hwrap, len_cons.
      rewrite take_app_take, reverse_cons, <- app_assoc. simpl.
      repeat split; try assumption; lia.
Qed.

(** ** C1: capacity-bounded retention *)

(** The basket object: on a basket created with capacity [C >= 1], the
    calls [Add] for the snapshots [ds] (there are [N] of them) all
    return, and leave [min N C] requests in the object, namely the [C]
    newest, newest first, so that the first one is the snapshot of the
    last call; the total counter is [N], whatever was dropped.  Nothing
    is said here of the item [Add] writes to the collection. *)
Lemma AddAll_object_keeps_newest_and_counts name token config ds σ :
  1 <= Capacity config ->
  GoInt.len ds <= GoInt.max_int ->
  exists basket σ',
    AddAll ds (BasketsDatabase.basketData name token config) σ = Some (basket, σ') /\
    Basket.Size basket = Z.min (GoInt.len ds) (Capacity config) /\
    Requests basket = take (Z.to_nat (Capacity config)) (reverse ds) /\
    head (Requests basket) = last ds /\
    TotalCount basket = GoInt.len ds.
Proof.
  intros Hcap Hlen.
  destruct (AddAll_spec ds (BasketsDatabase.basketData name token config) σ)
    as (basket & σ' & Hrun & Hreq & Htc & _); simpl; try lia.
  { unfold GoInt.len. simpl. lia. }
  simpl in Hreq, Htc. rewrite app_nil_r in Hreq.
  exists basket, σ'. split; [exact Hrun|].
  unfold Basket.Size. rewrite Hreq, len_take by lia.
  assert (GoInt.len (reverse ds) = GoInt.len ds) as ->.
  { unfold GoInt.len. by rewrite length_reverse. }
  repeat split; try lia.
  rewrite <- head_reverse.
  destruct (Z.to_nat (Capacity config)) as [|n] eqn:E; [lia|].
  by destruct (reverse ds).
Qed.

(** C1.  A basket of capacity 2, stored as [Create] stores it, and three
    [Add]s on the basket object, as in the tests.  The object ends with
    the two newest requests and a total of 3.  The stored request
    sequence, which is what [Get] hands out from then on, holds three
    requests, the newest twice: [applyLimit] writes the cut list, which
    starts with the new request, and [Add] prepends the request to the
    stored list once more.  The stored size is 3, not [min 3 2]. *)
Theorem C1_stored_sequence_exceeds_capacity :
  exists basket σ',
    AddAll [snapshot "req1"; snapshot "req2"; snapshot "req3"]
      (BasketsDatabase.basketData "test102" "token" (plainConfig 2))
      {[ "test102"%string :=
           BasketsDatabase.basketData "test102" "token" (plainConfig 2) ]}
    = Some (basket, σ') /\
    Requests basket = [snapshot "req3"; snapshot "req2"] /\
    TotalCount basket = 3 /\
    exists item,
      BasketsDatabase.Get "test102" σ' = Some (Some item, σ') /\
      Capacity (Basket.Config item) = 2 /\
      Requests item = [snapshot "req3"; snapshot "req3"; snapshot "req2"] /\
      Basket.Size item = 3 /\
      Basket.Size item <> Z.min 3 (Capacity (Basket.Config item)) /\
      TotalCount item = 3.
Proof.
  eexists _, _. split; [vm_compute; reflexivity|].
  split; [reflexivity|]. split; [reflexivity|].
  eexists. split; [vm_compute; reflexivity|].
  split; [reflexivity|]. split; [reflexivity|]. split; [reflexivity|].
  split; [|reflexivity]. vm_compute. discriminate.
Qed.

(** The scenario of the tests: capacity 2, three requests. *)
Example AddAll_three :
  fst <$> AddAll [snapshot "req1"; snapshot "req2"; snapshot "req3"]
            (BasketsDatabase.basketData "test102" "token" (plainConfig 2)) ∅
  = Some (mkBasket "test102" "token" (plainConfig 2)
            [snapshot "req3"; snapshot "req2"] 3 ∅).
Proof. vm_compute. reflexivity. Qed.

(** ** The stored item *)

Lemma updated_stored basket updates σ :
  stored basket σ ->
  base.updated (Key basket) updates σ !! Key basket
    = Some (foldl base.apply basket updates).
Proof.
  unfold stored, base.updated. intros ->. by rewrite lookup_insert_eq.
Qed.

Lemma updated_other key key' updates σ :
  key <> key' -> base.updated key updates σ !! key' = σ !! key'.
Proof.
  intros Hne. unfold base.updated.
  destruct (σ !! key); [|done]. by rewrite lookup_insert_ne.
Qed.

Lemma limited_stored basket item σ :
  σ !! Key basket = Some item ->
  Requests item = Requests basket ->
  limited_store basket σ !! Key basket
    = Some (with_Requests (Requests (limited basket)) item).
Proof.
  intros Hitem Hreq. unfold limited_store, limited.
  destruct (Capacity (BConfig basket) <? GoInt.len (Requests basket)) eqn:E.
  - unfold base.updated. rewrite Hitem. simpl. by rewrite lookup_insert_eq.
  - rewrite Hitem. simpl. rewrite take_ge.
    + by rewrite <- Hreq, with_Requests_id.
    + unfold GoInt.len in E. lia.
Qed.

(** ** C6: [Update] re-applies the capacity *)

Lemma Update_spec config basket σ :
  0 <= Capacity config ->
  Basket.Update config basket σ =
    Some (limited (with_BConfig config basket),
          base.updated (Key basket) [base.SetConfig config]
            (limited_store (with_BConfig config basket) σ)).
Proof.
  intros Hcap. unfold Basket.Update, bind. cbv zeta.
  rewrite applyLimit_spec by exact Hcap. reflexivity.
Qed.

(** C6.  [Update(config)] with a capacity [C'] returns and installs
    [config].  When the basket holds more than [C'] requests, exactly
    the first [C'] of them (the newest, in their order) are kept and the
    ones dropped are the tail (the oldest); when it holds [C'] or fewer,
    the requests are unchanged.  Counter, token and responses stay, and
    an item stored for the basket is updated alike. *)
Theorem C6_update_truncates_from_tail config basket σ :
  0 <= Capacity config ->
  exists basket' σ',
    Basket.Update config basket σ = Some (basket', σ') /\
    BConfig basket' = config /\
    Requests basket' = take (Z.to_nat (Capacity config)) (Requests basket) /\
    (Capacity config < Basket.Size basket ->
       Basket.Size basket' = Capacity config /\
       Requests basket =
         Requests basket' ++ drop (Z.to_nat (Capacity config)) (Requests basket)) /\
    (Basket.Size basket <= Capacity config -> Requests basket' = Requests basket) /\
    TotalCount basket' = TotalCount basket /\
    Token basket' = Token basket /\
    Responses basket' = Responses basket /\
    (stored basket σ -> stored basket' σ').
Proof.
  intros Hcap. rewrite Update_spec by exact Hcap.
  eexists _, _. split; [reflexivity|]. simpl.
  split; [reflexivity|]. split; [reflexivity|].
  unfold Basket.Size. split; [|split; [|repeat split]].
  - intros Hlt. unfold limited. simpl. rewrite len_take by lia. split; [lia|].
    by rewrite take_drop.
  - intros Hle. apply take_ge. unfold GoInt.len in Hle. lia.
  - unfold stored. simpl. intros Hst.
    unfold base.updated at 1.
    erewrite (limited_stored (with_BConfig config basket) basket); [|exact Hst|done].
    simpl. by rewrite lookup_insert_eq.
Qed.

(** Three requests, and a new capacity of 1. *)
Lemma C6_witness :
  0 <= Capacity (plainConfig 1) /\
  exists basket' σ',
    Basket.Update (plainConfig 1)
      (mkBasket "test104" "token" (plainConfig 3)
         [snapshot "req3"; snapshot "req2"; snapshot "req1"] 3 ∅) ∅
      = Some (basket', σ') /\
    Requests basket' = [snapshot "req3"].
Proof.
  split; [simpl; lia|].
  destruct (C6_update_truncates_from_tail (plainConfig 1)
              (mkBasket "test104" "token" (plainConfig 3)
                 [snapshot "req3"; snapshot "req2"; snapshot "req1"] 3 ∅) ∅)
    as (basket' & σ' & Hrun & _ & Hreq & _).
  - simpl; lia.
  - exists basket', σ'. split; [exact Hrun|]. rewrite Hreq. reflexivity.
Defined.

(** ** C7: [Clear] *)

Lemma makeslice_nonneg {runtime : GoRuntime} size cap :
  makeslice size cap = true -> 0 <= cap.
Proof. intros Hok. by destruct (makeslice_range size cap Hok). Qed.

Lemma makeslice_negative {runtime : GoRuntime} size cap :
  cap < 0 -> makeslice size cap = false.
Proof.
  intros Hneg. destruct (makeslice size cap) eqn:E; [|done].
  apply makeslice_nonneg in E. lia.
Qed.

Lemma makeslice_large {runtime : GoRuntime} size cap :
  GoInt.maxAlloc < size * cap -> makeslice size cap = false.
Proof.
  intros Hlarge. destruct (makeslice size cap) eqn:E; [|done].
  apply makeslice_range in E. lia.
Qed.

Lemma Clear_run {runtime : GoRuntime} basket σ :
  makeslice GoInt.ptr_size (Capacity (BConfig basket)) = true ->
  Basket.Clear basket σ =
    Some (with_Requests [] basket,
          base.updated (Key basket) [base.SetRequests []] σ).
Proof. intros Hmake. unfold Basket.Clear. by rewrite Hmake. Qed.

(** C7.  [Clear()] on a basket whose capacity the runtime allocates
    returns and empties the requests of the basket; the total counter,
    the token, the configuration and the responses per method are as
    before, in the object and in an item stored for it; items under
    other keys are untouched. *)
Theorem C7_clear_empties_requests_only {runtime : GoRuntime} basket σ :
  makeslice GoInt.ptr_size (Capacity (BConfig basket)) = true ->
  exists basket' σ',
    Basket.Clear basket σ = Some (basket', σ') /\
    Requests basket' = [] /\
    Basket.Size basket' = 0 /\
    TotalCount basket' = TotalCount basket /\
    Token basket' = Token basket /\
    BConfig basket' = BConfig basket /\
    Responses basket' = Responses basket /\
    Key basket' = Key basket /\
    (stored basket σ -> stored basket' σ') /\
    (forall key, key <> Key basket -> σ' !! key = σ !! key).
Proof.
  intros Hmake. rewrite Clear_run by exact Hmake.
  eexists _, _. split; [reflexivity|]. simpl. repeat split.
  - unfold stored. simpl. intros Hst. by rewrite updated_stored.
  - intros key Hne. by apply updated_other.
Qed.

(** A basket of three requests, stored under its key. *)
Lemma C7_witness :
  makeslice (GoRuntime := Example.runtime) GoInt.ptr_size (Capacity (BConfig basket3))
    = true /\
  exists basket' σ',
    Basket.Clear (runtime := Example.runtime) basket3 {[ Key basket3 := basket3 ]}
      = Some (basket', σ') /\
    Requests basket' = [] /\
    TotalCount basket' = 3 /\
    stored basket' σ'.
Proof.
  split; [reflexivity|].
  destruct (C7_clear_empties_requests_only (runtime := Example.runtime)
              basket3 {[ Key basket3 := basket3 ]})
    as (basket' & σ' & Hrun & Hreq & _ & Htotal & _ & _ & _ & _ & Hstored & _).
  - reflexivity.
  - exists basket', σ'. split; [exact Hrun|]. split; [exact Hreq|].
    split; [exact Htotal|]. apply Hstored. apply lookup_singleton_eq.
Defined.

(** The same basket once [Update] has set its capacity to [2^62]: it
    holds its three requests, and on no runtime does [Clear] return. *)
Lemma C7_counterexample :
  exists basket' σ',
    Basket.Update (plainConfig (2 ^ 62)) basket3 {[ Key basket3 := basket3 ]}
      = Some (basket', σ') /\
    Basket.Size basket' = 3 /\
    stored basket' σ' /\
    ~ exists (runtime : GoRuntime) result, Basket.Clear basket' σ' = Some result.
Proof.
  eexists _, _. split; [vm_compute; reflexivity|]. split; [reflexivity|].
  split; [vm_compute; reflexivity|].
  intros (runtime & result & Hrun). unfold Basket.Clear in Hrun.
  rewrite makeslice_large in Hrun; [discriminate|]. vm_compute. reflexivity.
Qed.

(** ** C3: [GetRequests] *)

(** C3.  For a page request [max >= 0], [skip >= 0] whose sum is a Go
    [int], [GetRequests(max, skip)] returns the requests of the basket
    from offset [skip] on, at most [max] of them, in their order; [Count]
    is the number of stored requests, [TotalCount] the total counter,
    and [HasMore] holds exactly when [skip + max < Count]; with [skip] at
    or beyond the stored size the page is empty and [HasMore] is
    false. *)
Theorem C3_GetRequests_page max skip basket :
  0 <= max -> 0 <= skip -> skip + max <= GoInt.max_int ->
  exists page,
    Basket.GetRequests max skip basket = Some page /\
    RequestsPage.Requests page
      = take (Z.to_nat max) (drop (Z.to_nat skip) (Requests basket)) /\
    GoInt.len (RequestsPage.Requests page) <= max /\
    RequestsPage.Count page = Basket.Size basket /\
    RequestsPage.TotalCount page = TotalCount basket /\
    (RequestsPage.HasMore page = true <-> skip + max < Basket.Size basket) /\
    (Basket.Size basket <= skip ->
       RequestsPage.Requests page = [] /\ RequestsPage.HasMore page = false).
Proof.
  intros Hmax Hskip Hsum. unfold Basket.GetRequests. cbv zeta.
  assert (Hadd : GoInt.add skip max = skip + max).
  { apply wrap_id. unfold GoInt.min_int, GoInt.max_int in *. lia. }
  rewrite Hadd. unfold Basket.Size.
  set (size := GoInt.len (Requests basket)).
  assert (Hsize : size = Z.of_nat (length (Requests basket))) by reflexivity.
  destruct (skip <? size) eqn:Eskip.
  - destruct (size <? skip + max) eqn:Elast.
    + rewrite slice_Some by (fold size; lia). simpl.
      eexists. split; [reflexivity|]. simpl.
      assert (Hreq : take (Z.to_nat (size - skip)) (drop (Z.to_nat skip) (Requests basket))
                     = take (Z.to_nat max) (drop (Z.to_nat skip) (Requests basket))).
      { rewrite !take_ge; [done| |]; rewrite length_drop; lia. }
      rewrite Hreq. split; [reflexivity|].
      split. { unfold GoInt.len. rewrite length_take, length_drop. lia. }
      repeat split; try lia.
    + rewrite slice_Some by (fold size; lia). simpl.
      eexists. split; [reflexivity|]. simpl.
      replace (skip + max - skip) with max by lia.
      split; [reflexivity|].
      split. { unfold GoInt.len. rewrite length_take, length_drop. lia. }
      repeat split; try lia.
  - eexists. split; [reflexivity|]. simpl.
    split. { rewrite drop_ge by lia. by rewrite take_nil. }
    split. { unfold GoInt.len. simpl. lia. }
    repeat split; try lia.
Qed.

(** ** C4: [FindRequests] *)

Section FindRequests_scan.

Variables (query in_ : string) (max skip : Z) (all : list RequestData.t).
Hypothesis Hskip : skip <= GoInt.max_int.
Hypothesis Hall : GoInt.len all <= GoInt.max_int.

Local Abbreviation matched := (matched query in_ all).
Local Abbreviation collected := (collected query in_ skip all).
Local Abbreviation skipped_at := (skipped_at query in_ skip all).

Lemma matched_S j r :
  all !! j = Some r ->
  matched (S j) =
    matched j ++ (if RequestData.Matches r query in_ then [r] else []).
Proof.
  intros Hj. unfold matched. rewrite (take_S_r _ _ _ Hj), List.filter_app.
  simpl. by destruct (RequestData.Matches r query in_).
Qed.

(** One turn of the loop body: the filter step. *)
Lemma filter_step j r :
  all !! j = Some r ->
  (if RequestData.Matches r query in_
   then if skipped_at j <? skip
        then (collected j, GoInt.add (skipped_at j) 1)
        else (collected j ++ [r], skipped_at j)
   else (collected j, skipped_at j))
  = (collected (S j), skipped_at (S j)).
Proof.
  intros Hj. unfold collected, skipped_at. rewrite (matched_S _ _ Hj).
  destruct (RequestData.Matches r query in_).
  - rewrite length_app. simpl.
    destruct (Z.of_nat (Z.to_nat skip `min` length (matched j)) <? skip) eqn:E;
      [apply Z.ltb_lt in E | apply Z.ltb_ge in E].
    + assert (Hlt : (length (matched j) < Z.to_nat skip)%nat) by lia.
      rewrite (drop_ge (matched j)) by lia.
      rewrite drop_ge by (rewrite length_app; simpl; lia).
      f_equal. unfold GoInt.add. rewrite wrap_id.
      * lia.
      * unfold GoInt.min_int, GoInt.max_int in *. lia.
    + assert (Hge : (Z.to_nat skip <= length (matched j))%nat) by lia.
      rewrite drop_app_le by lia. f_equal. lia.
  - by rewrite app_nil_r.
Qed.

Lemma len_collected_S j r :
  all !! j = Some r ->
  GoInt.len (collected (S j)) <= GoInt.len (collected j) + 1.
Proof.
  intros Hj. unfold collected, GoInt.len. rewrite (matched_S _ _ Hj).
  rewrite !length_drop, length_app.
  destruct (RequestData.Matches r query in_); simpl; lia.
Qed.

(** The loop from position [i] on stops at the first position [k > i]
    at which [max] matches are collected, or at the end. *)
Lemma FindRequests_loop_spec rest : forall i : nat,
  rest = drop i all ->
  (i <= length all)%nat ->
  GoInt.len (collected i) < max ->
  (forall j, (1 <= j <= i)%nat -> GoInt.len (collected j) <> max) ->
  exists k : nat,
    (i <= k <= length all)%nat /\
    Basket.FindRequests_loop query in_ max skip (GoInt.len all) (Z.of_nat i)
      (collected i) (skipped_at i) rest
    = RequestsQueryPage.mk (collected k) (bool_decide (k < length all)%nat) /\
    GoInt.len (collected k) <= max /\
    ((k < length all)%nat -> GoInt.len (collected k) = max) /\
    (forall j, (1 <= j < k)%nat -> GoInt.len (collected j) <> max).
Proof.
  induction rest as [|r rest IH]; intros i Hrest Hi Hlt Hprev.
  - assert (i = length all) as ->.
    { apply (f_equal length) in Hrest. rewrite length_drop in Hrest.
      simpl in Hrest. lia. }
    exists (length all). simpl. rewrite bool_decide_eq_false_2 by lia.
    repeat split; try lia. intros j Hj. apply Hprev. lia.
  - assert (Hr : all !! i = Some r).
    { rewrite <- (Nat.add_0_r i), <- lookup_drop, <- Hrest. reflexivity. }
    assert (HiN : (i < length all)%nat) by (by eapply lookup_lt_Some).
    assert (Hrest' : rest = drop (S i) all).
    { rewrite (drop_S _ _ _ Hr) in Hrest. by inversion Hrest. }
    pose proof (len_collected_S _ _ Hr) as Hgrow.
    simpl. rewrite (filter_step _ _ Hr).
    destruct (GoInt.len (collected (S i)) =? max) eqn:E;
      [apply Z.eqb_eq in E | apply Z.eqb_neq in E].
    + exists (S i). split; [lia|]. split.
      * f_equal. unfold GoInt.sub, GoInt.len. rewrite wrap_id.
        -- destruct (Z.ltb_spec (Z.of_nat i) (Z.of_nat (length all) - 1)).
           ++ rewrite bool_decide_eq_true_2 by lia. reflexivity.
           ++ rewrite bool_decide_eq_false_2 by lia. reflexivity.
        -- unfold GoInt.len, GoInt.min_int, GoInt.max_int in *. lia.
      * split; [lia|]. split; [lia|]. intros j Hj. apply Hprev. lia.
    + assert (Hidx : GoInt.add (Z.of_nat i) 1 = Z.of_nat (S i)).
      { unfold GoInt.add. rewrite wrap_id; [lia|].
        unfold GoInt.len, GoInt.min_int, GoInt.max_int in *. lia. }
      rewrite Hidx.
      destruct (IH (S i) Hrest') as (k & Hk & Hrun & Hle & Hstop & Hfirst).
      * lia.
      * lia.
      * intros j Hj. destruct (decide (j = S i)) as [->|]; [lia|].
        apply Hprev. lia.
      * exists k. split; [lia|]. split; [exact Hrun|]. auto.
Qed.

End FindRequests_scan.

Lemma append_String a s t : (String a s +:+ t)%string = String a (s +:+ t).
Proof. reflexivity. Qed.

Lemma prefix_spec p : forall s,
  String.prefix p s = true <-> exists post, s = (p +:+ post)%string.
Proof.
  induction p as [|a p IH]; intros [|b s]; simpl.
  - split; [by exists ""%string | done].
  - split; [by exists (String b s) | done].
  - split; [done | intros [post Hpost]; discriminate].
  - destruct (Ascii.ascii_dec a b) as [->|Hne].
    + rewrite IH. split; intros [post Hpost]; exists post;
        rewrite append_String in *; congruence.
    + split; [done | intros [post Hpost]].
      rewrite append_String in Hpost. congruence.
Qed.

Lemma Contains_spec s : forall sub,
  strings.Contains s sub = true <-> substring_of sub s.
Proof.
  induction s as [|c s IH]; intros sub.
  - unfold strings.Contains. rewrite orb_false_r, prefix_spec. split.
    + intros [post Hpost]. by exists ""%string, post.
    + intros ([|a pre] & post & Hs); [by exists post | discriminate].
  - change (strings.Contains (String c s) sub)
      with (String.prefix sub (String c s) || strings.Contains s sub).
    rewrite orb_true_iff, prefix_spec, IH. split.
    + intros [[post Hpost] | (pre & post & Hs)].
      * by exists ""%string, post.
      * exists (String c pre), post. by rewrite append_String, Hs.
    + intros ([|a pre] & post & Hs).
      * left. by exists post.
      * right. exists pre, post. rewrite append_String in Hs. congruence.
Qed.

Lemma Matches_spec r query in_ :
  RequestData.Matches r query in_ = true <->
  exists field, field ∈ searched in_ r /\ substring_of query field.
Proof.
  unfold RequestData.Matches, searched.
  destruct (String.eqb in_ "body");
    [|destruct (String.eqb in_ "query"); [|destruct (String.eqb in_ "headers")]].
  1-3: rewrite Contains_spec; split;
    [ intros Hc; eexists; split; [|exact Hc]; set_solver
    | intros (field & Hin & Hc); set_unfold; destruct Hin as [->|[]]; exact Hc ].
  rewrite !orb_true_iff, !Contains_spec. split.
  - intros [[Hc|Hc]|Hc]; eexists; (split; [|exact Hc]); set_solver.
  - intros (field & Hin & Hc). set_unfold.
    destruct Hin as [ -> | [ -> | [ -> | [] ] ] ]; auto.
Qed.

Lemma len_collected_le_matched query in_ skip all j :
  (Z.to_nat skip <= length (matched query in_ all j))%nat \/
  collected query in_ skip all j = [].
Proof.
  unfold collected.
  destruct (decide (Z.to_nat skip <= length (matched query in_ all j))%nat);
    [by left | right]. apply drop_ge. lia.
Qed.

(** C4 (as amended: [max >= 1], and the runtime allocates a result of
    capacity [max]).  [FindRequests(query, in, max, skip)] returns.  It
    scans the stored requests in their order, newest first,
    up to some position [k]; a request counts as a match when [query]
    occurs in the field [in] selects (body, headers or query; all three
    for any other selector); the first [skip] matches are skipped and the
    later ones collected, never more than [max]; [k] is the first
    position at which [max] matches are collected, or the end; and
    [HasMore] holds exactly when requests are left beyond [k].  What is
    returned is therefore the page of [max] matches after the first
    [skip] matches of the whole sequence. *)
Theorem C4_FindRequests_scans_until_max {runtime : GoRuntime}
    query in_ max skip basket :
  1 <= max -> makeslice GoInt.ptr_size max = true ->
  skip <= GoInt.max_int -> Basket.Size basket <= GoInt.max_int ->
  exists page (k : nat),
    Basket.FindRequests query in_ max skip basket = Some page /\
    (k <= length (Requests basket))%nat /\
    RequestsQueryPage.Requests page
      = collected query in_ skip (Requests basket) k /\
    GoInt.len (RequestsQueryPage.Requests page) <= max /\
    (forall j, (1 <= j < k)%nat ->
       GoInt.len (collected query in_ skip (Requests basket) j) <> max) /\
    ((k < length (Requests basket))%nat ->
       GoInt.len (RequestsQueryPage.Requests page) = max) /\
    (RequestsQueryPage.HasMore page = true <-> (k < length (Requests basket))%nat) /\
    RequestsQueryPage.Requests page
      = take (Z.to_nat max)
          (drop (Z.to_nat skip)
             (List.filter (fun r => RequestData.Matches r query in_) (Requests basket))) /\
    (forall r, RequestData.Matches r query in_ = true <->
               exists field, field ∈ searched in_ r /\ substring_of query field).
Proof.
  intros Hmax Hmake Hskip Hsize. unfold Basket.Size in Hsize.
  unfold Basket.FindRequests. rewrite Hmake. cbn [negb].
  set (all := Requests basket) in *.
  destruct (FindRequests_loop_spec query in_ max skip all Hskip Hsize all 0%nat)
    as (k & Hk & Hrun & Hle & Hstop & Hfirst).
  - reflexivity.
  - lia.
  - unfold collected, matched, GoInt.len. simpl. rewrite drop_nil. simpl. lia.
  - intros j Hj. lia.
  - assert (H0 : collected query in_ skip all 0 = []).
    { unfold collected, matched. simpl. apply drop_nil. }
    assert (Hs0 : skipped_at query in_ skip all 0 = 0).
    { unfold skipped_at, matched. simpl. lia. }
    rewrite H0, Hs0 in Hrun. change (Z.of_nat 0) with 0 in Hrun.
    eexists _, k. split; [by rewrite Hrun|]. simpl.
    split; [lia|]. split; [reflexivity|]. split; [exact Hle|].
    split; [exact Hfirst|]. split; [exact Hstop|].
    split; [apply bool_decide_eq_true|].
    split; [|intros r; apply Matches_spec].
    destruct (decide (k < length all)%nat) as [Hlt|Hge].
    + specialize (Hstop Hlt).
      rewrite <- (take_drop k all) at 2. rewrite List.filter_app.
      fold (matched query in_ all k).
      destruct (len_collected_le_matched query in_ skip all k) as [Hm|Hnil].
      * rewrite drop_app_le by exact Hm. fold (collected query in_ skip all k).
        rewrite take_app_length'; [done|]. unfold GoInt.len in Hstop. lia.
      * rewrite Hnil in Hstop. unfold GoInt.len in Hstop. simpl in Hstop. lia.
    + assert (k = length all) as -> by lia.
      unfold collected, matched in Hle |- *.
      rewrite (take_ge all) in Hle |- * by lia.
      rewrite take_ge; [done|]. unfold GoInt.len in Hle. lia.
Qed.

(** ** Examples for C3 and C4 *)

(** The page of two requests after the first, out of three. *)
Lemma C3_witness :
  0 <= 2 /\ 0 <= 1 /\ 1 + 2 <= GoInt.max_int /\
  exists page,
    Basket.GetRequests 2 1 basket3 = Some page /\
    RequestsPage.Requests page = [snapshot "req2"; snapshot "req1"] /\
    RequestsPage.Count page = 3 /\
    RequestsPage.TotalCount page = 3 /\
    (RequestsPage.HasMore page = true <-> 1 + 2 < 3).
Proof.
  assert (Hsum : 1 + 2 <= GoInt.max_int) by (vm_compute; discriminate).
  split; [lia|]. split; [lia|]. split; [exact Hsum|].
  destruct (C3_GetRequests_page 2 1 basket3) as (page & Hrun & Hreq & _ & Hc & Ht & Hm & _);
    [lia | lia | exact Hsum |].
  exists page. split; [exact Hrun|]. split; [exact Hreq|].
  split; [exact Hc|]. split; [exact Ht|]. exact Hm.
Defined.

(** C3 as stated, for every [max] and [skip], fails outside the range
    of page requests.
    - [max = skip = 2^62], empty basket: [skip + max] overflows to
      [-2^63], so [last < size] and [HasMore] is true, although
      [skip + max < count] is false and [skip] is beyond the stored
      size.
    - [max = -1], [skip = 0], empty basket: [HasMore] is true with [skip]
      at the stored size, and the page cannot hold at most [-1]
      requests.
    - [max = 1], [skip = -1], three requests: the slice expression
      [basket.Requests[-1:0]] panics. *)
Lemma C3_counterexample :
  (Basket.GetRequests (2 ^ 62) (2 ^ 62) emptyBasket
     = Some (RequestsPage.mk [] 0 0 true) /\
   ~ (RequestsPage.HasMore (RequestsPage.mk [] 0 0 true) = true
      <-> 2 ^ 62 + 2 ^ 62 < Basket.Size emptyBasket) /\
   ~ (Basket.Size emptyBasket <= 2 ^ 62 ->
      RequestsPage.HasMore (RequestsPage.mk [] 0 0 true) = false)) /\
  (Basket.GetRequests (-1) 0 emptyBasket = Some (RequestsPage.mk [] 0 0 true) /\
   ~ (GoInt.len (RequestsPage.Requests (RequestsPage.mk [] 0 0 true)) <= -1) /\
   ~ (Basket.Size emptyBasket <= 0 ->
      RequestsPage.HasMore (RequestsPage.mk [] 0 0 true) = false)) /\
  Basket.GetRequests 1 (-1) basket3 = None.
Proof.
  assert (Hsize : Basket.Size emptyBasket = 0) by reflexivity.
  split; [|split]; [| |reflexivity].
  - split; [reflexivity|]. rewrite Hsize. simpl. split.
    + intros [Hmore _]. specialize (Hmore eq_refl). lia.
    + intros Hfalse. discriminate Hfalse. lia.
  - split; [reflexivity|]. rewrite Hsize. simpl. split.
    + unfold GoInt.len. simpl. lia.
    + intros Hfalse. discriminate Hfalse. lia.
Qed.

(** One match after the first match, out of three: the scan stops at the
    second request and one request is left. *)
Lemma C4_witness :
  1 <= 1 /\ makeslice (GoRuntime := Example.runtime) GoInt.ptr_size 1 = true /\
  1 <= GoInt.max_int /\ Basket.Size basket3 <= GoInt.max_int /\
  exists page,
    Basket.FindRequests (runtime := Example.runtime) "req" "body" 1 1 basket3
      = Some page /\
    RequestsQueryPage.Requests page = [snapshot "req2"] /\
    RequestsQueryPage.HasMore page = true.
Proof.
  assert (H1 : 1 <= GoInt.max_int) by (vm_compute; discriminate).
  assert (H3 : Basket.Size basket3 <= GoInt.max_int) by (vm_compute; discriminate).
  split; [lia|]. split; [reflexivity|]. split; [exact H1|]. split; [exact H3|].
  destruct (C4_FindRequests_scans_until_max (runtime := Example.runtime)
              "req" "body" 1 1 basket3)
    as (page & k & Hrun & _ & _ & _ & _ & _ & _ & _ & _);
    [lia | reflexivity | exact H1 | exact H3 |].
  exists page. split; [exact Hrun|].
  vm_compute in Hrun. injection Hrun as <-. split; reflexivity.
Defined.

(** C4 as stated, for every [max], fails at [max = 0]: the test
    [len(result) == max] comes after the first match is appended and
    never holds again, so every match is returned and the scan runs to
    the end (shown on a runtime that allocates up to 2^30 bytes; on no
    runtime is a page of at most 0 requests returned).  And the
    allocation of the result panics on every runtime for a negative
    [max] and for [max = 2^62]. *)
Lemma C4_counterexample :
  Basket.FindRequests (runtime := Example.runtime) "req" "body" 0 0 basket3
    = Some (RequestsQueryPage.mk
              [snapshot "req3"; snapshot "req2"; snapshot "req1"] false) /\
  (~ exists (runtime : GoRuntime) page,
       Basket.FindRequests "req" "body" 0 0 basket3 = Some page /\
       GoInt.len (RequestsQueryPage.Requests page) <= 0) /\
  (~ exists (runtime : GoRuntime) page,
       Basket.FindRequests "req" "body" (-1) 0 basket3 = Some page) /\
  (~ exists (runtime : GoRuntime) page,
       Basket.FindRequests "req" "body" (2 ^ 62) 0 basket3 = Some page).
Proof.
  split; [reflexivity|]. split; [|split].
  - intros (runtime & page & Hrun & Hlen). unfold Basket.FindRequests in Hrun.
    destruct (makeslice GoInt.ptr_size 0); [|discriminate].
    vm_compute in Hrun. injection Hrun as <-. vm_compute in Hlen. congruence.
  - intros (runtime & page & Hrun). unfold Basket.FindRequests in Hrun.
    rewrite makeslice_negative in Hrun; [discriminate | lia].
  - intros (runtime & page & Hrun). unfold Basket.FindRequests in Hrun.
    rewrite makeslice_large in Hrun; [discriminate|]. vm_compute. reflexivity.
Qed.

(** The searches of the tests on three requests. *)
Example FindRequests_body :
  RequestsQueryPage.Requests
    <$> Basket.FindRequests (runtime := Example.runtime) "req2" "body" 100 0 basket3
  = Some [snapshot "req2"].
Proof. reflexivity. Qed.

Example FindRequests_headers_none :
  RequestsQueryPage.Requests
    <$> Basket.FindRequests (runtime := Example.runtime) "req2" "headers" 100 0 basket3
  = Some [].
Proof. reflexivity. Qed.

(** ** The handlers *)

Lemma len_string_pos s : (0 <? len_string s) = negb (String.eqb s "").
Proof. destruct s; reflexivity. Qed.

Lemma len_string_pos_iff s : (0 <? len_string s) = true <-> s <> ""%string.
Proof. rewrite len_string_pos. destruct s; simpl; split; intros; congruence. Qed.

Lemma getAuthorizedBasket_run r σ :
  getAuthorizedBasket r σ =
    Some (if validBasketName (Request.basket r) then
            match σ !! Request.basket r with
            | Some basket => inr (Request.basket r, basket)
            | None => inl (WriteHeader StatusNotFound)
            end
          else inl (http_Error Response.InvalidName StatusBadRequest), σ).
Proof.
  unfold getAuthorizedBasket.
  destruct (validBasketName (Request.basket r)); simpl; [|reflexivity].
  unfold bind, BasketsDatabase.Get, base.Get.
  by destruct (σ !! Request.basket r).
Qed.

(** ** C8: validation of configurations *)

Section Validation.

Context {lib : GoLib} {runtime : GoRuntime} {deta : DetaService}
  (serverConfig : ServerConfig).

Local Abbreviation basket_config_ok := (basket_config_ok serverConfig).
Local Abbreviation defaultConfig := (defaultConfig serverConfig).

Lemma validateBasketConfig_None config :
  validateBasketConfig serverConfig config = None <-> basket_config_ok config.
Proof.
  unfold validateBasketConfig, basket_config_ok.
  destruct (Z.ltb_spec (Capacity config) 1);
    [split; [discriminate | lia]|].
  destruct (Z.ltb_spec (MaxCapacity serverConfig) (Capacity config));
    [split; [discriminate | lia]|].
  rewrite len_string_pos.
  destruct (String.eqb_spec (ForwardURL config) "") as [->|Hne]; simpl.
  - split; [intros _|reflexivity]. split; [lia | by left].
  - destruct (ParseRequestURI (ForwardURL config)); simpl.
    + split; [intros _|reflexivity]. split; [lia | by right].
    + split; [discriminate|]. intros [_ [?|?]]; congruence.
Qed.

Lemma validateResponseConfig_None response :
  validateResponseConfig response = None <-> response_config_ok response.
Proof.
  unfold validateResponseConfig, response_config_ok.
  destruct (Z.ltb_spec (Status response) 100); simpl;
    [split; [discriminate | lia]|].
  destruct (Z.leb_spec 600 (Status response)); simpl;
    [split; [discriminate | lia]|].
  rewrite len_string_pos.
  destruct (IsTemplate response); simpl;
    [|split; [intros _; split; [lia | by left] | reflexivity]].
  destruct (String.eqb_spec (Body response) "") as [->|Hne]; simpl.
  - split; [intros _|reflexivity]. split; [lia | right; by left].
  - destruct (template_Parse (Body response)); simpl.
    + split; [intros _|reflexivity]. split; [lia | right; by right].
    + split; [discriminate|]. intros [_ [?|[?|?]]]; congruence.
Qed.

Lemma validateBasketConfig_error config :
  ~ basket_config_ok config ->
  exists err, validateBasketConfig serverConfig config = Some err.
Proof.
  rewrite <- validateBasketConfig_None.
  destruct (validateBasketConfig serverConfig config); [eauto | done].
Qed.

Lemma validateResponseConfig_error response :
  ~ response_config_ok response ->
  exists err, validateResponseConfig response = Some err.
Proof.
  rewrite <- validateResponseConfig_None.
  destruct (validateResponseConfig response); [eauto | done].
Qed.

Lemma CreateBasket_rejects_config generated r σ body config :
  name_free_to_create (Request.basket r) ->
  ReadAll_LimitReader (Request.Body r) 2048 = Some body ->
  body <> ""%string ->
  Unmarshal_BasketConfig body defaultConfig = Some config ->
  ~ basket_config_ok config ->
  exists err,
    CreateBasket serverConfig generated r σ =
      Some (http_Error (Response.Message err) StatusUnprocessableEntity, σ).
Proof.
  intros (Hn1 & Hn2 & Hn3 & Hvalid) Hbody Hlen Hjson Hbad.
  destruct (validateBasketConfig_error config Hbad) as [err Herr].
  exists err. unfold CreateBasket. simpl.
  apply String.eqb_neq in Hn1, Hn2, Hn3. rewrite Hn1, Hn2, Hn3, Hvalid. simpl.
  rewrite Hbody.
  apply len_string_pos_iff in Hlen. rewrite Hlen.
  fold defaultConfig. rewrite Hjson, Herr. reflexivity.
Qed.

Lemma UpdateBasket_rejects_config r σ basket body config :
  validBasketName (Request.basket r) = true ->
  σ !! Request.basket r = Some basket ->
  ReadAll_LimitReader (Request.Body r) 2048 = Some body ->
  body <> ""%string ->
  Unmarshal_BasketConfig body (BConfig basket) = Some config ->
  ~ basket_config_ok config ->
  exists err,
    UpdateBasket serverConfig r σ =
      Some (http_Error (Response.Message err) StatusUnprocessableEntity, σ).
Proof.
  intros Hvalid Hget Hbody Hlen Hjson Hbad.
  destruct (validateBasketConfig_error config Hbad) as [err Herr].
  exists err. unfold UpdateBasket, bind.
  rewrite getAuthorizedBasket_run, Hvalid, Hget, Hbody.
  apply len_string_pos_iff in Hlen. rewrite Hlen.
  unfold Basket.Config. rewrite Hjson, Herr. reflexivity.
Qed.

Lemma UpdateBasketResponse_rejects_config r σ basket body response :
  validBasketName (Request.basket r) = true ->
  σ !! Request.basket r = Some basket ->
  ToUpper (Request.method r) ∈ validMethods ->
  ReadAll_LimitReader (Request.Body r) (64 * 1024) = Some body ->
  body <> ""%string ->
  Unmarshal_ResponseConfig body (mkResponseConfig StatusOK [] "" false)
    = Some response ->
  ~ response_config_ok response ->
  exists err,
    UpdateBasketResponse r σ =
      Some (http_Error (Response.Message err) StatusUnprocessableEntity, σ).
Proof.
  intros Hvalid Hget Hmethod Hbody Hlen Hjson Hbad.
  destruct (validateResponseConfig_error response Hbad) as [err Herr].
  exists err. unfold UpdateBasketResponse, bind.
  rewrite getAuthorizedBasket_run, Hvalid, Hget.
  unfold getValidMethod. rewrite bool_decide_eq_true_2 by exact Hmethod.
  rewrite Hbody.
  apply len_string_pos_iff in Hlen. rewrite Hlen.
  change (Status defaultResponse) with StatusOK.
  rewrite Hjson, Herr. reflexivity.
Qed.

End Validation.

(** A handler that does not answer with its status of success leaves
    the collection as it was. *)
Lemma CreateBasket_unchanged {lib : GoLib} {runtime : GoRuntime} serverConfig generated r σ w σ' :
  CreateBasket serverConfig generated r σ = Some (w, σ') ->
  Response.StatusCode w <> StatusCreated -> σ' = σ.
Proof.
  unfold CreateBasket, bind, ret, BasketsDatabase.Create, base.Insert, bind, ret.
  intros Hrun Hstatus.
  repeat (case_match; simplify_eq/=); try done.
Qed.

Lemma UpdateBasket_unchanged {lib : GoLib} serverConfig r σ w σ' :
  UpdateBasket serverConfig r σ = Some (w, σ') ->
  Response.StatusCode w <> StatusNoContent -> σ' = σ.
Proof.
  unfold UpdateBasket, bind, ret. rewrite getAuthorizedBasket_run.
  intros Hrun Hstatus.
  repeat (case_match; simplify_eq/=); try done.
Qed.

Lemma UpdateBasketResponse_unchanged {lib : GoLib} r σ w σ' :
  UpdateBasketResponse r σ = Some (w, σ') ->
  Response.StatusCode w <> StatusNoContent -> σ' = σ.
Proof.
  unfold UpdateBasketResponse, bind, ret. rewrite getAuthorizedBasket_run.
  intros Hrun Hstatus.
  repeat (case_match; simplify_eq/=); try done.
Qed.

(** C8.  The two validations accept exactly the configurations the
    specification allows: a capacity between 1 and the maximum of the
    server with a forward URL that is empty or parses; a status between
    100 and 599 with a body that, for a template, is empty or parses.  A
    request whose decoded configuration is not allowed is answered 422
    (unprocessable entity) by [CreateBasket], [UpdateBasket] and
    [UpdateBasketResponse], and the collection is left as it was. *)
Theorem C8_invalid_configuration_is_rejected {lib : GoLib} {runtime : GoRuntime}
    (serverConfig : ServerConfig) :
  (forall config,
     validateBasketConfig serverConfig config = None
     <-> basket_config_ok serverConfig config) /\
  (forall response,
     validateResponseConfig response = None <-> response_config_ok response) /\
  (forall generated r σ body config,
     name_free_to_create (Request.basket r) ->
     ReadAll_LimitReader (Request.Body r) 2048 = Some body ->
     body <> ""%string ->
     Unmarshal_BasketConfig body (defaultConfig serverConfig) = Some config ->
     ~ basket_config_ok serverConfig config ->
     exists err,
       CreateBasket serverConfig generated r σ =
         Some (http_Error (Response.Message err) StatusUnprocessableEntity, σ)) /\
  (forall r σ basket body config,
     validBasketName (Request.basket r) = true ->
     σ !! Request.basket r = Some basket ->
     ReadAll_LimitReader (Request.Body r) 2048 = Some body ->
     body <> ""%string ->
     Unmarshal_BasketConfig body (BConfig basket) = Some config ->
     ~ basket_config_ok serverConfig config ->
     exists err,
       UpdateBasket serverConfig r σ =
         Some (http_Error (Response.Message err) StatusUnprocessableEntity, σ)) /\
  (forall r σ basket body response,
     validBasketName (Request.basket r) = true ->
     σ !! Request.basket r = Some basket ->
     ToUpper (Request.method r) ∈ validMethods ->
     ReadAll_LimitReader (Request.Body r) (64 * 1024) = Some body ->
     body <> ""%string ->
     Unmarshal_ResponseConfig body (mkResponseConfig StatusOK [] "" false)
       = Some response ->
     ~ response_config_ok response ->
     exists err,
       UpdateBasketResponse r σ =
         Some (http_Error (Response.Message err) StatusUnprocessableEntity, σ)) /\
  (forall generated r σ w σ',
     CreateBasket serverConfig generated r σ = Some (w, σ') ->
     Response.StatusCode w = StatusUnprocessableEntity -> σ' = σ) /\
  (forall r σ w σ',
     UpdateBasket serverConfig r σ = Some (w, σ') ->
     Response.StatusCode w = StatusUnprocessableEntity -> σ' = σ) /\
  (forall r σ w σ',
     UpdateBasketResponse r σ = Some (w, σ') ->
     Response.StatusCode w = StatusUnprocessableEntity -> σ' = σ).
Proof.
  split; [apply validateBasketConfig_None|].
  split; [apply validateResponseConfig_None|].
  split; [apply CreateBasket_rejects_config|].
  split; [apply UpdateBasket_rejects_config|].
  split; [apply UpdateBasketResponse_rejects_config|].
  split; [|split].
  - intros generated r σ w σ' Hrun Hst.
    eapply CreateBasket_unchanged; [exact Hrun|]. rewrite Hst. done.
  - intros r σ w σ' Hrun Hst.
    eapply UpdateBasket_unchanged; [exact Hrun|]. rewrite Hst. done.
  - intros r σ w σ' Hrun Hst.
    eapply UpdateBasketResponse_unchanged; [exact Hrun|]. rewrite Hst. done.
Qed.

(** A capacity of 0 at creation, and a status of 99 for POST. *)
Lemma C8_witness :
  (exists err,
     CreateBasket (lib := Example.lib) (runtime := Example.runtime)
       (Example.serverConfig ModePublic) (Some "token")
       (Example.request "basket1" "" "0") ∅
     = Some (http_Error (Response.Message err) StatusUnprocessableEntity, ∅)) /\
  (exists err,
     UpdateBasketResponse (lib := Example.lib) (Example.request "basket1" "post" "99")
       {[ "basket1"%string := BasketsDatabase.basketData "basket1" "token" (plainConfig 200) ]}
     = Some (http_Error (Response.Message err) StatusUnprocessableEntity,
             {[ "basket1"%string := BasketsDatabase.basketData "basket1" "token" (plainConfig 200) ]})).
Proof.
  destruct (C8_invalid_configuration_is_rejected (lib := Example.lib) (runtime := Example.runtime)
              (Example.serverConfig ModePublic))
    as (_ & _ & Hcreate & _ & Hresponse & _).
  split.
  - eapply (Hcreate (Some "token"%string) (Example.request "basket1" "" "0") ∅).
    + repeat split; try discriminate.
    + reflexivity.
    + discriminate.
    + reflexivity.
    + intros [[Hcap _] _]. simpl in Hcap. lia.
  - eapply (Hresponse (Example.request "basket1" "post" "99")).
    + reflexivity.
    + reflexivity.
    + vm_compute. set_solver.
    + reflexivity.
    + discriminate.
    + reflexivity.
    + intros [[Hst _] _]. simpl in Hst. lia.
Defined.

(** ** C9: basket names at creation *)

Lemma ascii_eqb_code c d : Ascii.eqb c d = true <-> N_of_ascii c = N_of_ascii d.
Proof.
  rewrite Ascii.eqb_eq. split; [by intros ->|].
  intros Heq. by rewrite <- (ascii_N_embedding c), Heq, ascii_N_embedding.
Qed.

Lemma class_spec c : basketNamePattern.class c = true <-> name_char c.
Proof.
  unfold basketNamePattern.class, basketNamePattern.word,
    basketNamePattern.digit, name_char. cbv zeta.
  rewrite !orb_true_iff, !andb_true_iff, !N.leb_le, !N.eqb_eq, !ascii_eqb_code.
  change (N_of_ascii "-") with 45%N. change (N_of_ascii "_") with 95%N.
  change (N_of_ascii ".") with 46%N. lia.
Qed.

Lemma MatchString_spec s :
  validBasketName s = true <->
  (1 <= String.length s <= 250)%nat /\ Forall name_char (list_ascii_of_string s).
Proof.
  unfold basketNamePattern.MatchString. cbv zeta.
  rewrite !andb_true_iff, !Nat.leb_le, forallb_forall, Forall_forall.
  split; intros [Hlen Hall]; (split; [lia|]); intros c Hc.
  - apply class_spec, Hall. by apply list_elem_of_In.
  - apply class_spec, Hall. by apply list_elem_of_In.
Qed.

(** C9.  A name matches the pattern exactly when it has between 1 and
    250 characters, all of the class.  [CreateBasket] answers a name
    that does not match with a client error (400), and a name that is
    one of the reserved paths ([baskets], [api], [web]) with 403; in
    both cases nothing is created: the collection is left as it was. *)
Theorem C9_name_is_checked_at_creation {lib : GoLib} {runtime : GoRuntime}
    (serverConfig : ServerConfig)
    generated r σ :
  (validBasketName (Request.basket r) = true <->
   (1 <= String.length (Request.basket r) <= 250)%nat /\
   Forall name_char (list_ascii_of_string (Request.basket r))) /\
  (validBasketName (Request.basket r) = false ->
   CreateBasket serverConfig generated r σ
     = Some (http_Error Response.InvalidName StatusBadRequest, σ)) /\
  (Request.basket r ∈ [serviceOldAPIPath; serviceAPIPath; serviceUIPath] ->
   CreateBasket serverConfig generated r σ
     = Some (http_Error (Response.ReservedName (Request.basket r)) StatusForbidden, σ)).
Proof.
  split; [apply MatchString_spec|]. split.
  - intros Hbad. unfold CreateBasket. simpl.
    destruct (String.eqb_spec (Request.basket r) serviceOldAPIPath) as [E|_];
      [by rewrite E in Hbad|].
    destruct (String.eqb_spec (Request.basket r) serviceAPIPath) as [E|_];
      [by rewrite E in Hbad|].
    destruct (String.eqb_spec (Request.basket r) serviceUIPath) as [E|_];
      [by rewrite E in Hbad|].
    rewrite Hbad. reflexivity.
  - intros Hin. unfold CreateBasket. simpl.
    set_unfold.
    destruct Hin as [ -> | [ -> | [ -> | [] ] ] ]; reflexivity.
Qed.

(** A name with a slash, and the reserved name [web]. *)
Lemma C9_witness :
  (validBasketName "no/slash" = false /\
   CreateBasket (lib := Example.lib) (runtime := Example.runtime)
       (Example.serverConfig ModePublic) (Some "token")
     (Example.request "no/slash" "" "") ∅
   = Some (http_Error Response.InvalidName StatusBadRequest, ∅)) /\
  ("web"%string ∈ [serviceOldAPIPath; serviceAPIPath; serviceUIPath] /\
   CreateBasket (lib := Example.lib) (runtime := Example.runtime)
       (Example.serverConfig ModePublic) (Some "token")
     (Example.request "web" "" "") ∅
   = Some (http_Error (Response.ReservedName "web") StatusForbidden, ∅)).
Proof.
  split.
  - split; [reflexivity|].
    apply (C9_name_is_checked_at_creation (lib := Example.lib) (runtime := Example.runtime)
             (Example.serverConfig ModePublic) (Some "token"%string)
             (Example.request "no/slash" "" "") ∅).
    reflexivity.
  - assert (Hin : "web"%string ∈ [serviceOldAPIPath; serviceAPIPath; serviceUIPath])
      by (unfold serviceUIPath; set_solver).
    split; [exact Hin|].
    apply (C9_name_is_checked_at_creation (lib := Example.lib) (runtime := Example.runtime)
             (Example.serverConfig ModePublic) (Some "token"%string)
             (Example.request "web" "" "") ∅).
    exact Hin.
Defined.

(** ** C10: method names of the response endpoints *)

Lemma preserves_ret {A} (a : A) : preserves (ret a).
Proof. intros σ a' σ' Hrun. unfold ret in Hrun. by simplify_eq. Qed.

Lemma preserves_panic {A} : preserves (@panic A).
Proof. intros σ a σ' Hrun. discriminate. Qed.

Lemma preserves_lift {A} (o : option A) : preserves (lift o).
Proof. intros σ a σ' Hrun. unfold lift in Hrun. destruct o; by simplify_eq. Qed.

Lemma preserves_bind {A B} (c : M A) (k : A -> M B) :
  preserves c -> (forall a, preserves (k a)) -> preserves (bind c k).
Proof.
  intros Hc Hk σ b σ' Hrun Hinv. unfold bind in Hrun.
  destruct (c σ) as [[a σ1]|] eqn:E; [|discriminate].
  eapply Hk; [exact Hrun|]. eapply Hc; [exact E | exact Hinv].
Qed.

Lemma apply_responses item updates method :
  Forall update_ok updates ->
  is_Some (Responses (foldl base.apply item updates) !! method) ->
  is_Some (Responses item !! method) \/ method ∈ validMethods.
Proof.
  intros Hok. revert item.
  induction Hok as [|u updates Hu _ IH]; intros item; simpl; [by left|].
  intros Hsome. destruct (IH _ Hsome) as [Hitem|]; [|by right].
  destruct u; simpl in *; try by left.
  destruct (decide (method0 = method)) as [->|Hne]; [by right|].
  rewrite lookup_insert_ne in Hitem by done. by left.
Qed.

Lemma preserves_Update key updates :
  Forall update_ok updates -> preserves (base.Update key updates).
Proof.
  intros Hok σ a σ' Hrun Hinv. unfold base.Update, base.updated in Hrun.
  simplify_eq. destruct (σ !! key) as [item|] eqn:E; [|exact Hinv].
  intros name basket method Hget Hsome.
  destruct (decide (key = name)) as [->|Hne].
  - rewrite lookup_insert_eq in Hget. simplify_eq.
    destruct (apply_responses _ _ _ Hok Hsome); [|done].
    by eapply Hinv.
  - rewrite lookup_insert_ne in Hget by done. by eapply Hinv.
Qed.

Lemma preserves_Insert item :
  Responses item = ∅ -> preserves (base.Insert item).
Proof.
  intros Hempty σ a σ' Hrun Hinv. unfold base.Insert in Hrun.
  destruct (σ !! Key item) eqn:E; simplify_eq; [exact Hinv|].
  intros name basket method Hget Hsome.
  destruct (decide (Key item = name)) as [<-|Hne].
  - rewrite lookup_insert_eq in Hget. simplify_eq.
    rewrite Hempty, lookup_empty in Hsome. by destruct Hsome.
  - rewrite lookup_insert_ne in Hget by done. by eapply Hinv.
Qed.

Lemma preserves_Get key : preserves (base.Get key).
Proof. intros σ a σ' Hrun. unfold base.Get in Hrun. by simplify_eq. Qed.

Lemma preserves_Delete key : preserves (base.Delete key).
Proof.
  intros σ a σ' Hrun Hinv. unfold base.Delete in Hrun. simplify_eq.
  intros name basket method Hget Hsome.
  destruct (decide (key = name)) as [->|Hne].
  - by rewrite lookup_delete_eq in Hget.
  - rewrite lookup_delete_ne in Hget by done. by eapply Hinv.
Qed.

Create HintDb preserves.
#[local] Hint Resolve preserves_ret preserves_panic preserves_lift preserves_Get
  preserves_Delete : preserves.

Ltac preserves_step :=
  first
    [ apply preserves_bind; [|intros ?]
    | apply preserves_Update; repeat constructor
    | progress eauto with preserves ].

Lemma preserves_applyLimit basket : preserves (Basket.applyLimit basket).
Proof.
  unfold Basket.applyLimit. case_match; repeat preserves_step.
Qed.
#[local] Hint Resolve preserves_applyLimit : preserves.

Lemma preserves_Basket_Update config basket : preserves (Basket.Update config basket).
Proof. unfold Basket.Update. repeat preserves_step. Qed.

Lemma preserves_Add data basket : preserves (Basket.Add data basket).
Proof. unfold Basket.Add. repeat preserves_step. Qed.

Lemma preserves_Clear {runtime : GoRuntime} basket : preserves (Basket.Clear basket).
Proof. unfold Basket.Clear. case_match; repeat preserves_step. Qed.

Lemma preserves_SetResponse method response basket :
  method ∈ validMethods -> preserves (Basket.SetResponse method response basket).
Proof.
  intros Hm. unfold Basket.SetResponse.
  apply preserves_bind; [|intros ?; apply preserves_ret].
  apply preserves_Update. constructor; [exact Hm | constructor].
Qed.

Lemma preserves_Create {runtime : GoRuntime} generated name config :
  preserves (BasketsDatabase.Create generated name config).
Proof.
  unfold BasketsDatabase.Create. destruct generated; [|apply preserves_ret].
  case_match; [apply preserves_panic|].
  apply preserves_bind; [by apply preserves_Insert|].
  intros []; apply preserves_ret.
Qed.

Lemma preserves_getAuthorizedBasket r : preserves (getAuthorizedBasket r).
Proof.
  intros σ a σ' Hrun. rewrite getAuthorizedBasket_run in Hrun. by simplify_eq.
Qed.

#[local] Hint Resolve preserves_Basket_Update preserves_Add preserves_Clear
  preserves_Create preserves_getAuthorizedBasket : preserves.

Section Methods.

Context {lib : GoLib} {runtime : GoRuntime} {deta : DetaService}
  (serverConfig : ServerConfig).

Local Abbreviation serve := (serve serverConfig).
Local Abbreviation serve_all := (serve_all serverConfig).

Lemma getValidMethod_spec r :
  (getValidMethod r).1 = ToUpper (Request.method r) /\
  ((getValidMethod r).2 = None <-> ToUpper (Request.method r) ∈ validMethods).
Proof.
  unfold getValidMethod. case_bool_decide; simpl; split; try done.
Qed.

Lemma getValidMethod_unknown r :
  ToUpper (Request.method r) ∉ validMethods ->
  getValidMethod r
    = (ToUpper (Request.method r),
       Some (ErrUnknownMethod (ToUpper (Request.method r)))).
Proof. intros Hm. unfold getValidMethod. by rewrite bool_decide_eq_false_2. Qed.

Lemma refused_client_error r σ :
  400 <= Response.StatusCode (refused r σ) < 500.
Proof.
  unfold refused. repeat case_match; simpl;
    unfold StatusBadRequest, StatusNotFound; lia.
Qed.

Lemma GetBasketResponse_unknown_method r σ :
  ToUpper (Request.method r) ∉ validMethods ->
  GetBasketResponse r σ = Some (refused r σ, σ).
Proof.
  intros Hm. unfold GetBasketResponse, bind, refused.
  rewrite getAuthorizedBasket_run.
  destruct (validBasketName (Request.basket r)); [|reflexivity].
  destruct (σ !! Request.basket r); [|reflexivity].
  by rewrite (getValidMethod_unknown _ Hm).
Qed.

Lemma UpdateBasketResponse_unknown_method r σ :
  ToUpper (Request.method r) ∉ validMethods ->
  UpdateBasketResponse r σ = Some (refused r σ, σ).
Proof.
  intros Hm. unfold UpdateBasketResponse, bind, refused.
  rewrite getAuthorizedBasket_run.
  destruct (validBasketName (Request.basket r)); [|reflexivity].
  destruct (σ !! Request.basket r); [|reflexivity].
  by rewrite (getValidMethod_unknown _ Hm).
Qed.

Lemma preserves_UpdateBasketResponse r : preserves (UpdateBasketResponse r).
Proof.
  unfold UpdateBasketResponse.
  apply preserves_bind; [auto with preserves|]. intros [w|[name basket]];
    [apply preserves_ret|].
  unfold getValidMethod. case_bool_decide as Hm; [|apply preserves_ret].
  repeat case_match; try apply preserves_ret;
    (apply preserves_bind; [by apply preserves_SetResponse|]);
    intros ?; apply preserves_ret.
Qed.

Lemma preserves_CreateBasket generated r :
  preserves (CreateBasket serverConfig generated r).
Proof.
  unfold CreateBasket. cbv zeta.
  repeat case_match; try apply preserves_ret;
    (apply preserves_bind; [auto with preserves|]);
    intros []; apply preserves_ret.
Qed.

Lemma preserves_UpdateBasket r : preserves (UpdateBasket serverConfig r).
Proof.
  unfold UpdateBasket.
  apply preserves_bind; [auto with preserves|]. intros [w|[name basket]];
    [apply preserves_ret|].
  repeat case_match; try apply preserves_ret;
    (apply preserves_bind; [auto with preserves|]);
    intros ?; apply preserves_ret.
Qed.

Lemma preserves_DeleteBasket r : preserves (DeleteBasket r).
Proof.
  unfold DeleteBasket.
  apply preserves_bind; [auto with preserves|]. intros [w|[name basket]];
    [apply preserves_ret|].
  apply preserves_bind; [apply preserves_Delete|].
  intros ?. apply preserves_ret.
Qed.

Lemma preserves_ClearBasket r : preserves (ClearBasket r).
Proof.
  unfold ClearBasket.
  apply preserves_bind; [auto with preserves|]. intros [w|[name basket]];
    [apply preserves_ret|].
  apply preserves_bind; [auto with preserves|].
  intros ?. apply preserves_ret.
Qed.

Lemma preserves_Accept name data : preserves (AcceptBasketRequests_store name data).
Proof.
  unfold AcceptBasketRequests_store.
  apply preserves_bind; [apply preserves_Get|]. intros [basket|];
    [|apply preserves_ret].
  apply preserves_bind; [auto with preserves|].
  intros ?. apply preserves_ret.
Qed.

Lemma preserves_serve c : preserves (serve c).
Proof.
  destruct c; simpl;
    try (apply preserves_bind; [|intros ?; apply preserves_ret]).
  - apply preserves_CreateBasket.
  - apply preserves_UpdateBasket.
  - apply preserves_DeleteBasket.
  - apply preserves_UpdateBasketResponse.
  - apply preserves_ClearBasket.
  - apply preserves_Accept.
Qed.

Lemma preserves_serve_all cs : preserves (serve_all cs).
Proof.
  induction cs as [|c cs IH]; simpl; [apply preserves_ret|].
  apply preserves_bind; [apply preserves_serve | intros ?; exact IH].
Qed.

Lemma methods_valid_empty : methods_valid ∅.
Proof. intros name basket method Hget. by rewrite lookup_empty in Hget. Qed.

End Methods.

(** C10.  [getValidMethod] upper-cases the method name of the path and
    accepts it exactly when the result is one of GET, HEAD, POST, PUT,
    PATCH, DELETE, CONNECT, OPTIONS, TRACE.  For any other name both
    response endpoints answer with a client error (400, or 404 when
    there is no such basket) and leave the collection as it was.  Hence,
    after any sequence of calls of the API on an empty collection, every
    response of every basket is stored under one of the nine names. *)
Theorem C10_response_methods_are_validated {lib : GoLib} {runtime : GoRuntime}
    (serverConfig : ServerConfig) :
  (forall r,
     (getValidMethod r).1 = ToUpper (Request.method r) /\
     ((getValidMethod r).2 = None <->
      ToUpper (Request.method r) ∈
        ["GET"; "HEAD"; "POST"; "PUT"; "PATCH"; "DELETE"; "CONNECT"; "OPTIONS";
         "TRACE"]%string)) /\
  (forall r σ,
     ToUpper (Request.method r) ∉ validMethods ->
     exists w,
       GetBasketResponse r σ = Some (w, σ) /\
       UpdateBasketResponse r σ = Some (w, σ) /\
       400 <= Response.StatusCode w < 500) /\
  (forall cs σ,
     serve_all serverConfig cs ∅ = Some (tt, σ) -> methods_valid σ).
Proof.
  split; [apply getValidMethod_spec|]. split.
  - intros r σ Hm. exists (refused r σ).
    split; [by apply GetBasketResponse_unknown_method|].
    split; [by apply UpdateBasketResponse_unknown_method|].
    apply refused_client_error.
  - intros cs σ Hrun.
    eapply preserves_serve_all; [exact Hrun | apply methods_valid_empty].
Qed.

(** The method name [brew]. *)
Lemma C10_witness :
  (ToUpper (GoLib := Example.lib) "brew" ∉ validMethods) /\
  exists w,
    GetBasketResponse (lib := Example.lib) (Example.request "basket1" "brew" "") store1
      = Some (w, store1) /\
    UpdateBasketResponse (lib := Example.lib) (Example.request "basket1" "brew" "200") store1
      = Some (w, store1) /\
    Response.StatusCode w = StatusBadRequest.
Proof.
  assert (Hm : ToUpper (GoLib := Example.lib) "brew" ∉ validMethods).
  { apply (bool_decide_unpack _). vm_compute. exact I. }
  split; [exact Hm|].
  destruct (C10_response_methods_are_validated (lib := Example.lib) (runtime := Example.runtime)
              (Example.serverConfig ModePublic)) as (_ & Hrefuse & _).
  destruct (Hrefuse (Example.request "basket1" "brew" "") store1 Hm)
    as (w & Hget & _ & _).
  exists w. split; [exact Hget|].
  vm_compute in Hget. injection Hget as <-. split; reflexivity.
Defined.

(** A response set for [post] is stored under [POST]. *)
Example UpdateBasketResponse_post :
  UpdateBasketResponse (lib := Example.lib)
    (Example.request "basket1" "post" "201") store1
  = Some (WriteHeader StatusNoContent,
          {[ "basket1"%string :=
               mkBasket "basket1" "token" (plainConfig 200) [] 0
                 {[ "POST"%string := mkResponseConfig 201 [] "" false ]} ]}).
Proof. vm_compute. reflexivity. Qed.

(** ** C2: authorization of restricted end-points *)

(** [authorizeRequest] accepts every request, whatever the mode of the
    server, the master token and the token presented. *)
Lemma authorizeRequest_always r publicAPI config :
  authorizeRequest r publicAPI config = true.
Proof. reflexivity. Qed.

(** [CreateBasket] does not read the mode, the master token or the
    [Authorization] header. *)
Lemma CreateBasket_ignores_token {lib : GoLib} {runtime : GoRuntime}
    serverConfig serverConfig' generated r r' σ :
  InitCapacity serverConfig' = InitCapacity serverConfig ->
  MaxCapacity serverConfig' = MaxCapacity serverConfig ->
  Request.basket r' = Request.basket r ->
  Request.Body r' = Request.Body r ->
  CreateBasket serverConfig' generated r' σ = CreateBasket serverConfig generated r σ.
Proof.
  intros Hinit Hmax Hname Hbody.
  unfold CreateBasket, validateBasketConfig.
  by rewrite Hinit, Hmax, Hname, Hbody.
Qed.

(** C2 on the code.  The server runs in restricted mode with the master
    token [master-token]; a request to create the basket [basket1]
    carries no [Authorization] header and an empty body.  The
    specification has it answered 401 and no basket created; the
    handler answers 201 with a token and the basket is in the
    collection. *)
Theorem C2_restricted_mode_creates_without_token :
  Mode (Example.serverConfig ModeRestricted) = ModeRestricted /\
  Request.Authorization (Example.request "basket1" "" "")
    <> MasterToken (Example.serverConfig ModeRestricted) /\
  CreateBasket (lib := Example.lib) (runtime := Example.runtime)
    (Example.serverConfig ModeRestricted)
    (Some "token") (Example.request "basket1" "" "") ∅
  = Some (writeJSON StatusCreated (Response.Auth (BasketAuth.mk "token")),
          {[ "basket1"%string :=
               BasketsDatabase.basketData "basket1" "token" (plainConfig 200) ]}).
Proof.
  split; [reflexivity|]. split; [discriminate|]. vm_compute. reflexivity.
Qed.

(** ** C5: [FindNames] *)

(** Whatever the collection holds, [FindNames] returns no name and says
    that there are none left. *)
Lemma FindNames_finds_nothing {runtime : GoRuntime} query max skip db σ :
  makeslice GoInt.string_size max = true ->
  BasketsDatabase.FindNames query max skip db σ
    = Some (BasketNamesQueryPage.mk [] false, σ).
Proof.
  intros Hmake. unfold BasketsDatabase.FindNames. by rewrite Hmake.
Qed.

(** C5 on the code.  The collection holds the basket [basket1], whose
    name contains [ask]; the listing of all names shows it, but
    [FindNames("ask", 10, 0)] returns no name. *)
Theorem C5_FindNames_misses_matching_name :
  strings.Contains "basket1" "ask" = true /\
  fst <$> BasketsDatabase.GetAllNames (deta := Example.deta) store1
    = Some ["basket1"%string] /\
  fst <$> BasketsDatabase.FindNames (runtime := Example.runtime) "ask" 10 0
            (mkDatabase ["basket1"%string]) store1
    = Some (BasketNamesQueryPage.mk [] false).
Proof.
  split; [reflexivity|]. split; [vm_compute; reflexivity|]. reflexivity.
Qed.

(** ** The item stored by [Add] *)

Lemma Add_run data basket σ :
  0 <= Capacity (BConfig basket) ->
  Basket.Add data basket σ =
    Some ((data,
           limited (with_TotalCount (GoInt.add (TotalCount basket) 1)
                      (with_Requests (data :: Requests basket) basket))),
          base.updated (Key basket)
            [base.PrependRequest data; base.IncrementTotalCount 1]
            (limited_store
               (with_TotalCount (GoInt.add (TotalCount basket) 1)
                  (with_Requests (data :: Requests basket) basket)) σ)).
Proof.
  intros Hcap. unfold Basket.Add, bind. cbv zeta.
  rewrite applyLimit_spec by exact Hcap. reflexivity.
Qed.



(** ** Page requests of the handlers *)

Section Pages.

Context {lib : GoLib} {runtime : GoRuntime} {deta : DetaService}
  (serverConfig : ServerConfig).
Hypothesis HPageSize : 1 <= PageSize serverConfig.
Hypothesis HMaxCapacity : 0 <= MaxCapacity serverConfig.
Hypothesis Hrange :
  PageSize serverConfig * 10 + MaxCapacity serverConfig <= GoInt.max_int.

Lemma parseInt_range value min max defaultValue :
  min <= max -> min <= defaultValue <= max ->
  min <= parseInt value min max defaultValue <= max.
Proof.
  intros Hmm Hdef. unfold parseInt.
  repeat case_match; lia.
Qed.

(** [getPage] yields a page request in the range for which
    [GetRequests] and [FindRequests] are specified. *)
Lemma getPage_range r :
  1 <= (getPage serverConfig r).1 <= PageSize serverConfig * 10 /\
  0 <= (getPage serverConfig r).2 <= MaxCapacity serverConfig.
Proof.
  unfold getPage. simpl.
  rewrite wrap_id by (unfold GoInt.min_int, GoInt.max_int in *; lia).
  split; apply parseInt_range; lia.
Qed.

Lemma GetRequests_returns max skip basket :
  0 <= max -> 0 <= skip -> skip + max <= GoInt.max_int ->
  is_Some (Basket.GetRequests max skip basket).
Proof.
  intros Hmax Hskip Hsum. unfold Basket.GetRequests, GoInt.add. cbv zeta.
  rewrite wrap_id by (unfold GoInt.min_int, GoInt.max_int in *; lia).
  pose proof (len_nonneg (Requests basket)).
  unfold Basket.Size. repeat case_match; try done.
  - rewrite slice_Some in * by lia. done.
  - rewrite slice_Some in * by lia. done.
Qed.

(** The runtime allocates the result of a search of up to
    [10 * PageSize] requests. *)
Hypothesis Hmake :
  forall max, 1 <= max <= PageSize serverConfig * 10 ->
              makeslice GoInt.ptr_size max = true.

(** With such a configuration, and a runtime that allocates the result
    of a search, [GetBasketRequests] answers every request: no page it
    asks for makes the basket panic. *)
Lemma GetBasketRequests_returns r σ :
  is_Some (GetBasketRequests serverConfig r σ).
Proof.
  destruct (getPage_range r) as [Hmax Hskip].
  unfold GetBasketRequests, bind. rewrite getAuthorizedBasket_run.
  destruct (validBasketName (Request.basket r)); [|by eexists].
  destruct (σ !! Request.basket r) as [basket|]; [|by eexists].
  destruct (getPage serverConfig r) as [max skip]. simpl in *.
  destruct (0 <? len_string (Request.q r)); unfold lift.
  - unfold Basket.FindRequests. rewrite Hmake by exact Hmax. by eexists.
  - destruct (GetRequests_returns max skip basket) as [page ->]; [lia..|].
    by eexists.
Qed.

End Pages.

(** ** The basket a test starts from, and the capacity of a basket *)

(** [Create] followed by [Get] hands out the basket that [C1] starts
    from. *)
Lemma Create_run {runtime : GoRuntime} token name config σ :
  makeslice GoInt.ptr_size (Capacity config) = true ->
  BasketsDatabase.Create (Some token) name config σ =
    match σ !! name with
    | Some _ => Some (Err (ErrBasketExists name), σ)
    | None =>
        Some (Ok (BasketAuth.mk token),
              <[name := BasketsDatabase.basketData name token config]> σ)
    end.
Proof.
  intros Hmake. unfold BasketsDatabase.Create. rewrite Hmake. cbn [negb].
  unfold bind, base.Insert, ret. simpl. by destruct (σ !! name).
Qed.

Lemma Create_then_Get {runtime : GoRuntime} token name config :
  makeslice GoInt.ptr_size (Capacity config) = true ->
  (created <- BasketsDatabase.Create (Some token) name config ;;
   BasketsDatabase.Get name) ∅
  = Some (Some (BasketsDatabase.basketData name token config),
          {[ name := BasketsDatabase.basketData name token config ]}).
Proof.
  intros Hmake. unfold bind. rewrite Create_run by exact Hmake.
  rewrite lookup_empty, insert_empty.
  unfold BasketsDatabase.Get, base.Get. by rewrite lookup_singleton_eq.
Qed.

(** The capacity of a basket is set by [Create] and by [Update] only,
    and neither returns for a negative capacity: the baskets the code
    hands out have a capacity that is not negative. *)
Lemma Create_capacity {runtime : GoRuntime} generated name config σ auth σ' :
  BasketsDatabase.Create generated name config σ = Some (Ok auth, σ') ->
  0 <= Capacity config.
Proof.
  unfold BasketsDatabase.Create. destruct generated; [|discriminate].
  destruct (makeslice GoInt.ptr_size (Capacity config)) eqn:E; [|discriminate].
  intros _. by eapply makeslice_nonneg.
Qed.

Lemma Update_capacity config basket σ basket' σ' :
  Basket.Update config basket σ = Some (basket', σ') ->
  0 <= Capacity config /\ BConfig basket' = config.
Proof.
  intros Hrun. destruct (Z.lt_ge_cases (Capacity config) 0) as [Hneg|Hcap].
  - unfold Basket.Update, bind in Hrun. cbv zeta in Hrun.
    rewrite applyLimit_panics in Hrun by exact Hneg. discriminate.
  - rewrite Update_spec in Hrun by exact Hcap. by simplify_eq.
Qed.

(** * Further properties of the code *)

(** ** The registry: [Create], [Get], [Delete] *)

(** A basket created under a free name, with a capacity the runtime
    allocates, is handed out by [Get] with the token [Create] returned,
    which is the only token it authorizes, the configuration it was
    created with, no request, a total of 0 and no response; the other
    items of the collection are untouched. *)
Theorem Create_Get_round_trip {runtime : GoRuntime} token name config σ :
  σ !! name = None ->
  makeslice GoInt.ptr_size (Capacity config) = true ->
  exists σ' basket,
    BasketsDatabase.Create (Some token) name config σ
      = Some (Ok (BasketAuth.mk token), σ') /\
    BasketsDatabase.Get name σ' = Some (Some basket, σ') /\
    (forall presented, Basket.Authorize presented basket = true <-> presented = token) /\
    Basket.Config basket = config /\
    Basket.Size basket = 0 /\
    TotalCount basket = 0 /\
    (forall method, Basket.GetResponse method basket = None) /\
    (forall other, other <> name -> σ' !! other = σ !! other).
Proof.
  intros Hfree Hcap.
  exists (<[name := BasketsDatabase.basketData name token config]> σ),
         (BasketsDatabase.basketData name token config).
  split.
  { rewrite Create_run by exact Hcap. by rewrite Hfree. }
  split.
  { unfold BasketsDatabase.Get, base.Get. by rewrite lookup_insert_eq. }
  split.
  { intros presented. unfold Basket.Authorize. simpl. apply String.eqb_eq. }
  split; [reflexivity|]. split; [reflexivity|]. split; [reflexivity|].
  split.
  - intros method. unfold Basket.GetResponse. simpl. apply lookup_empty.
  - intros other Hne. by rewrite lookup_insert_ne.
Qed.

(** A basket named [test3] with capacity 16, as in the tests. *)
Lemma Create_Get_round_trip_witness :
  (∅ : Base) !! "test3"%string = None /\
  makeslice (GoRuntime := Example.runtime) GoInt.ptr_size (Capacity (plainConfig 16))
    = true /\
  exists σ' basket,
    BasketsDatabase.Create (runtime := Example.runtime)
      (Some "token") "test3" (plainConfig 16) ∅
      = Some (Ok (BasketAuth.mk "token"), σ') /\
    BasketsDatabase.Get "test3" σ' = Some (Some basket, σ') /\
    Basket.Authorize "token" basket = true /\
    Capacity (Basket.Config basket) = 16.
Proof.
  split; [reflexivity|]. split; [reflexivity|].
  destruct (Create_Get_round_trip (runtime := Example.runtime)
              "token" "test3" (plainConfig 16) ∅)
    as (σ' & basket & Hcreate & Hget & Hauth & Hconfig & _).
  - reflexivity.
  - reflexivity.
  - exists σ', basket. split; [exact Hcreate|]. split; [exact Hget|].
    split; [by apply Hauth|]. by rewrite Hconfig.
Defined.

Lemma CreateBasket_run_Create {lib : GoLib} {runtime : GoRuntime}
    serverConfig generated r σ :
  name_free_to_create (Request.basket r) ->
  ReadAll_LimitReader (Request.Body r) 2048 = Some ""%string ->
  CreateBasket serverConfig generated r σ =
    (created <- BasketsDatabase.Create generated (Request.basket r)
                  (defaultConfig serverConfig) ;;
     match created with
     | Err err => ret (http_Error (Response.Message err) StatusConflict)
     | Ok auth => ret (writeJSON StatusCreated (Response.Auth auth))
     end) σ.
Proof.
  intros (Hn1 & Hn2 & Hn3 & Hvalid) Hbody.
  unfold CreateBasket. simpl.
  apply String.eqb_neq in Hn1, Hn2, Hn3. rewrite Hn1, Hn2, Hn3, Hvalid. simpl.
  by rewrite Hbody.
Qed.

(** A name that is taken: [Create], where the runtime allocates the
    capacity it is given, returns an error, and [CreateBasket] never
    answers 201; the collection, and with it the token and the contents
    of the basket that holds the name, stay as they were.  For a request
    with an empty body, where the runtime allocates the initial capacity
    of the server, the answer is 409 (conflict). *)
Theorem Create_taken_name_changes_nothing {lib : GoLib} {runtime : GoRuntime}
    (serverConfig : ServerConfig) name existing σ :
  σ !! name = Some existing ->
  (forall generated config,
     makeslice GoInt.ptr_size (Capacity config) = true ->
     exists err,
       BasketsDatabase.Create generated name config σ = Some (Err err, σ)) /\
  (forall generated r w σ',
     Request.basket r = name ->
     CreateBasket serverConfig generated r σ = Some (w, σ') ->
     σ' = σ /\ Response.StatusCode w <> StatusCreated) /\
  (forall token r,
     Request.basket r = name ->
     name_free_to_create name ->
     ReadAll_LimitReader (Request.Body r) 2048 = Some ""%string ->
     makeslice GoInt.ptr_size (InitCapacity serverConfig) = true ->
     CreateBasket serverConfig (Some token) r σ
       = Some (http_Error (Response.Message (ErrBasketExists name)) StatusConflict, σ)).
Proof.
  intros Htaken. split; [|split].
  - intros generated config Hcap.
    destruct generated as [token|]; [|by eexists].
    rewrite Create_run by exact Hcap. rewrite Htaken. by eexists.
  - intros generated r w σ' Hname Hrun. subst name.
    unfold CreateBasket, bind, ret, BasketsDatabase.Create, base.Insert, bind, ret,
      panic in Hrun.
    repeat (case_match; simplify_eq/=); done.
  - intros token r Hname Hfree Hbody Hinit.
    rewrite CreateBasket_run_Create by (by rewrite ?Hname).
    unfold bind. rewrite Create_run by exact Hinit. by rewrite Hname, Htaken.
Qed.

(** A second [Create] of [test2], as in the tests. *)
Lemma Create_taken_name_witness :
  store1 !! "basket1"%string
    = Some (BasketsDatabase.basketData "basket1" "token" (plainConfig 200)) /\
  BasketsDatabase.Create (runtime := Example.runtime)
    (Some "other") "basket1" (plainConfig 20) store1
    = Some (Err (ErrBasketExists "basket1"), store1) /\
  CreateBasket (lib := Example.lib) (runtime := Example.runtime)
    (Example.serverConfig ModePublic) (Some "other")
    (Example.request "basket1" "" "") store1
  = Some (http_Error (Response.Message (ErrBasketExists "basket1")) StatusConflict,
          store1).
Proof.
  assert (Htaken : store1 !! "basket1"%string
            = Some (BasketsDatabase.basketData "basket1" "token" (plainConfig 200)))
    by reflexivity.
  split; [exact Htaken|].
  destruct (Create_taken_name_changes_nothing (lib := Example.lib)
              (runtime := Example.runtime)
              (Example.serverConfig ModePublic) "basket1" _ store1 Htaken)
    as (Hcreate & _ & Hconflict).
  split.
  - destruct (Hcreate (Some "other"%string) (plainConfig 20)) as [err Herr];
      [reflexivity|].
    rewrite Herr. vm_compute in Herr. by simplify_eq.
  - apply Hconflict; try reflexivity.
    repeat split; discriminate.
Defined.

(** After [Delete], [Get] finds no basket under the name; the other
    items are untouched, and deleting a name that is absent changes
    nothing. *)
Theorem Delete_then_Get name σ :
  exists σ',
    BasketsDatabase.Delete name σ = Some (tt, σ') /\
    BasketsDatabase.Get name σ' = Some (None, σ') /\
    (forall other, other <> name -> σ' !! other = σ !! other) /\
    (σ !! name = None -> σ' = σ) /\
    BasketsDatabase.Delete name σ' = Some (tt, σ').
Proof.
  exists (delete name σ). split; [reflexivity|].
  split. { unfold BasketsDatabase.Get, base.Get. by rewrite lookup_delete_eq. }
  split. { intros other Hne. by rewrite lookup_delete_ne. }
  split. { intros Hnone. by apply delete_id. }
  unfold BasketsDatabase.Delete, base.Delete. by rewrite delete_delete_eq.
Qed.

(** ** Responses of a basket: [SetResponse], [GetResponse] *)

(** [SetResponse] returns; afterwards [GetResponse] gives the response
    for the method it was set for, and what it gave before for every
    other method; requests, counter, configuration and token are as
    before, and an item stored for the basket is updated alike. *)
Theorem SetResponse_GetResponse method response basket σ :
  exists basket' σ',
    Basket.SetResponse method response basket σ = Some (basket', σ') /\
    Basket.GetResponse method basket' = Some response /\
    (forall other, other <> method ->
       Basket.GetResponse other basket' = Basket.GetResponse other basket) /\
    Requests basket' = Requests basket /\
    TotalCount basket' = TotalCount basket /\
    BConfig basket' = BConfig basket /\
    Token basket' = Token basket /\
    (stored basket σ -> stored basket' σ').
Proof.
  eexists _, _. split; [reflexivity|]. unfold Basket.GetResponse. simpl.
  split; [apply lookup_insert_eq|].
  split; [intros other Hne; by apply lookup_insert_ne|].
  do 4 (split; [reflexivity|]).
  unfold stored. simpl. intros Hst. by rewrite updated_stored.
Qed.

(** ** The methods of a basket and the other items *)

Lemma touches_only_ret {A} key (a : A) : touches_only key (ret a).
Proof. intros σ a' σ' Hrun. unfold ret in Hrun. by simplify_eq. Qed.

Lemma touches_only_panic {A} key : touches_only key (@panic A).
Proof. intros σ a σ' Hrun. discriminate. Qed.

Lemma touches_only_lift {A} key (o : option A) : touches_only key (lift o).
Proof. intros σ a σ' Hrun. unfold lift in Hrun. destruct o; by simplify_eq. Qed.

Lemma touches_only_bind {A B} key (c : M A) (k : A -> M B) :
  touches_only key c -> (forall a, touches_only key (k a)) ->
  touches_only key (bind c k).
Proof.
  intros Hc Hk σ b σ' Hrun. unfold bind in Hrun.
  destruct (c σ) as [[a σ1]|] eqn:E; [|discriminate].
  destruct (Hc _ _ _ E) as [Hdom1 Hother1].
  destruct (Hk a _ _ _ Hrun) as [Hdom2 Hother2].
  split; [congruence|]. intros other Hne.
  rewrite Hother2, Hother1; done.
Qed.

Lemma touches_only_Update key updates : touches_only key (base.Update key updates).
Proof.
  intros σ a σ' Hrun. unfold base.Update in Hrun. simplify_eq.
  split; [|intros other Hne; by apply updated_other].
  unfold base.updated. destruct (σ !! key) as [item|] eqn:E; [|done].
  apply dom_insert_lookup_L. by rewrite E.
Qed.

Lemma touches_only_applyLimit basket :
  touches_only (Key basket) (Basket.applyLimit basket).
Proof.
  unfold Basket.applyLimit. case_match; [|apply touches_only_ret].
  apply touches_only_bind; [apply touches_only_lift|]. intros rs.
  apply touches_only_bind; [apply touches_only_Update|].
  intros ?. apply touches_only_ret.
Qed.

Lemma applyLimit_Key basket σ basket' σ' :
  Basket.applyLimit basket σ = Some (basket', σ') -> Key basket' = Key basket.
Proof.
  unfold Basket.applyLimit, bind, lift, ret, base.Update.
  intros Hrun. repeat (case_match; simplify_eq/=); done.
Qed.

(** [Update], [SetResponse], [Add] and [Clear] (and [applyLimit]) write
    to the item under the key of the basket only: every item under
    another key is as before, and no item is added to or removed from
    the collection (an update for a key that is absent is dropped). *)
Theorem basket_methods_touch_own_item_only {runtime : GoRuntime} basket :
  touches_only (Key basket) (Basket.applyLimit basket) /\
  (forall config, touches_only (Key basket) (Basket.Update config basket)) /\
  (forall method response,
     touches_only (Key basket) (Basket.SetResponse method response basket)) /\
  (forall data, touches_only (Key basket) (Basket.Add data basket)) /\
  touches_only (Key basket) (Basket.Clear basket).
Proof.
  split; [apply touches_only_applyLimit|]. split; [|split; [|split]].
  - intros config σ b σ' Hrun. unfold Basket.Update, bind in Hrun.
    cbv zeta in Hrun.
    destruct (Basket.applyLimit (with_BConfig config basket) σ)
      as [[b1 σ1]|] eqn:E; [|discriminate].
    pose proof (applyLimit_Key _ _ _ _ E) as Hkey. simpl in Hkey.
    destruct (touches_only_applyLimit _ _ _ _ E) as [Hdom1 Hother1].
    rewrite Hkey in Hrun.
    destruct (base.Update (Key basket) [base.SetConfig config] σ1)
      as [[[] σ2]|] eqn:E2; [|discriminate].
    destruct (touches_only_Update _ _ _ _ _ E2) as [Hdom2 Hother2].
    unfold ret in Hrun. simplify_eq. split; [congruence|].
    intros other Hne. rewrite Hother2, Hother1; done.
  - intros method response. unfold Basket.SetResponse.
    apply touches_only_bind; [apply touches_only_Update|].
    intros ?. apply touches_only_ret.
  - intros data σ b σ' Hrun. unfold Basket.Add, bind in Hrun.
    cbv zeta in Hrun.
    match type of Hrun with
    | context [Basket.applyLimit ?b0 σ] =>
        destruct (Basket.applyLimit b0 σ) as [[b1 σ1]|] eqn:E; [|discriminate]
    end.
    pose proof (applyLimit_Key _ _ _ _ E) as Hkey. simpl in Hkey.
    destruct (touches_only_applyLimit _ _ _ _ E) as [Hdom1 Hother1].
    rewrite Hkey in Hrun.
    match type of Hrun with
    | context [base.Update ?key ?ups σ1] =>
        destruct (base.Update key ups σ1) as [[[] σ2]|] eqn:E2; [|discriminate]
    end.
    destruct (touches_only_Update _ _ _ _ _ E2) as [Hdom2 Hother2].
    unfold ret in Hrun. simplify_eq. split; [congruence|].
    intros other Hne. rewrite Hother2, Hother1; done.
  - unfold Basket.Clear. case_match; [apply touches_only_panic|].
    apply touches_only_bind; [apply touches_only_Update|].
    intros ?. apply touches_only_ret.
Qed.

(** ** The stored item under [Add] and under a series of captures *)



Lemma len_stored_after_Add capacity data rs :
  0 <= capacity ->
  GoInt.len (stored_after_Add capacity data rs)
    = Z.min (GoInt.len rs + 1) (capacity + 1).
Proof.
  intros Hcap. unfold stored_after_Add.
  destruct (Z.ltb_spec (GoInt.len rs) capacity).
  - rewrite len_cons. lia.
  - rewrite len_cons, len_take, len_cons by lia. lia.
Qed.

(** The item [Add] leaves in the collection for a basket that was
    stored. *)
Lemma Add_stored_item data basket σ :
  stored basket σ ->
  0 <= Capacity (BConfig basket) ->
  exists basket' σ',
    Basket.Add data basket σ = Some ((data, basket'), σ') /\
    σ' !! Key basket =
      Some (with_TotalCount (GoInt.add (TotalCount basket) 1)
              (with_Requests
                 (stored_after_Add (Capacity (BConfig basket)) data (Requests basket))
                 basket)) /\
    forall other, other <> Key basket -> σ' !! other = σ !! other.
Proof.
  intros Hst Hcap. rewrite Add_run by exact Hcap.
  eexists _, _. split; [reflexivity|]. split.
  - unfold limited_store, limited, stored_after_Add, stored in *. simpl.
    rewrite len_cons.
    destruct (Z.ltb_spec (Capacity (BConfig basket)) (GoInt.len (Requests basket) + 1));
      destruct (Z.ltb_spec (GoInt.len (Requests basket)) (Capacity (BConfig basket)));
      try lia.
    + unfold base.updated at 1.
      rewrite (updated_stored basket _ σ Hst). simpl.
      by rewrite lookup_insert_eq.
    + unfold base.updated. rewrite Hst. simpl. by rewrite lookup_insert_eq.
  - intros other Hne. rewrite updated_other by done.
    unfold limited_store. case_match; [|done]. simpl. by rewrite updated_other.
Qed.

Lemma AcceptBasketRequests_store_item name data item σ :
  σ !! name = Some item ->
  Key item = name ->
  0 <= Capacity (BConfig item) ->
  exists σ',
    AcceptBasketRequests_store name data σ = Some (tt, σ') /\
    σ' !! name =
      Some (with_TotalCount (GoInt.add (TotalCount item) 1)
              (with_Requests
                 (stored_after_Add (Capacity (BConfig item)) data (Requests item))
                 item)).
Proof.
  intros Hget Hkey Hcap.
  assert (Hst : stored item σ) by (unfold stored; by rewrite Hkey).
  destruct (Add_stored_item data item σ Hst Hcap) as (basket' & σ' & Hadd & Hitem & _).
  exists σ'. split; [|by rewrite <- Hkey].
  unfold AcceptBasketRequests_store, bind, BasketsDatabase.Get, base.Get.
  by rewrite Hget, Hadd.
Qed.

Lemma capture_all_item ds : forall name item σ,
  σ !! name = Some item ->
  Key item = name ->
  0 <= Capacity (BConfig item) ->
  0 <= TotalCount item ->
  TotalCount item + GoInt.len ds <= GoInt.max_int ->
  exists σ' item',
    capture_all name ds σ = Some (tt, σ') /\
    σ' !! name = Some item' /\
    GoInt.len (Requests item') =
      (if decide (ds = []) then GoInt.len (Requests item)
       else Z.min (GoInt.len (Requests item) + GoInt.len ds)
              (Capacity (BConfig item) + 1)) /\
    TotalCount item' = TotalCount item + GoInt.len ds /\
    BConfig item' = BConfig item /\
    (ds <> [] -> head (Requests item') = last ds).
Proof.
  induction ds as [|data ds IH]; intros name item σ Hget Hkey Hcap Htot Hmax.
  - exists σ, item. rewrite decide_True by done.
    change (GoInt.len (@nil RequestData.t)) with 0.
    split; [reflexivity|]. split; [exact Hget|]. split; [reflexivity|].
    split; [lia|]. split; [reflexivity|]. intros Hne. by destruct Hne.
  - rewrite len_cons in Hmax. pose proof (len_nonneg ds) as Hds.
    destruct (AcceptBasketRequests_store_item name data item σ Hget Hkey Hcap)
      as (σ1 & Hrun1 & Hitem1).
    assert (Hwrap : GoInt.add (TotalCount item) 1 = TotalCount item + 1).
    { apply wrap_id. unfold GoInt.min_int, GoInt.max_int in *. lia. }
    rewrite Hwrap in Hitem1.
    destruct (IH name _ σ1 Hitem1) as (σ' & item' & Hrun & Hitem' & Hlen & Htc & Hcfg & Hhead);
      simpl; try done; try lia.
    exists σ', item'. simpl in *. unfold bind. rewrite Hrun1.
    split; [exact Hrun|]. split; [exact Hitem'|].
    rewrite len_stored_after_Add in Hlen by exact Hcap.
    rewrite Htc, len_cons.
    pose proof (len_nonneg (Requests item)) as HR.
    split; [|split; [lia|split; [exact Hcfg|]]].
    + rewrite Hlen. destruct (decide (ds = [])) as [->|Hne].
      * unfold GoInt.len at 3. simpl. lia.
      * lia.
    + intros _. destruct (decide (ds = [])) as [->|Hne].
      * simpl in Hrun. unfold ret in Hrun. simplify_eq. simpl.
        unfold stored_after_Add. by case_match.
      * rewrite (Hhead Hne). by destruct ds.
Qed.

(** The API captures each request with a basket freshly read from the
    collection.  After [N >= 1] captures into a basket created with
    capacity [C], the stored item holds [min N (C+1)] requests, the
    latest in front, and a total of [N]: once [N] exceeds [C] the item
    holds one request more than the capacity. *)
Theorem captures_store_up_to_capacity_plus_one name token config ds :
  0 <= Capacity config ->
  ds <> [] ->
  GoInt.len ds <= GoInt.max_int ->
  exists σ' item,
    capture_all name ds {[ name := BasketsDatabase.basketData name token config ]}
      = Some (tt, σ') /\
    σ' !! name = Some item /\
    GoInt.len (Requests item) = Z.min (GoInt.len ds) (Capacity config + 1) /\
    head (Requests item) = last ds /\
    TotalCount item = GoInt.len ds /\
    BConfig item = config.
Proof.
  intros Hcap Hne Hlen.
  destruct (capture_all_item ds name (BasketsDatabase.basketData name token config)
              {[ name := BasketsDatabase.basketData name token config ]})
    as (σ' & item & Hrun & Hitem & Hl & Htc & Hcfg & Hhead);
    simpl; try done; try lia.
  { apply lookup_singleton_eq. }
  exists σ', item. rewrite decide_False in Hl by exact Hne.
  unfold GoInt.len at 2 in Hl. simpl in Hl, Htc.
  repeat split; try done; try lia. by apply Hhead.
Qed.

(** Three captures into a basket of capacity 2: the item holds three
    requests, the latest twice. *)
Lemma captures_witness :
  exists σ' item,
    capture_all "test102" [snapshot "req1"; snapshot "req2"; snapshot "req3"]
      {[ "test102"%string := BasketsDatabase.basketData "test102" "token" (plainConfig 2) ]}
      = Some (tt, σ') /\
    σ' !! "test102"%string = Some item /\
    Requests item = [snapshot "req3"; snapshot "req3"; snapshot "req2"] /\
    TotalCount item = 3.
Proof.
  destruct (captures_store_up_to_capacity_plus_one "test102" "token" (plainConfig 2)
              [snapshot "req1"; snapshot "req2"; snapshot "req3"])
    as (σ' & item & Hrun & Hitem & _).
  - simpl; lia.
  - discriminate.
  - vm_compute; discriminate.
  - exists σ', item. split; [exact Hrun|]. split; [exact Hitem|].
    vm_compute in Hrun. simplify_eq.
    vm_compute in Hitem. simplify_eq. split; reflexivity.
Defined.

(** ** A server that does not panic *)

Section Safe.

Context {runtime : GoRuntime}.

Lemma safe_ret {A} (a : A) : safe (ret a).
Proof. intros σ Hσ. by exists a, σ. Qed.

Lemma safe_bind {A B} (c : M A) (k : A -> M B) :
  safe c -> (forall a, safe (k a)) -> safe (bind c k).
Proof.
  intros Hc Hk σ Hσ. destruct (Hc σ Hσ) as (a & σ1 & Hrun & Hσ1).
  unfold bind. rewrite Hrun. by apply Hk.
Qed.

Lemma apply_kept updates : forall item,
  Forall capacity_ok updates ->
  makeslice GoInt.ptr_size (Capacity (BConfig item)) = true ->
  Key (foldl base.apply item updates) = Key item /\
  makeslice GoInt.ptr_size (Capacity (BConfig (foldl base.apply item updates))) = true.
Proof.
  induction updates as [|u updates IH]; intros item Hok Hcap; [done|].
  inversion Hok as [|? ? Hu Hrest]; subst. simpl.
  destruct (IH (base.apply item u) Hrest) as [Hkey Hcap'].
  - destruct u; simpl in *; done.
  - split; [|exact Hcap']. rewrite Hkey. by destruct u.
Qed.

Lemma safe_Update key updates :
  Forall capacity_ok updates -> safe (base.Update key updates).
Proof.
  intros Hok σ Hσ. eexists tt, _. split; [reflexivity|].
  unfold base.updated. destruct (σ !! key) as [item|] eqn:E; [|exact Hσ].
  intros name item' Hget. destruct (decide (key = name)) as [->|Hne].
  - rewrite lookup_insert_eq in Hget. simplify_eq.
    destruct (Hσ _ _ E) as [Hkey Hcap].
    destruct (apply_kept updates item Hok Hcap) as [Hkey' Hcap'].
    split; [congruence | exact Hcap'].
  - rewrite lookup_insert_ne in Hget by done. by apply Hσ.
Qed.

Lemma safe_applyLimit basket :
  0 <= Capacity (BConfig basket) -> safe (Basket.applyLimit basket).
Proof.
  intros Hcap. unfold Basket.applyLimit. case_match; [|apply safe_ret].
  rewrite slice_Some by (pose proof (len_nonneg (Requests basket)); lia).
  unfold lift. apply safe_bind; [apply safe_ret|]. intros rs.
  apply safe_bind; [|intros ?; apply safe_ret].
  apply safe_Update. by repeat constructor.
Qed.

Lemma safe_Basket_Update config basket :
  makeslice GoInt.ptr_size (Capacity config) = true ->
  safe (Basket.Update config basket).
Proof.
  intros Hcap. unfold Basket.Update.
  apply safe_bind; [apply safe_applyLimit; by eapply makeslice_nonneg|].
  intros basket'.
  apply safe_bind; [|intros ?; apply safe_ret].
  apply safe_Update. by repeat constructor.
Qed.

Lemma safe_Add data basket :
  0 <= Capacity (BConfig basket) -> safe (Basket.Add data basket).
Proof.
  intros Hcap. unfold Basket.Add.
  apply safe_bind; [by apply safe_applyLimit|]. intros basket'.
  apply safe_bind; [|intros ?; apply safe_ret].
  apply safe_Update. by repeat constructor.
Qed.

Lemma safe_Clear basket :
  makeslice GoInt.ptr_size (Capacity (BConfig basket)) = true ->
  safe (Basket.Clear basket).
Proof.
  intros Hcap. unfold Basket.Clear. rewrite Hcap. cbn [negb].
  apply safe_bind; [|intros ?; apply safe_ret].
  apply safe_Update. by repeat constructor.
Qed.

Lemma safe_SetResponse method response basket :
  safe (Basket.SetResponse method response basket).
Proof.
  unfold Basket.SetResponse.
  apply safe_bind; [|intros ?; apply safe_ret].
  apply safe_Update. by repeat constructor.
Qed.

Lemma safe_Create generated name config :
  makeslice GoInt.ptr_size (Capacity config) = true ->
  safe (BasketsDatabase.Create generated name config).
Proof.
  intros Hcap. destruct generated as [token|]; [|apply safe_ret].
  intros σ Hσ. rewrite Create_run by exact Hcap.
  destruct (σ !! name) eqn:E; [by eexists _, _|].
  eexists _, _. split; [reflexivity|].
  intros name' item Hget. destruct (decide (name = name')) as [->|Hne].
  - rewrite lookup_insert_eq in Hget. by simplify_eq.
  - rewrite lookup_insert_ne in Hget by done. by apply Hσ.
Qed.

Lemma safe_Delete name : safe (BasketsDatabase.Delete name).
Proof.
  intros σ Hσ. eexists tt, _. split; [reflexivity|].
  intros name' item Hget. destruct (decide (name = name')) as [->|Hne].
  - by rewrite lookup_delete_eq in Hget.
  - rewrite lookup_delete_ne in Hget by done. by apply Hσ.
Qed.

(** What follows [getAuthorizedBasket] in a handler is run with a
    basket of the collection. *)
Lemma safe_authorized {A} r (k : Response.t + string * detaBasket -> M A) :
  (forall w, safe (k (inl w))) ->
  (forall basket,
     makeslice GoInt.ptr_size (Capacity (BConfig basket)) = true ->
     safe (k (inr (Request.basket r, basket)))) ->
  safe (bind (getAuthorizedBasket r) k).
Proof.
  intros Hw Hbasket σ Hσ. unfold bind. rewrite getAuthorizedBasket_run.
  destruct (validBasketName (Request.basket r)); [|by apply Hw].
  destruct (σ !! Request.basket r) as [basket|] eqn:E; [|by apply Hw].
  apply Hbasket; [|exact Hσ]. by destruct (Hσ _ _ E).
Qed.

End Safe.

Section Safety.

Context {lib : GoLib} {runtime : GoRuntime} {deta : DetaService}
  (serverConfig : ServerConfig).

Local Abbreviation serve := (serve serverConfig).
Local Abbreviation serve_all := (serve_all serverConfig).

(** The runtime allocates the requests of a basket of every capacity
    that [validateBasketConfig] lets pass. *)
Hypothesis Hallowed :
  forall capacity, 1 <= capacity <= MaxCapacity serverConfig ->
                   makeslice GoInt.ptr_size capacity = true.

Lemma validateBasketConfig_capacity config :
  validateBasketConfig serverConfig config = None ->
  makeslice GoInt.ptr_size (Capacity config) = true.
Proof.
  unfold validateBasketConfig. intros Hvalid. apply Hallowed.
  destruct (Z.ltb_spec (Capacity config) 1); [discriminate|].
  destruct (Z.ltb_spec (MaxCapacity serverConfig) (Capacity config));
    [discriminate | lia].
Qed.

Lemma safe_CreateBasket generated r :
  makeslice GoInt.ptr_size (InitCapacity serverConfig) = true ->
  safe (CreateBasket serverConfig generated r).
Proof.
  intros Hinit. unfold CreateBasket.
  repeat (case_match; try apply safe_ret); simplify_eq.
  - apply safe_bind; [|intros []; apply safe_ret].
    apply safe_Create. by eapply validateBasketConfig_capacity.
  - apply safe_bind; [|intros []; apply safe_ret].
    by apply safe_Create.
Qed.

Lemma safe_UpdateBasket r : safe (UpdateBasket serverConfig r).
Proof.
  unfold UpdateBasket. apply safe_authorized; [intros w; apply safe_ret|].
  intros basket Hcap. repeat (case_match; try apply safe_ret).
  apply safe_bind; [|intros ?; apply safe_ret].
  apply safe_Basket_Update. by eapply validateBasketConfig_capacity.
Qed.

Lemma safe_DeleteBasket r : safe (DeleteBasket r).
Proof.
  unfold DeleteBasket. apply safe_authorized; [intros w; apply safe_ret|].
  intros basket Hcap.
  apply safe_bind; [apply safe_Delete | intros ?; apply safe_ret].
Qed.

Lemma safe_UpdateBasketResponse r : safe (UpdateBasketResponse r).
Proof.
  unfold UpdateBasketResponse. apply safe_authorized; [intros w; apply safe_ret|].
  intros basket Hcap. repeat (case_match; try apply safe_ret).
  apply safe_bind; [apply safe_SetResponse | intros ?; apply safe_ret].
Qed.

Lemma safe_ClearBasket r : safe (ClearBasket r).
Proof.
  unfold ClearBasket. apply safe_authorized; [intros w; apply safe_ret|].
  intros basket Hcap.
  apply safe_bind; [by apply safe_Clear | intros ?; apply safe_ret].
Qed.

Lemma safe_Accept name data : safe (AcceptBasketRequests_store name data).
Proof.
  intros σ Hσ. unfold AcceptBasketRequests_store, bind at 1.
  unfold BasketsDatabase.Get, base.Get.
  destruct (σ !! name) as [basket|] eqn:E; [|by apply safe_ret].
  destruct (Hσ _ _ E) as [_ Hcap%makeslice_nonneg].
  apply safe_bind; [by apply safe_Add | intros ?; apply safe_ret | exact Hσ].
Qed.

Lemma safe_serve c :
  makeslice GoInt.ptr_size (InitCapacity serverConfig) = true -> safe (serve c).
Proof.
  intros Hinit. destruct c; simpl; try apply safe_Accept;
    (apply safe_bind; [|intros ?; apply safe_ret]).
  - by apply safe_CreateBasket.
  - apply safe_UpdateBasket.
  - apply safe_DeleteBasket.
  - apply safe_UpdateBasketResponse.
  - apply safe_ClearBasket.
Qed.

Lemma safe_serve_all cs :
  makeslice GoInt.ptr_size (InitCapacity serverConfig) = true ->
  safe (serve_all cs).
Proof.
  intros Hinit. induction cs as [|c cs IH]; simpl; [apply safe_ret|].
  apply safe_bind; [by apply safe_serve | intros ?; exact IH].
Qed.

(** On a runtime that allocates the requests of a basket of every
    capacity from 1 to the maximum of the server, the calls that write
    to the collection ([CreateBasket], [UpdateBasket], [DeleteBasket],
    [UpdateBasketResponse], [ClearBasket], and the storing of a captured
    request from [basketsDb.Get] on, the name being given) answer every
    series of requests, from the empty collection on, exactly when the
    runtime also allocates the initial capacity of the server; every
    item they leave is then stored under its own key with a capacity the
    runtime allocates.  Where it does not allocate the initial capacity,
    as for a negative one, the creation of a basket without a
    configuration panics. *)
Theorem server_returns_iff_InitCapacity_allocates :
  (forall cs, exists σ', serve_all cs ∅ = Some (tt, σ') /\ well_kept σ')
  <-> makeslice GoInt.ptr_size (InitCapacity serverConfig) = true.
Proof.
  split.
  - intros Hall.
    destruct (Hall [CallCreateBasket (Some "token"%string)
                      (Example.request "basket1" "" "")])
      as (σ' & Hrun & _).
    simpl in Hrun. unfold bind, CreateBasket in Hrun.
    change (ReadAll_LimitReader _ _) with (Some ""%string) in Hrun.
    simpl in Hrun. unfold bind, BasketsDatabase.Create in Hrun. simpl in Hrun.
    by destruct (makeslice GoInt.ptr_size (InitCapacity serverConfig)).
  - intros Hinit cs.
    destruct (safe_serve_all cs Hinit ∅) as ([] & σ' & Hrun & Hσ').
    + intros name item Hget. by rewrite lookup_empty in Hget.
    + by exists σ'.
Qed.

End Safety.

(** The defaults of the command line, on a runtime that allocates up to
    2^30 bytes: a basket is created, filled beyond a new capacity of 1
    and cleared. *)
Lemma server_returns_witness :
  exists σ',
    serve_all (lib := Example.lib) (runtime := Example.runtime)
      (Example.serverConfig ModePublic)
      [CallCreateBasket (Some "token"%string) (Example.request "basket1" "" "");
       CallUpdateBasket (Example.request "basket1" "" "1");
       CallAcceptBasketRequests "basket1" (snapshot "req1");
       CallAcceptBasketRequests "basket1" (snapshot "req2");
       CallClearBasket (Example.request "basket1" "" "")] ∅
    = Some (tt, σ') /\
    well_kept (runtime := Example.runtime) σ'.
Proof.
  apply (server_returns_iff_InitCapacity_allocates (lib := Example.lib)
           (runtime := Example.runtime) (Example.serverConfig ModePublic)).
  - intros capacity Hrange. simpl in Hrange. unfold makeslice. simpl.
    unfold Example.makeslice, GoInt.ptr_size.
    apply andb_true_iff. split; apply Z.leb_le; lia.
  - reflexivity.
Defined.

(** ** Listing the baskets: [GetAllNames], [Size], [GetNames] *)

(** The pointers of a page point into the heap, which does not
    shrink, and there is one for every item. *)
Lemma decode_page_pointers page : forall heap backing,
  Forall (λ v, v < length heap)%nat backing ->
  (length heap <= length (BasketsDatabase.decode_page heap backing page).1)%nat /\
  Forall (λ v, v < length (BasketsDatabase.decode_page heap backing page).1)%nat
    (BasketsDatabase.decode_page heap backing page).2 /\
  length (BasketsDatabase.decode_page heap backing page).2 = length page.
Proof.
  induction page as [|item page IH]; intros heap backing Hin; simpl.
  - split; [done|]. split; [constructor | done].
  - destruct backing as [|p backing].
    + destruct (IH (heap ++ [item]) []) as (Hle & Hall & Hcount); [constructor|].
      destruct (BasketsDatabase.decode_page (heap ++ [item]) [] page)
        as [heap' baskets].
      simpl in *. rewrite length_app in Hle. simpl in Hle.
      split; [lia|]. split; [|by rewrite Hcount].
      constructor; [lia | exact Hall].
    + inversion Hin as [|? ? Hp Hrest]; subst.
      destruct (IH (<[p := item]> heap) backing) as (Hle & Hall & Hcount).
      { by rewrite length_insert. }
      destruct (BasketsDatabase.decode_page (<[p := item]> heap) backing page)
        as [heap' baskets].
      simpl in *. rewrite length_insert in Hle.
      split; [lia|]. split; [|by rewrite Hcount].
      constructor; [lia | exact Hall].
Qed.

(** The pointers appended to [results] point into the heap, and there
    is one for every item of every page. *)
Lemma fetch_all_results pages : forall heap backing results,
  Forall (λ v, v < length heap)%nat backing ->
  Forall (λ v, v < length heap)%nat results ->
  Forall (λ v, v < length (BasketsDatabase.fetch_all pages heap backing results).1)%nat
    (BasketsDatabase.fetch_all pages heap backing results).2 /\
  length (BasketsDatabase.fetch_all pages heap backing results).2
    = (length results + length (concat pages))%nat.
Proof.
  induction pages as [|page pages IH]; intros heap backing results Hback Hin; simpl.
  - split; [done | lia].
  - destruct page as [|item page]; simpl.
    + rewrite app_nil_r. apply IH; [constructor | exact Hin].
    + destruct (decode_page_pointers (item :: page) heap backing Hback)
        as (Hle & Hall & Hcount).
      simpl in Hle, Hall, Hcount.
      destruct (match backing with
                | [] => _
                | p :: backing0 => _
                end) as [heap' baskets] eqn:E.
      simpl in Hle, Hall, Hcount.
      assert (Hgrow : forall l, Forall (λ v, v < length heap)%nat l ->
                                Forall (λ v, v < length heap')%nat l).
      { intros l Hl. eapply Forall_impl; [exact Hl|]. intros v Hv. simpl in Hv. lia. }
      destruct (IH heap' (baskets ++ drop (S (length page)) backing)
                  (results ++ baskets)) as (Hall' & Hcount').
      * apply Forall_app. split; [exact Hall|]. apply Hgrow.
        by apply Forall_drop.
      * apply Forall_app. split; [by apply Hgrow | exact Hall].
      * split; [exact Hall'|]. rewrite Hcount', !length_app, Hcount.
        simpl. rewrite ?length_app. lia.
Qed.

Lemma length_omap_lookup {A B} (f : A -> B) (cells : list A) results :
  Forall (λ v, v < length cells)%nat results ->
  length (omap (λ v, f <$> cells !! v) results) = length results.
Proof.
  induction 1 as [|v results Hv _ IH]; [done|]. simpl.
  destruct (lookup_lt_is_Some_2 cells v Hv) as [cell ->]. simpl. f_equal. exact IH.
Qed.

Lemma omap_lookup_seq {A B} (f : A -> B) (cells after : list A) : forall before,
  omap (λ v, f <$> (before ++ cells ++ after) !! v)
    (seq (length before) (length cells))
  = f <$> cells.
Proof.
  induction cells as [|cell cells IH]; intros before; [done|]. simpl.
  rewrite list_lookup_middle by done. simpl. f_equal.
  specialize (IH (before ++ [cell])).
  rewrite length_app, Nat.add_1_r, <- app_assoc in IH. exact IH.
Qed.

Lemma omap_lookup_prefix {A B} (f : A -> B) (cells after : list A) :
  omap (λ v, f <$> (cells ++ after) !! v) (seq 0 (length cells)) = f <$> cells.
Proof. apply (omap_lookup_seq f cells after []). Qed.

Lemma omap_lookup_all {A B} (f : A -> B) (cells : list A) :
  omap (λ v, f <$> cells !! v) (seq 0 (length cells)) = f <$> cells.
Proof.
  pose proof (omap_lookup_prefix f cells []) as Hall.
  by rewrite app_nil_r in Hall.
Qed.

Lemma GetAllNames_returns {deta : DetaService} σ :
  exists names,
    BasketsDatabase.GetAllNames σ = Some (names, σ) /\
    length names = size σ.
Proof.
  unfold BasketsDatabase.GetAllNames.
  destruct (fetch_all_results (Fetch_pages σ) [] [] []) as (Hall & Hcount);
    [constructor | constructor |].
  destruct (BasketsDatabase.fetch_all (Fetch_pages σ) [] [] []) as [cells results].
  simpl in Hall, Hcount. eexists. split; [reflexivity|].
  rewrite length_omap_lookup by exact Hall. rewrite Hcount.
  rewrite (Permutation_length (Fetch_pages_items σ)).
  by rewrite length_fmap, length_map_to_list.
Qed.

(** A page decoded into a slice that holds no pointer: every item gets
    a new basket. *)
Lemma decode_page_new page : forall heap,
  BasketsDatabase.decode_page heap [] page
  = (heap ++ page, seq (length heap) (length page)).
Proof.
  induction page as [|item page IH]; intros heap; simpl.
  - by rewrite app_nil_r.
  - rewrite IH, length_app, Nat.add_1_r, <- app_assoc. reflexivity.
Qed.

(** A page decoded into a slice that holds the pointers of a page at
    least as long: its items replace the first baskets of that page. *)
Lemma decode_page_over page : forall before old,
  (length page <= length old)%nat ->
  BasketsDatabase.decode_page (before ++ old)
    (seq (length before) (length old)) page
  = (before ++ page ++ drop (length page) old,
     seq (length before) (length page)).
Proof.
  induction page as [|item page IH]; intros before old Hlen; simpl; [done|].
  destruct old as [|cell old]; simpl in *; [lia|].
  rewrite insert_app_r_alt, Nat.sub_diag by done. simpl.
  specialize (IH (before ++ [item]) old).
  rewrite length_app, Nat.add_1_r, <- !app_assoc in IH. simpl in IH.
  rewrite IH by lia. reflexivity.
Qed.

Lemma Fetch_into_first page :
  BasketsDatabase.Fetch_into [] [] page
  = (page, seq 0 (length page), seq 0 (length page)).
Proof.
  destruct page as [|item page]; [done|].
  unfold BasketsDatabase.Fetch_into.
  rewrite (decode_page_new (item :: page) []), drop_nil, app_nil_r. reflexivity.
Qed.

(** A listing that comes in one page, or in none. *)
Lemma GetAllNames_one_page {deta : DetaService} σ :
  (length (Fetch_pages σ) <= 1)%nat ->
  BasketsDatabase.GetAllNames σ = Some (Key <$> concat (Fetch_pages σ), σ).
Proof.
  intros Hone. unfold BasketsDatabase.GetAllNames.
  destruct (Fetch_pages σ) as [|page [|? ?]]; simpl in *; [done| |lia].
  rewrite Fetch_into_first, !app_nil_r. simpl. do 2 f_equal.
  apply omap_lookup_all.
Qed.

Lemma keyed_names σ :
  keyed σ -> Key <$> (map_to_list σ).*2 = (map_to_list σ).*1.
Proof.
  intros Hσ. rewrite <- list_fmap_compose.
  apply list_fmap_ext. intros i [name item] Hi. simpl.
  apply (Hσ name item), elem_of_map_to_list. by eapply list_elem_of_lookup_2.
Qed.

(** In a collection that keeps every item under its own key, [Size] is
    the number of baskets, however the service pages the listing.  When
    the listing comes in one page, [GetAllNames] lists every basket
    once.  When it comes in two, the second no longer than the first,
    the baskets of the first page are decoded over by those of the
    second: the names of the second page are listed twice, and of the
    first page only the names beyond the length of the second. *)
Theorem GetAllNames_lists_one_page_once {deta : DetaService} σ :
  keyed σ ->
  exists names,
    BasketsDatabase.GetAllNames σ = Some (names, σ) /\
    BasketsDatabase.Size σ = Some (Z.of_nat (size σ), σ) /\
    ((length (Fetch_pages σ) <= 1)%nat ->
     NoDup names /\ forall name, name ∈ names <-> is_Some (σ !! name)) /\
    (forall first second,
       Fetch_pages σ = [first; second] ->
       (length second <= length first)%nat ->
       names = (Key <$> second) ++ (Key <$> drop (length second) first)
                 ++ (Key <$> second)).
Proof.
  intros Hσ. destruct (GetAllNames_returns σ) as (names & Hrun & Hlen).
  exists names. split; [exact Hrun|]. split; [|split].
  - unfold BasketsDatabase.Size, bind. rewrite Hrun.
    unfold ret, GoInt.len. by rewrite Hlen.
  - intros Hone. rewrite GetAllNames_one_page in Hrun by exact Hone.
    assert (Hperm : names ≡ₚ (map_to_list σ).*1).
    { simplify_eq. rewrite <- (keyed_names σ Hσ).
      by rewrite (Fetch_pages_items σ). }
    split.
    + rewrite Hperm. apply NoDup_fst_map_to_list.
    + intros name. rewrite Hperm, list_elem_of_fmap. split.
      * intros ([name' item] & -> & Hin). apply elem_of_map_to_list in Hin.
        by eexists.
      * intros [item Hget]. exists (name, item). split; [done|].
        by apply elem_of_map_to_list.
  - intros first second Hpages Hshort.
    unfold BasketsDatabase.GetAllNames in Hrun. rewrite Hpages in Hrun.
    cbn [BasketsDatabase.fetch_all] in Hrun.
    rewrite Fetch_into_first in Hrun. cbn [app] in Hrun.
    destruct second as [|item second].
    + simpl in Hrun. rewrite app_nil_r in Hrun. simplify_eq. simpl.
      rewrite app_nil_r. apply omap_lookup_all.
    + unfold BasketsDatabase.Fetch_into in Hrun.
      remember (item :: second) as page eqn:Hpage.
      pose proof (decode_page_over page [] first Hshort) as Hover.
      change ([] ++ first) with first in Hover.
      change (length (@nil detaBasket)) with 0%nat in Hover.
      change ([] ++ page ++ drop (length page) first)
        with (page ++ drop (length page) first) in Hover.
      rewrite Hover in Hrun. clear Hpage Hover. simplify_eq.
      change ([] ++ seq 0 (length first)) with (seq 0 (length first)).
      rewrite omap_app, app_assoc. f_equal.
      * assert (Hcells : length first
                         = length (page ++ drop (length page) first)).
        { rewrite length_app, length_drop. lia. }
        rewrite Hcells, omap_lookup_all. apply fmap_app.
      * apply omap_lookup_prefix.
Qed.

(** Two baskets, served in one page. *)
Lemma GetAllNames_witness :
  exists names,
    BasketsDatabase.GetAllNames (deta := Example.deta) store2 = Some (names, store2) /\
    NoDup names /\
    BasketsDatabase.Size (deta := Example.deta) store2 = Some (2, store2).
Proof.
  destruct (GetAllNames_lists_one_page_once (deta := Example.deta) store2)
    as (names & Hrun & Hsize & Hone & _).
  - intros name item Hget. unfold store2 in Hget.
    destruct (decide (name = "basket2"%string)) as [->|Hne].
    + rewrite lookup_insert_eq in Hget. by simplify_eq.
    + rewrite lookup_insert_ne in Hget by done. unfold store1 in Hget.
      destruct (decide (name = "basket1"%string)) as [->|Hne'].
      * rewrite lookup_singleton_eq in Hget. by simplify_eq.
      * by rewrite lookup_singleton_ne in Hget.
  - exists names. split; [exact Hrun|]. split; [|exact Hsize].
    apply Hone. simpl. lia.
Defined.

(** The same two baskets, served one by one: a name is listed twice and
    the other is missing. *)
Example GetAllNames_two_pages :
  exists name,
    fst <$> BasketsDatabase.GetAllNames (deta := Example.deta_by_one) store2
      = Some [name; name].
Proof. eexists. vm_compute. reflexivity. Qed.

Lemma names_cut (listed : list string) max skip :
  0 <= max -> 0 <= skip -> skip + max <= GoInt.max_int ->
  GoInt.add skip max = skip + max /\
  (skip < GoInt.len listed ->
   GoInt.slice listed skip
     (if GoInt.len listed <? skip + max then GoInt.len listed else skip + max)
   = Some (take (Z.to_nat max) (drop (Z.to_nat skip) listed))) /\
  (GoInt.len listed <= skip ->
   take (Z.to_nat max) (drop (Z.to_nat skip) listed) = []).
Proof.
  intros Hmax Hskip Hsum. split; [|split].
  - apply wrap_id. unfold GoInt.min_int, GoInt.max_int in *. lia.
  - intros Hlt. unfold GoInt.len in *.
    destruct (Z.ltb_spec (Z.of_nat (length listed)) (skip + max)).
    + rewrite slice_Some by (unfold GoInt.len; lia). f_equal.
      rewrite !take_ge; [done| |]; rewrite length_drop; lia.
    + rewrite slice_Some by (unfold GoInt.len; lia). do 2 f_equal. lia.
  - intros Hle. rewrite drop_ge; [by rewrite take_nil|]. unfold GoInt.len in Hle. lia.
Qed.

(** [GetNames(max, skip)], for [max >= 0], [skip >= 0] whose sum is a Go
    [int]: the page is cut from the names of the collection when
    [skip = 0] or nothing is cached, which are cached then; any other
    page is cut from the cached names, whatever the collection holds by
    then.  [Count] is the number of names the page is cut from. *)
Theorem GetNames_page {deta : DetaService} max skip db σ :
  0 <= max -> 0 <= skip -> skip + max <= GoInt.max_int ->
  exists listed,
    (if (skip =? 0) || bool_decide (keys db = [])
     then BasketsDatabase.GetAllNames σ = Some (listed, σ)
     else listed = keys db) /\
    BasketsDatabase.GetNames max skip db σ =
      Some ((BasketNamesPage.mk
               (take (Z.to_nat max) (drop (Z.to_nat skip) listed))
               (GoInt.len listed)
               (skip + max <? GoInt.len listed),
             mkDatabase listed), σ).
Proof.
  intros Hmax Hskip Hsum.
  destruct (GetAllNames_returns σ) as (names & Hnames & _).
  exists (if (skip =? 0) || bool_decide (keys db = []) then names else keys db).
  unfold BasketsDatabase.GetNames, bind at 1.
  destruct ((skip =? 0) || bool_decide (keys db = [])).
  - split; [exact Hnames|].
    unfold bind at 1. rewrite Hnames. unfold ret at 1. cbv zeta.
    set (listed := names).
    change (keys (mkDatabase listed)) with listed.
    destruct (names_cut listed max skip Hmax Hskip Hsum) as (-> & Hin & Hout).
    destruct (Z.ltb_spec skip (GoInt.len listed)).
    + unfold bind, lift. rewrite Hin by done. reflexivity.
    + unfold ret. rewrite Hout by done. reflexivity.
  - split; [reflexivity|]. unfold ret at 1. cbv zeta. destruct db as [listed].
    change (keys (mkDatabase listed)) with listed.
    destruct (names_cut listed max skip Hmax Hskip Hsum) as (-> & Hin & Hout).
    destruct (Z.ltb_spec skip (GoInt.len listed)).
    + unfold bind, lift. rewrite Hin by done. reflexivity.
    + unfold ret. rewrite Hout by done. reflexivity.
Qed.

Lemma GetNames_returns {deta : DetaService} max skip db σ :
  0 <= max -> 0 <= skip -> skip + max <= GoInt.max_int ->
  exists page db', BasketsDatabase.GetNames max skip db σ = Some ((page, db'), σ).
Proof.
  intros Hmax Hskip Hsum. unfold BasketsDatabase.GetNames, bind at 1.
  set (refreshed := if (skip =? 0) || bool_decide (keys db = [])
                    then _ else _).
  assert (exists db1, refreshed σ = Some (db1, σ)) as [[listed] ->].
  { unfold refreshed. destruct (GetAllNames_returns σ) as (names & Hnames & _).
    case_match; [|by eexists]. unfold bind. rewrite Hnames. by eexists. }
  cbv zeta. change (keys (mkDatabase listed)) with listed.
  destruct (names_cut listed max skip Hmax Hskip Hsum) as (-> & Hin & _).
  destruct (Z.ltb_spec skip (GoInt.len listed)).
  - unfold bind, lift. rewrite Hin by done. by eexists _, _.
  - by eexists _, _.
Qed.

(** The second page of two, cut from three cached names after the
    collection was emptied. *)
Lemma GetNames_page_witness :
  BasketsDatabase.GetNames (deta := Example.deta) 2 2
    (mkDatabase ["a"; "b"; "c"]%string) ∅
  = Some ((BasketNamesPage.mk ["c"%string] 3 false,
           mkDatabase ["a"; "b"; "c"]%string), ∅).
Proof.
  destruct (GetNames_page (deta := Example.deta) 2 2
              (mkDatabase ["a"; "b"; "c"]%string) ∅)
    as (listed & Hlisted & Hrun); [lia | lia | vm_compute; discriminate |].
  simpl in Hlisted. subst listed. exact Hrun.
Defined.

Section Listing.

Context {lib : GoLib} {runtime : GoRuntime} {deta : DetaService}
  (serverConfig : ServerConfig).
Hypothesis HPageSize : 1 <= PageSize serverConfig.
Hypothesis HMaxCapacity : 0 <= MaxCapacity serverConfig.
Hypothesis Hrange :
  PageSize serverConfig * 10 + MaxCapacity serverConfig <= GoInt.max_int.

(** The runtime allocates the result of a search of up to
    [10 * PageSize] names. *)
Hypothesis Hmake :
  forall max, 1 <= max <= PageSize serverConfig * 10 ->
              makeslice GoInt.string_size max = true.

(** With a page size of 1 or more and a maximal capacity of 0 or more,
    whose sum [10 * PageSize + MaxCapacity] is a Go [int], and a runtime
    that allocates the result of a search, [GetBaskets] answers every
    request with status 200, whatever the parameters [max], [skip] and
    [q] of the query are, and leaves the collection as it is. *)
Theorem GetBaskets_returns r db σ :
  exists json db',
    GetBaskets serverConfig r db σ = Some ((writeJSON StatusOK json, db'), σ).
Proof.
  destruct (getPage_range serverConfig HPageSize HMaxCapacity Hrange r)
    as [Hmax Hskip].
  unfold GetBaskets. rewrite authorizeRequest_always.
  destruct (getPage serverConfig r) as [max skip]. simpl in *.
  destruct (0 <? len_string (Request.q r)).
  - unfold bind. rewrite FindNames_finds_nothing by (apply Hmake; lia).
    by eexists _, _.
  - destruct (GetNames_returns max skip db σ) as (page & db' & Hrun); [lia..|].
    unfold bind. rewrite Hrun. by eexists _, _.
Qed.

End Listing.

Lemma Example_makeslice_small size cap :
  0 <= size <= 16 -> 0 <= cap <= 2 ^ 20 ->
  makeslice (GoRuntime := Example.runtime) size cap = true.
Proof.
  intros Hsize Hcap. change (Example.makeslice size cap = true).
  unfold Example.makeslice. apply andb_true_iff.
  split; apply Z.leb_le; [lia|].
  change (2 ^ 30) with (16 * 2 ^ 26). change (2 ^ 20) with 1048576 in Hcap.
  change (2 ^ 26) with 67108864. nia.
Qed.

(** The defaults of the command line on a runtime that allocates up to
    2^30 bytes, and a query for the second page of found names. *)
Lemma GetBaskets_witness :
  exists json db',
    GetBaskets (lib := Example.lib) (runtime := Example.runtime)
      (deta := Example.deta) (Example.serverConfig ModePublic)
      {| Request.basket := ""; Request.method := "";
         Request.Authorization := ""; Request.q := "bask"; Request.in_ := "";
         Request.max := "10"; Request.skip := "10"; Request.Body := None |}
      (mkDatabase []) store1
    = Some ((writeJSON StatusOK json, db'), store1).
Proof.
  apply (GetBaskets_returns (lib := Example.lib) (runtime := Example.runtime)
           (deta := Example.deta) (Example.serverConfig ModePublic)).
  - simpl; lia.
  - simpl; lia.
  - vm_compute; discriminate.
  - intros max Hmax. simpl in Hmax.
    apply Example_makeslice_small; unfold GoInt.string_size; lia.
Defined.

(** The same server, and a search in the basket of [store1]. *)
Lemma GetBasketRequests_witness :
  is_Some
    (GetBasketRequests (lib := Example.lib) (runtime := Example.runtime)
       (Example.serverConfig ModePublic)
       {| Request.basket := "basket1"; Request.method := "";
          Request.Authorization := ""; Request.q := "req"; Request.in_ := "body";
          Request.max := "-5"; Request.skip := "99999"; Request.Body := None |}
       store1).
Proof.
  apply (GetBasketRequests_returns (lib := Example.lib) (runtime := Example.runtime)
           (Example.serverConfig ModePublic)).
  - simpl; lia.
  - simpl; lia.
  - vm_compute; discriminate.
  - intros max Hmax. simpl in Hmax.
    apply Example_makeslice_small; unfold GoInt.ptr_size; lia.
Defined.

(** ** The handlers of a basket *)

Section BasketHandlers.

Context {lib : GoLib} {runtime : GoRuntime} {deta : DetaService}
  (serverConfig : ServerConfig).

(** Every handler that works on one basket answers a name that does not
    match the pattern with 400, and a name that matches and names no
    basket with 404; in both cases the collection is left as it is. *)
Theorem basket_handlers_need_a_basket r σ :
  validBasketName (Request.basket r) = false \/ σ !! Request.basket r = None ->
  Forall (fun handler : Request.t -> M Response.t =>
            handler r σ =
              Some (if validBasketName (Request.basket r)
                    then WriteHeader StatusNotFound
                    else http_Error Response.InvalidName StatusBadRequest, σ))
    [GetBasket; UpdateBasket serverConfig; DeleteBasket; GetBasketResponse;
     UpdateBasketResponse; GetBasketRequests serverConfig; ClearBasket].
Proof.
  intros Hmissing.
  assert (Hfound : getAuthorizedBasket r σ =
            Some (inl (if validBasketName (Request.basket r)
                       then WriteHeader StatusNotFound
                       else http_Error Response.InvalidName StatusBadRequest), σ)).
  { rewrite getAuthorizedBasket_run.
    destruct (validBasketName (Request.basket r)); [|reflexivity].
    destruct Hmissing as [Hbad | Hnone]; [done | by rewrite Hnone]. }
  repeat constructor.
  - unfold GetBasket, bind. by rewrite Hfound.
  - unfold UpdateBasket, bind. by rewrite Hfound.
  - unfold DeleteBasket, bind. by rewrite Hfound.
  - unfold GetBasketResponse, bind. by rewrite Hfound.
  - unfold UpdateBasketResponse, bind. by rewrite Hfound.
  - unfold GetBasketRequests, bind. by rewrite Hfound.
  - unfold ClearBasket, bind. by rewrite Hfound.
Qed.

(** [DeleteBasket] of a basket answers 204 and removes the item of that
    name and no other; every handler of a basket, [DeleteBasket]
    included, answers 404 for that name from then on. *)
Theorem DeleteBasket_then_not_found r σ basket :
  validBasketName (Request.basket r) = true ->
  σ !! Request.basket r = Some basket ->
  exists σ',
    DeleteBasket r σ = Some (WriteHeader StatusNoContent, σ') /\
    σ' !! Request.basket r = None /\
    (forall other, other <> Request.basket r -> σ' !! other = σ !! other) /\
    Forall (fun handler : Request.t -> M Response.t =>
              forall r', Request.basket r' = Request.basket r ->
                handler r' σ' = Some (WriteHeader StatusNotFound, σ'))
      [GetBasket; UpdateBasket serverConfig; DeleteBasket; GetBasketResponse;
       UpdateBasketResponse; GetBasketRequests serverConfig; ClearBasket].
Proof.
  intros Hvalid Hget. exists (delete (Request.basket r) σ).
  split.
  { unfold DeleteBasket, bind. by rewrite getAuthorizedBasket_run, Hvalid, Hget. }
  split; [apply lookup_delete_eq|].
  split; [intros other Hne; by apply lookup_delete_ne|].
  assert (Hfound : forall r', Request.basket r' = Request.basket r ->
            getAuthorizedBasket r' (delete (Request.basket r) σ) =
              Some (inl (WriteHeader StatusNotFound), delete (Request.basket r) σ)).
  { intros r' Hname. by rewrite getAuthorizedBasket_run, Hname, Hvalid, lookup_delete_eq. }
  repeat constructor; intros r' Hname.
  - unfold GetBasket, bind. by rewrite Hfound.
  - unfold UpdateBasket, bind. by rewrite Hfound.
  - unfold DeleteBasket, bind. by rewrite Hfound.
  - unfold GetBasketResponse, bind. by rewrite Hfound.
  - unfold UpdateBasketResponse, bind. by rewrite Hfound.
  - unfold GetBasketRequests, bind. by rewrite Hfound.
  - unfold ClearBasket, bind. by rewrite Hfound.
Qed.

(** [CreateBasket] under a free name, where the runtime allocates the
    capacity of the new basket, answers 201 with the generated token and
    stores an empty basket: with the configuration decoded from the body
    when there is one and it is allowed, with the initial capacity of
    the server, no forward URL and no flag when the body is empty.
    [GetBasket] then answers 200 with that configuration. *)
Theorem CreateBasket_then_GetBasket token r σ body config :
  name_free_to_create (Request.basket r) ->
  σ !! Request.basket r = None ->
  ReadAll_LimitReader (Request.Body r) 2048 = Some body ->
  (body = ""%string /\ config = defaultConfig serverConfig) \/
  (body <> ""%string /\
   Unmarshal_BasketConfig body (defaultConfig serverConfig) = Some config /\
   basket_config_ok serverConfig config) ->
  makeslice GoInt.ptr_size (Capacity config) = true ->
  exists σ',
    CreateBasket serverConfig (Some token) r σ
      = Some (writeJSON StatusCreated (Response.Auth (BasketAuth.mk token)), σ') /\
    σ' = <[Request.basket r :=
             BasketsDatabase.basketData (Request.basket r) token config]> σ /\
    GetBasket r σ' = Some (writeJSON StatusOK (Response.Config config), σ').
Proof.
  intros Hfree Hnone Hbody Hconfig Hmake.
  pose proof Hfree as (Hn1 & Hn2 & Hn3 & Hvalid).
  eexists. split; [|split; [reflexivity|]].
  - unfold CreateBasket. rewrite authorizeRequest_always.
    apply String.eqb_neq in Hn1, Hn2, Hn3. rewrite Hn1, Hn2, Hn3, Hvalid.
    cbn [negb orb]. cbv zeta. rewrite Hbody.
    destruct Hconfig as [(-> & ->) | (Hne & Hjson & Hok)].
    + change (0 <? len_string ""%string) with false. cbv beta iota.
      unfold bind. fold (defaultConfig serverConfig).
      rewrite Create_run by exact Hmake. by rewrite Hnone.
    + apply len_string_pos_iff in Hne. rewrite Hne.
      fold (defaultConfig serverConfig). rewrite Hjson.
      pose proof Hok as Hnone'%validateBasketConfig_None. rewrite Hnone'.
      unfold bind. rewrite Create_run by exact Hmake. by rewrite Hnone.
  - unfold GetBasket, bind.
    by rewrite getAuthorizedBasket_run, Hvalid, lookup_insert_eq.
Qed.

(** [UpdateBasket] of a stored basket, by what the body holds: nothing,
    304 and no change; what does not decode, 400 and no change; an
    allowed configuration, 204, and the basket is stored with that
    configuration and with its requests cut down to the new capacity,
    the other baskets as they were. *)
Theorem UpdateBasket_outcomes r σ item body :
  validBasketName (Request.basket r) = true ->
  σ !! Request.basket r = Some item ->
  Key item = Request.basket r ->
  ReadAll_LimitReader (Request.Body r) 2048 = Some body ->
  (body = ""%string ->
   UpdateBasket serverConfig r σ = Some (WriteHeader StatusNotModified, σ)) /\
  (body <> ""%string ->
   Unmarshal_BasketConfig body (BConfig item) = None ->
   UpdateBasket serverConfig r σ
     = Some (http_Error (Response.Message ErrJSON) StatusBadRequest, σ)) /\
  (forall config,
     body <> ""%string ->
     Unmarshal_BasketConfig body (BConfig item) = Some config ->
     basket_config_ok serverConfig config ->
     UpdateBasket serverConfig r σ
       = Some (WriteHeader StatusNoContent,
               <[Request.basket r :=
                   with_Requests (take (Z.to_nat (Capacity config)) (Requests item))
                     (with_BConfig config item)]> σ)).
Proof.
  intros Hvalid Hget Hkey Hbody.
  unfold UpdateBasket, bind. rewrite getAuthorizedBasket_run, Hvalid, Hget, Hbody.
  split; [by intros ->|]. split.
  - intros Hne%len_string_pos_iff Hjson. rewrite Hne. unfold Basket.Config.
    by rewrite Hjson.
  - intros config Hne%len_string_pos_iff Hjson Hok. rewrite Hne.
    unfold Basket.Config. rewrite Hjson.
    pose proof Hok as Hnone%validateBasketConfig_None. rewrite Hnone.
    destruct Hok as [Hcap _].
    change (bind (Basket.Update config item) ?k σ)
      with (match Basket.Update config item σ with
            | Some (a, σ') => k a σ'
            | None => None
            end).
    rewrite Update_spec by lia. unfold ret. do 2 f_equal.
    unfold limited_store, limited, base.updated. simpl. rewrite Hkey.
    destruct (Capacity config <? GoInt.len (Requests item)) eqn:E.
    + rewrite Hget. simpl. rewrite lookup_insert_eq. simpl.
      by rewrite insert_insert_eq.
    + rewrite Hget. simpl. rewrite take_ge; [by destruct item|].
      unfold GoInt.len in E. lia.
Qed.

(** [UpdateBasketResponse] with an allowed response for one of the nine
    methods answers 204; [GetBasketResponse] for that method then
    answers 200 with that response, and for every other method what it
    answered before.  A method for which the basket holds no response
    gets the default one: status 200, no header, an empty body, no
    template. *)
Theorem UpdateBasketResponse_then_GetBasketResponse r σ item body response :
  validBasketName (Request.basket r) = true ->
  σ !! Request.basket r = Some item ->
  Key item = Request.basket r ->
  ToUpper (Request.method r) ∈ validMethods ->
  ReadAll_LimitReader (Request.Body r) (64 * 1024) = Some body ->
  body <> ""%string ->
  Unmarshal_ResponseConfig body (mkResponseConfig StatusOK [] "" false)
    = Some response ->
  response_config_ok response ->
  exists σ',
    UpdateBasketResponse r σ = Some (WriteHeader StatusNoContent, σ') /\
    GetBasketResponse r σ'
      = Some (writeJSON StatusOK (Response.ResponseOf response), σ') /\
    (forall r',
       Request.basket r' = Request.basket r ->
       ToUpper (Request.method r') <> ToUpper (Request.method r) ->
       fst <$> GetBasketResponse r' σ' = fst <$> GetBasketResponse r' σ) /\
    (forall other, other <> Request.basket r -> σ' !! other = σ !! other) /\
    (Responses item !! ToUpper (Request.method r) = None ->
     GetBasketResponse r σ
       = Some (writeJSON StatusOK
                 (Response.ResponseOf (mkResponseConfig 200 [] "" false)), σ)).
Proof.
  intros Hvalid Hget Hkey Hm Hbody Hne%len_string_pos_iff Hjson Hok.
  assert (Hmethod : forall r', ToUpper (Request.method r') ∈ validMethods ->
            getValidMethod r' = (ToUpper (Request.method r'), None)).
  { intros r' Hm'. unfold getValidMethod. by rewrite bool_decide_eq_true_2. }
  exists (<[Request.basket r :=
             with_Responses
               (<[ToUpper (Request.method r) := response]> (Responses item)) item]> σ).
  split; [|split; [|split; [|split]]].
  - unfold UpdateBasketResponse, bind.
    rewrite getAuthorizedBasket_run, Hvalid, Hget, (Hmethod r Hm), Hbody, Hne.
    change (Status defaultResponse) with StatusOK. rewrite Hjson.
    apply validateResponseConfig_None in Hok. rewrite Hok.
    unfold Basket.SetResponse, bind, base.Update, ret, base.updated. simpl.
    by rewrite Hkey, Hget.
  - unfold GetBasketResponse, bind.
    rewrite getAuthorizedBasket_run, Hvalid, lookup_insert_eq, (Hmethod r Hm).
    unfold Basket.GetResponse. simpl. by rewrite lookup_insert_eq.
  - intros r' Hname Hother. unfold GetBasketResponse, bind.
    rewrite !getAuthorizedBasket_run, Hname, Hvalid, lookup_insert_eq, Hget.
    unfold getValidMethod. case_bool_decide; [|reflexivity].
    unfold Basket.GetResponse. simpl. by rewrite lookup_insert_ne.
  - intros other Hother. by rewrite lookup_insert_ne.
  - intros Hnone. unfold GetBasketResponse, bind.
    rewrite getAuthorizedBasket_run, Hvalid, Hget, (Hmethod r Hm).
    unfold Basket.GetResponse. by rewrite Hnone.
Qed.

End BasketHandlers.

(** A name with a space, and a name that no basket of [store1] has. *)
Lemma basket_handlers_need_a_basket_witness :
  GetBasket (Example.request "no basket" "" "") store1
    = Some (http_Error Response.InvalidName StatusBadRequest, store1) /\
  ClearBasket (runtime := Example.runtime) (Example.request "basket2" "" "") store1
    = Some (WriteHeader StatusNotFound, store1).
Proof.
  split.
  - assert (Hbad : validBasketName (Request.basket (Example.request "no basket" "" ""))
                   = false \/
                   store1 !! Request.basket (Example.request "no basket" "" "") = None)
      by (left; vm_compute; reflexivity).
    pose proof (basket_handlers_need_a_basket (lib := Example.lib)
                  (runtime := Example.runtime)
                  (Example.serverConfig ModePublic) _ store1 Hbad) as Hall.
    inversion Hall as [|? ? Hhead _]. exact Hhead.
  - assert (Hnone : validBasketName (Request.basket (Example.request "basket2" "" ""))
                    = false \/
                    store1 !! Request.basket (Example.request "basket2" "" "") = None)
      by (right; vm_compute; reflexivity).
    pose proof (basket_handlers_need_a_basket (lib := Example.lib)
                  (runtime := Example.runtime)
                  (Example.serverConfig ModePublic) _ store1 Hnone) as Hall.
    do 6 (inversion Hall as [|? ? _ Hall']; clear Hall; rename Hall' into Hall).
    inversion Hall as [|? ? Hhead _]. exact Hhead.
Defined.

(** The basket of [store1] is deleted; its configuration is not found
    afterwards. *)
Lemma DeleteBasket_witness :
  exists σ',
    DeleteBasket (Example.request "basket1" "" "") store1
      = Some (WriteHeader StatusNoContent, σ') /\
    GetBasket (Example.request "basket1" "" "") σ'
      = Some (WriteHeader StatusNotFound, σ').
Proof.
  destruct (DeleteBasket_then_not_found (lib := Example.lib)
              (runtime := Example.runtime)
              (Example.serverConfig ModePublic)
              (Example.request "basket1" "" "") store1
              (BasketsDatabase.basketData "basket1" "token" (plainConfig 200)))
    as (σ' & Hrun & _ & _ & Hall).
  - vm_compute; reflexivity.
  - apply lookup_singleton_eq.
  - exists σ'. split; [exact Hrun|].
    inversion Hall as [|? ? Hhead _]. by apply Hhead.
Defined.

(** A basket of capacity 30 is created besides the one of [store1]. *)
Lemma CreateBasket_then_GetBasket_witness :
  exists σ',
    CreateBasket (lib := Example.lib) (runtime := Example.runtime)
      (Example.serverConfig ModePublic)
      (Some "token2"%string) (Example.request "basket2" "" "30") store1
      = Some (writeJSON StatusCreated (Response.Auth (BasketAuth.mk "token2")), σ') /\
    GetBasket (Example.request "basket2" "" "30") σ'
      = Some (writeJSON StatusOK (Response.Config (plainConfig 30)), σ').
Proof.
  destruct (CreateBasket_then_GetBasket (lib := Example.lib)
              (runtime := Example.runtime)
              (Example.serverConfig ModePublic) "token2"
              (Example.request "basket2" "" "30") store1 "30" (plainConfig 30))
    as (σ' & Hrun & _ & Hget).
  - vm_compute. repeat split; discriminate.
  - vm_compute; reflexivity.
  - reflexivity.
  - right. split; [discriminate|]. split; [reflexivity|].
    split; [simpl; lia | by left].
  - reflexivity.
  - by exists σ'.
Defined.

(** The capacity of a basket with three requests is set to 1. *)
Lemma UpdateBasket_outcomes_witness :
  UpdateBasket (lib := Example.lib) (Example.serverConfig ModePublic)
    (Example.request "test105" "" "1") {[ "test105"%string := basket3 ]}
  = Some (WriteHeader StatusNoContent,
          {[ "test105"%string :=
               mkBasket "test105" "token" (plainConfig 1) [snapshot "req3"] 3 ∅ ]}).
Proof.
  destruct (UpdateBasket_outcomes (lib := Example.lib) (Example.serverConfig ModePublic)
              (Example.request "test105" "" "1") {[ "test105"%string := basket3 ]}
              basket3 "1")
    as (_ & _ & Hupdated).
  - vm_compute; reflexivity.
  - apply lookup_singleton_eq.
  - reflexivity.
  - reflexivity.
  - rewrite (Hupdated (plainConfig 1)).
    + simpl. by rewrite insert_singleton_eq.
    + discriminate.
    + reflexivity.
    + split; [simpl; lia | by left].
Defined.

(** The response to POST is set to status 201 for the basket of
    [store1]. *)
Lemma UpdateBasketResponse_witness :
  exists σ',
    UpdateBasketResponse (lib := Example.lib) (Example.request "basket1" "post" "201") store1
      = Some (WriteHeader StatusNoContent, σ') /\
    GetBasketResponse (lib := Example.lib) (Example.request "basket1" "post" "201") σ'
      = Some (writeJSON StatusOK
                (Response.ResponseOf (mkResponseConfig 201 [] "" false)), σ').
Proof.
  destruct (UpdateBasketResponse_then_GetBasketResponse (lib := Example.lib)
              (Example.request "basket1" "post" "201") store1
              (BasketsDatabase.basketData "basket1" "token" (plainConfig 200))
              "201" (mkResponseConfig 201 [] "" false))
    as (σ' & Hrun & Hget & _).
  - vm_compute; reflexivity.
  - apply lookup_singleton_eq.
  - reflexivity.
  - vm_compute. set_solver.
  - reflexivity.
  - discriminate.
  - reflexivity.
  - split; [simpl; lia | by left].
  - by exists σ'.
Defined.

(** ** The path of a captured request and the prefix of the service *)

Lemma list_ascii_of_append s t :
  list_ascii_of_string (s +:+ t) = list_ascii_of_string s ++ list_ascii_of_string t.
Proof.
  induction s as [|a s IH]; [reflexivity|].
  rewrite append_String. simpl. by rewrite IH.
Qed.

Lemma elem_of_ReplaceAll_byte c old new s :
  c ∈ list_ascii_of_string (strings.ReplaceAll_byte s old new) <->
  ((c ∈ list_ascii_of_string s) /\ c <> old) \/
  ((old ∈ list_ascii_of_string s) /\ (c ∈ list_ascii_of_string new)).
Proof.
  induction s as [|a s IH]; simpl.
  - rewrite !elem_of_nil. tauto.
  - destruct (Ascii.eqb_spec a old) as [->|Hne].
    + rewrite list_ascii_of_append, elem_of_app, IH, !elem_of_cons. intuition congruence.
    + simpl. rewrite !elem_of_cons, IH. intuition congruence.
Qed.

Lemma ReplaceAll_byte_id old new s :
  old ∉ list_ascii_of_string s -> strings.ReplaceAll_byte s old new = s.
Proof.
  induction s as [|a s IH]; simpl; [done|].
  rewrite not_elem_of_cons. intros [Hne Hnot].
  destruct (Ascii.eqb_spec a old) as [->|_]; [done|]. by rewrite IH.
Qed.

Lemma sanitizeForLog_id_or_caret raw :
  sanitizeForLog raw = raw \/
  (("^"%char ∈ list_ascii_of_string (sanitizeForLog raw)) /\
   (("010"%char ∈ list_ascii_of_string raw) \/ ("013"%char ∈ list_ascii_of_string raw))).
Proof.
  destruct (decide ("010"%char ∈ list_ascii_of_string raw)) as [Hn | Hn];
    [|destruct (decide ("013"%char ∈ list_ascii_of_string raw)) as [Hr | Hr]].
  - right. split; [|by left]. unfold sanitizeForLog.
    rewrite !elem_of_ReplaceAll_byte. simpl. rewrite !elem_of_cons.
    destruct (decide ("013"%char ∈ list_ascii_of_string raw)); intuition congruence.
  - right. split; [|by right]. unfold sanitizeForLog.
    rewrite !elem_of_ReplaceAll_byte. simpl. rewrite !elem_of_cons. intuition congruence.
  - left. unfold sanitizeForLog.
    rewrite (ReplaceAll_byte_id "010" _ raw Hn). by apply ReplaceAll_byte_id.
Qed.

(** What [sanitizeForLog] returns holds neither a line feed nor a
    carriage return; a string without them is returned as it is, and
    one with any of them comes back with a caret. *)
Theorem sanitizeForLog_removes_line_breaks raw :
  ("010"%char ∉ list_ascii_of_string (sanitizeForLog raw)) /\
  ("013"%char ∉ list_ascii_of_string (sanitizeForLog raw)) /\
  (("010"%char ∉ list_ascii_of_string raw) /\ ("013"%char ∉ list_ascii_of_string raw)
   <-> sanitizeForLog raw = raw) /\
  (("010"%char ∈ list_ascii_of_string raw) \/ ("013"%char ∈ list_ascii_of_string raw)
   <-> ("^"%char ∈ list_ascii_of_string (sanitizeForLog raw))
       /\ sanitizeForLog raw <> raw).
Proof.
  assert (Hlf : "010"%char ∉ list_ascii_of_string (sanitizeForLog raw)).
  { unfold sanitizeForLog. rewrite !elem_of_ReplaceAll_byte. simpl.
    rewrite !elem_of_cons, !elem_of_nil. intuition congruence. }
  assert (Hcr : "013"%char ∉ list_ascii_of_string (sanitizeForLog raw)).
  { unfold sanitizeForLog. rewrite !elem_of_ReplaceAll_byte. simpl.
    rewrite !elem_of_cons, !elem_of_nil. intuition congruence. }
  assert (Hid : ("010"%char ∉ list_ascii_of_string raw) /\
                ("013"%char ∉ list_ascii_of_string raw)
                <-> sanitizeForLog raw = raw).
  { split.
    - intros [Hn Hr]. unfold sanitizeForLog.
      rewrite (ReplaceAll_byte_id "010" _ raw Hn). by apply ReplaceAll_byte_id.
    - intros Heq. by rewrite <- Heq. }
  split; [exact Hlf|]. split; [exact Hcr|]. split; [exact Hid|].
  split.
  - intros Hbreak. split.
    + unfold sanitizeForLog. rewrite !elem_of_ReplaceAll_byte. simpl.
      rewrite !elem_of_cons, !elem_of_nil.
      destruct (decide ("013"%char ∈ list_ascii_of_string raw)); intuition congruence.
    + intros Heq. apply Hid in Heq. destruct Heq as [Hn Hr].
      by destruct Hbreak.
  - intros [_ Hne].
    destruct (decide ("010"%char ∈ list_ascii_of_string raw)); [by left|].
    destruct (decide ("013"%char ∈ list_ascii_of_string raw)); [by right|].
    destruct Hne. by apply Hid.
Qed.

(** What [normalizePrefix] returns is empty or starts with a slash; it
    is empty for the empty prefix only, a prefix of that form is
    returned as it is, and any other gets one slash in front. *)
Theorem normalizePrefix_leading_slash prefix :
  (normalizePrefix prefix = ""%string
   \/ exists rest, normalizePrefix prefix = String "/" rest) /\
  (normalizePrefix prefix = ""%string <-> prefix = ""%string) /\
  (normalizePrefix prefix = prefix
   \/ normalizePrefix prefix = String "/" prefix) /\
  normalizePrefix (normalizePrefix prefix) = normalizePrefix prefix.
Proof.
  unfold normalizePrefix. destruct prefix as [|c prefix].
  - split; [by left|]. split; [done|]. split; [by left | done].
  - destruct (Ascii.eqb_spec c "/") as [->|Hne]; simpl.
    + split; [right; by eexists|]. split; [done|]. split; [by left | done].
    + split; [right; by eexists|]. split; [done|]. split; [by right | done].
Qed.

Lemma Split_byte_head s sep :
  exists first pieces,
    strings.Split_byte s sep = first :: pieces /\
    (sep ∉ list_ascii_of_string first) /\
    ((pieces = [] /\ s = first) \/
     exists tail, s = (first +:+ String sep tail)%string /\
                  pieces = strings.Split_byte tail sep).
Proof.
  induction s as [|c s (first & pieces & Hsplit & Hfirst & Hrest)]; simpl.
  - exists ""%string, []. split; [done|]. split; [apply not_elem_of_nil|]. by left.
  - destruct (Ascii.eqb_spec c sep) as [->|Hne].
    + exists ""%string, (strings.Split_byte s sep).
      split; [done|]. split; [apply not_elem_of_nil|]. right. by exists s.
    + rewrite Hsplit. exists (String c first), pieces.
      split; [done|]. split.
      { simpl. rewrite not_elem_of_cons. split; [congruence | done]. }
      destruct Hrest as [[-> ->] | (tail & -> & ->)]; [by left|].
      right. by exists tail.
Qed.

Lemma Split_byte_second s sep :
  match strings.Split_byte s sep !! 1%nat with
  | Some piece =>
      exists first rest,
        s = (first +:+ String sep (piece +:+ rest))%string /\
        (sep ∉ list_ascii_of_string first) /\
        (sep ∉ list_ascii_of_string piece) /\
        (rest = ""%string \/ exists rest', rest = String sep rest')
  | None => sep ∉ list_ascii_of_string s
  end.
Proof.
  destruct (Split_byte_head s sep) as (first & pieces & -> & Hfirst & Hrest).
  destruct Hrest as [[-> ->] | (tail & -> & ->)]; [done|]. simpl.
  destruct (Split_byte_head tail sep) as (piece & pieces & -> & Hpiece & Hrest).
  simpl. exists first.
  destruct Hrest as [[-> ->] | (tail' & -> & ->)].
  - exists ""%string. split; [|by auto]. f_equal. f_equal.
    clear. induction piece as [|a piece IH]; [done|].
    by rewrite append_String, <- IH.
  - exists (String sep tail'). split; [done|]. split; [done|]. split; [done|].
    right. by eexists.
Qed.

Lemma prefix_from p : forall s,
  String.prefix p s = true -> s = (p +:+ strings.from (String.length p) s)%string.
Proof.
  induction p as [|a p IH]; intros [|b s]; simpl; try done.
  destruct (Ascii.ascii_dec a b) as [->|]; [|done].
  intros Hp. rewrite append_String. f_equal. by apply IH.
Qed.

Lemma valid_name_unsanitized piece :
  validBasketName (sanitizeForLog piece) = validBasketName piece /\
  (validBasketName piece = true -> sanitizeForLog piece = piece).
Proof.
  assert (Hclean : forall s c, validBasketName s = true ->
            basketNamePattern.class c = false -> c ∉ list_ascii_of_string s).
  { intros s c [_ Hall]%MatchString_spec Hc Hin.
    rewrite Forall_forall in Hall. apply Hall, class_spec in Hin. congruence. }
  destruct (sanitizeForLog_id_or_caret piece) as [Hid | Hcaret].
  - rewrite Hid. done.
  - destruct Hcaret as [Hcaret Hbreak]. split; [|intros Hvalid].
    + destruct (validBasketName (sanitizeForLog piece)) eqn:E1.
      { by destruct (Hclean _ "^"%char E1 eq_refl). }
      destruct (validBasketName piece) eqn:E2; [|done].
      destruct Hbreak as [Hin | Hin].
      * by destruct (Hclean _ "010"%char E2 eq_refl).
      * by destruct (Hclean _ "013"%char E2 eq_refl).
    + destruct Hbreak as [Hin | Hin].
      * by destruct (Hclean _ "010"%char Hvalid eq_refl).
      * by destruct (Hclean _ "013"%char Hvalid eq_refl).
Qed.

(** [getBasketNameOfAcceptedRequest], by the path that is left once the
    prefix is taken off: the name is the part between its first slash
    and the next one, returned when it matches the pattern of basket
    names, whatever [sanitizeForLog] does; a path that does not begin
    with a prefix that is not empty is an error; and with no slash left
    in the path the index expression [[1]] panics. *)
Theorem getBasketNameOfAcceptedRequest_outcomes path prefix :
  match getBasketNameOfAcceptedRequest path prefix with
  | Some (inl name) =>
      validBasketName name = true /\
      exists trimmed,
        path = (prefix +:+ trimmed)%string /\ second_segment trimmed name
  | Some (inr (ErrOutsidePrefix p)) =>
      p = prefix /\ prefix <> ""%string /\
      ~ exists trimmed, path = (prefix +:+ trimmed)%string
  | Some (inr ErrInvalidBasketName) =>
      exists trimmed piece,
        path = (prefix +:+ trimmed)%string /\ second_segment trimmed piece /\
        validBasketName piece = false
  | None =>
      exists trimmed,
        path = (prefix +:+ trimmed)%string /\
        ("/"%char ∉ list_ascii_of_string trimmed)
  end.
Proof.
  unfold getBasketNameOfAcceptedRequest.
  assert (Hsecond : forall trimmed,
            path = (prefix +:+ trimmed)%string ->
            match
              piece ← strings.Split_byte trimmed "/" !! 1%nat;
              (let name := sanitizeForLog piece in
               if negb (validBasketName name) then Some (inr ErrInvalidBasketName)
               else Some (inl name))
            with
            | Some (inl name) =>
                validBasketName name = true /\
                exists trimmed,
                  path = (prefix +:+ trimmed)%string /\ second_segment trimmed name
            | Some (inr (ErrOutsidePrefix p)) =>
                p = prefix /\ prefix <> ""%string /\
                ~ exists trimmed, path = (prefix +:+ trimmed)%string
            | Some (inr ErrInvalidBasketName) =>
                exists trimmed piece,
                  path = (prefix +:+ trimmed)%string /\ second_segment trimmed piece /\
                  validBasketName piece = false
            | None =>
                exists trimmed,
                  path = (prefix +:+ trimmed)%string /\
                  ("/"%char ∉ list_ascii_of_string trimmed)
            end).
  { intros trimmed Hpath. pose proof (Split_byte_second trimmed "/") as Hsplit.
    destruct (strings.Split_byte trimmed "/" !! 1%nat) as [piece|]; simpl.
    - destruct (valid_name_unsanitized piece) as [Hsame Hid]. rewrite Hsame.
      destruct (validBasketName piece) eqn:E; simpl.
      + rewrite (Hid eq_refl). split; [exact E|]. by exists trimmed.
      + by exists trimmed, piece.
    - by exists trimmed. }
  destruct (Z.ltb_spec 0 (len_string prefix)) as [Hlen | Hlen].
  - unfold strings.HasPrefix, strings.TrimPrefix, strings.HasPrefix.
    destruct (String.prefix prefix path) eqn:E.
    + apply Hsecond. by apply prefix_from.
    + split; [done|]. split.
      * intros ->. unfold len_string in Hlen. simpl in Hlen. lia.
      * intros Hex. apply prefix_spec in Hex. congruence.
  - apply Hsecond. destruct prefix; [done|].
    unfold len_string in Hlen. simpl in Hlen. lia.
Qed.

(** ** A cleared basket, as the API shows it *)

Section Cleared.

Context {lib : GoLib} {runtime : GoRuntime} {deta : DetaService}
  (serverConfig : ServerConfig).
Hypothesis HPageSize : 1 <= PageSize serverConfig.
Hypothesis HMaxCapacity : 0 <= MaxCapacity serverConfig.
Hypothesis Hrange :
  PageSize serverConfig * 10 + MaxCapacity serverConfig <= GoInt.max_int.
(** The runtime allocates the result of a search of up to
    [10 * PageSize] requests. *)
Hypothesis Hmake :
  forall max, 1 <= max <= PageSize serverConfig * 10 ->
              makeslice GoInt.ptr_size max = true.

(** [ClearBasket] of a stored basket whose capacity the runtime
    allocates answers 204.  [GetBasketRequests] then answers 200 with a
    page without requests that announces no more of them, whatever page
    or search is asked for; the page of a listing counts 0 requests and
    still shows the total the basket had. *)
Theorem ClearBasket_then_GetBasketRequests r σ item :
  validBasketName (Request.basket r) = true ->
  σ !! Request.basket r = Some item ->
  Key item = Request.basket r ->
  makeslice GoInt.ptr_size (Capacity (BConfig item)) = true ->
  exists σ',
    ClearBasket r σ = Some (WriteHeader StatusNoContent, σ') /\
    σ' = <[Request.basket r := with_Requests [] item]> σ /\
    forall r',
      Request.basket r' = Request.basket r ->
      GetBasketRequests serverConfig r' σ' =
        Some (writeJSON StatusOK
                (if 0 <? len_string (Request.q r')
                 then Response.FoundRequests (RequestsQueryPage.mk [] false)
                 else Response.RequestsOf
                        (RequestsPage.mk [] 0 (TotalCount item) false)), σ').
Proof.
  intros Hvalid Hget Hkey Hcap. eexists. split; [|split; [reflexivity|]].
  - unfold ClearBasket, bind. rewrite getAuthorizedBasket_run, Hvalid, Hget.
    rewrite Clear_run by exact Hcap.
    unfold ret, base.updated. simpl. by rewrite Hkey, Hget.
  - intros r' Hname.
    destruct (getPage_range serverConfig HPageSize HMaxCapacity Hrange r')
      as [Hmax Hskip].
    unfold GetBasketRequests, bind.
    rewrite getAuthorizedBasket_run, Hname, Hvalid, lookup_insert_eq.
    destruct (getPage serverConfig r') as [max skip]. simpl in Hmax, Hskip.
    destruct (0 <? len_string (Request.q r')).
    + unfold Basket.FindRequests, lift. rewrite Hmake by exact Hmax. reflexivity.
    + unfold Basket.GetRequests, Basket.Size, GoInt.add, lift. cbv zeta. simpl.
      rewrite wrap_id by (unfold GoInt.min_int, GoInt.max_int in *; lia).
      change (GoInt.len []) with 0.
      destruct (Z.ltb_spec skip 0); [lia|].
      destruct (Z.ltb_spec (skip + max) 0); [lia|]. reflexivity.
Qed.

End Cleared.

(** The basket with three requests is cleared and then searched. *)
Lemma ClearBasket_witness :
  exists σ',
    ClearBasket (runtime := Example.runtime) (Example.request "test105" "" "")
      {[ "test105"%string := basket3 ]}
      = Some (WriteHeader StatusNoContent, σ') /\
    GetBasketRequests (lib := Example.lib) (runtime := Example.runtime)
      (Example.serverConfig ModePublic)
      {| Request.basket := "test105"; Request.method := "";
         Request.Authorization := ""; Request.q := "req"; Request.in_ := "body";
         Request.max := ""; Request.skip := ""; Request.Body := None |} σ'
      = Some (writeJSON StatusOK
                (Response.FoundRequests (RequestsQueryPage.mk [] false)), σ').
Proof.
  destruct (ClearBasket_then_GetBasketRequests (lib := Example.lib)
              (runtime := Example.runtime) (Example.serverConfig ModePublic))
    with (r := Example.request "test105" "" "")
         (σ := ({[ "test105"%string := basket3 ]} : Base)) (item := basket3)
    as (σ' & Hrun & _ & Hpage).
  - simpl; lia.
  - simpl; lia.
  - vm_compute; discriminate.
  - intros max Hmax. simpl in Hmax.
    apply Example_makeslice_small; unfold GoInt.ptr_size; lia.
  - vm_compute; reflexivity.
  - apply lookup_singleton_eq.
  - reflexivity.
  - reflexivity.
  - exists σ'. split; [exact Hrun|]. by apply Hpage.
Defined.
